(** * The workspace symbol index of the SCSS language features server

    A shallow embedding of the index-and-resolver core of the server
    (alias resolution, storage, scanner, go-to-definition, completion
    labelling), together with the properties of it that the specification
    states.

    Strings are Rocq [string]s, a text being held as its UTF-8 bytes;
    JavaScript [Map]s are association lists in insertion order, since the
    providers depend on the iteration order; [undefined] is [None].
    Node's [path] module is modelled in its POSIX flavour, with the
    working directory of the process, an absolute path, as an explicit
    parameter. *)

From Stdlib Require Import String Ascii List Bool Arith ZArith DecimalString Lia.
Import ListNotations.

Set Implicit Arguments.

(* ================================================================== *)
(** * JavaScript string primitives used by the sources *)
(* ================================================================== *)

Module JsString.
Local Open Scope string_scope.

(** [s.startsWith(searchString)] *)
Fixpoint startsWith (s searchString : string) : bool :=
  match searchString, s with
  | EmptyString, _ => true
  | String _ _, EmptyString => false
  | String c p, String d s' => Ascii.eqb c d && startsWith s' p
  end.

(** [s.slice(n)] for [0 <= n] *)
Fixpoint drop (n : nat) (s : string) : string :=
  match n, s with
  | O, _ => s
  | S _, EmptyString => EmptyString
  | S n', String _ s' => drop n' s'
  end.

(** [s.endsWith(searchString)] *)
Definition endsWith (s searchString : string) : bool :=
  Nat.leb (String.length searchString) (String.length s)
  && String.eqb (drop (String.length s - String.length searchString) s)
                searchString.

(** [s.includes(c)] for a one-character [c] *)
Fixpoint includesChar (c : ascii) (s : string) : bool :=
  match s with
  | EmptyString => false
  | String d s' => Ascii.eqb c d || includesChar c s'
  end.

(** [ToString(v)] for a value that is a string or [undefined]. *)
Definition toString (v : option string) : string :=
  match v with
  | Some s => s
  | None => "undefined"
  end.

(** The first occurrence of [searchString] in [s]: the text before it and
    the text after it. *)
Fixpoint splitFirst (searchString s : string) : option (string * string) :=
  if startsWith s searchString
  then Some (EmptyString, drop (String.length searchString) s)
  else match s with
       | EmptyString => None
       | String c s' =>
           match splitFirst searchString s' with
           | Some (before, after) => Some (String c before, after)
           | None => None
           end
       end.

(** ECMAScript's [GetSubstitution] for a string pattern (no captures):
    in the replacement text, [$$] stands for a dollar sign, [$&] for the
    matched text, [$`] for the text before the match and [$'] for the
    text after it; any other [$] is literal. *)
Fixpoint getSubstitution (matched before after template : string) : string :=
  match template with
  | EmptyString => EmptyString
  | String c t =>
      if Ascii.eqb c "$" then
        match t with
        | EmptyString => String c EmptyString
        | String d rest =>
            if Ascii.eqb d "$" then String "$" (getSubstitution matched before after rest)
            else if Ascii.eqb d "&" then matched ++ getSubstitution matched before after rest
            else if Ascii.eqb d "`" then before ++ getSubstitution matched before after rest
            else if Ascii.eqb d "'" then after ++ getSubstitution matched before after rest
            else String c (getSubstitution matched before after t)
        end
      else String c (getSubstitution matched before after t)
  end.

(** [s.replace(searchString, replaceValue)] with a string pattern: only
    the first occurrence is replaced, and the replacement text goes
    through [getSubstitution]. *)
Definition replace (s searchString replaceValue : string) : string :=
  match splitFirst searchString s with
  | None => s
  | Some (before, after) =>
      before ++ getSubstitution searchString before after replaceValue ++ after
  end.

(** [s.split('/')] *)
Fixpoint splitSlashAux (cur : string) (s : string) : list string :=
  match s with
  | EmptyString => [cur]
  | String c s' =>
      if Ascii.eqb c "/" then cur :: splitSlashAux EmptyString s'
      else splitSlashAux (cur ++ String c EmptyString) s'
  end.

Definition splitSlash (s : string) : list string := splitSlashAux EmptyString s.

(** [segments.join('/')] *)
Definition joinSlash (segments : list string) : string := String.concat "/" segments.

(** The UTF-16 code units that the character starting with a byte adds
    to a text held as UTF-8: none for a continuation byte, two for the
    first byte of a four-byte sequence, which encodes a character beyond
    the basic plane, and one for any other byte. *)
Definition codeUnits (byte : ascii) : nat :=
  let n := nat_of_ascii byte in
  if Nat.ltb n 128 then 1
  else if Nat.ltb n 192 then 0
  else if Nat.ltb n 240 then 1
  else 2.

(** [s.length]: the number of UTF-16 code units of the text. *)
Fixpoint length (s : string) : nat :=
  match s with
  | EmptyString => 0
  | String byte s' => codeUnits byte + length s'
  end.
End JsString.

(* ================================================================== *)
(** * Node's [path] module (POSIX) *)
(* ================================================================== *)

Module Path.
Local Open Scope string_scope.
Import JsString.

(** [path.isAbsolute] *)
Definition isAbsolute (p : string) : bool :=
  match p with
  | String c _ => Ascii.eqb c "/"
  | EmptyString => false
  end.

(** Node's [normalizeString], on the segments of the path: empty and
    [.] segments vanish, [..] removes the segment before it, and is kept
    only where [allowAboveRoot] and nothing is left to remove.  [stack]
    holds the segments kept so far, last first. *)
Fixpoint normalizeSegments (allowAboveRoot : bool) (stack segments : list string)
  : list string :=
  match segments with
  | [] => rev stack
  | seg :: rest =>
      if String.eqb seg "" then normalizeSegments allowAboveRoot stack rest
      else if String.eqb seg "." then normalizeSegments allowAboveRoot stack rest
      else if String.eqb seg ".." then
        match stack with
        | top :: below =>
            if String.eqb top ".."
            then normalizeSegments allowAboveRoot
                   (if allowAboveRoot then seg :: stack else stack) rest
            else normalizeSegments allowAboveRoot below rest
        | [] =>
            normalizeSegments allowAboveRoot
              (if allowAboveRoot then [seg] else []) rest
        end
      else normalizeSegments allowAboveRoot (seg :: stack) rest
  end.

Definition normalizeString (p : string) (allowAboveRoot : bool) : string :=
  joinSlash (normalizeSegments allowAboveRoot [] (splitSlash p)).

(** [path.normalize] *)
Definition normalize (p : string) : string :=
  if String.eqb p "" then "."
  else
    let isAbs := isAbsolute p in
    let trailingSeparator := endsWith p "/" in
    let q := normalizeString p (negb isAbs) in
    if String.eqb q "" then
      if isAbs then "/" else if trailingSeparator then "./" else "."
    else
      let q := if trailingSeparator then q ++ "/" else q in
      if isAbs then "/" ++ q else q.

(** The right-to-left loop of [path.resolve]: arguments are prepended
    until an absolute one is met; [rargs] is the argument list reversed,
    with the working directory at its end. *)
Fixpoint resolveLoop (rargs : list string) (resolvedPath : string) : string * bool :=
  match rargs with
  | [] => (resolvedPath, false)
  | p :: rest =>
      if String.eqb p "" then resolveLoop rest resolvedPath
      else
        let resolvedPath := p ++ "/" ++ resolvedPath in
        if isAbsolute p then (resolvedPath, true) else resolveLoop rest resolvedPath
  end.

(** The segments of [path.resolve(...args)] below the root. *)
Definition resolveSegments (cwd : string) (args : list string) : list string * bool :=
  let '(resolvedPath, resolvedAbsolute) := resolveLoop (rev args ++ [cwd]) "" in
  (normalizeSegments (negb resolvedAbsolute) [] (splitSlash resolvedPath),
   resolvedAbsolute).

(** [path.resolve(...args)] in a process whose working directory is [cwd] *)
Definition resolve (cwd : string) (args : list string) : string :=
  let '(segments, resolvedAbsolute) := resolveSegments cwd args in
  if resolvedAbsolute then "/" ++ joinSlash segments
  else if String.eqb (joinSlash segments) "" then "." else joinSlash segments.

(** The common leading segments of two paths are dropped. *)
Fixpoint dropCommon (from to : list string) : list string * list string :=
  match from, to with
  | f :: from', t :: to' =>
      if String.eqb f t then dropCommon from' to' else (from, to)
  | _, _ => (from, to)
  end.

(** [path.relative(from, to)]: both are resolved, then one [..] per
    remaining segment of [from], then the remaining segments of [to]. *)
Definition relative (cwd from to : string) : string :=
  if String.eqb from to then ""
  else
    let from := resolve cwd [from] in
    let to := resolve cwd [to] in
    if String.eqb from to then ""
    else
      let '(up, down) := dropCommon (fst (resolveSegments cwd [from]))
                                    (fst (resolveSegments cwd [to])) in
      joinSlash (map (fun _ => "..") up ++ down)%list.

(** The backward scan of [path.dirname] over the characters after the
    first, last character first: trailing slashes are skipped, then the
    last segment, and what is left from the slash before it on is
    returned ([None] when there is no such slash). *)
Fixpoint skipSlashes (rs : list ascii) : list ascii :=
  match rs with
  | c :: rs' => if Ascii.eqb c "/" then skipSlashes rs' else rs
  | [] => []
  end.

Fixpoint skipSegment (rs : list ascii) : option (list ascii) :=
  match rs with
  | c :: rs' => if Ascii.eqb c "/" then Some rs' else skipSegment rs'
  | [] => None
  end.

(** [path.dirname] *)
Definition dirname (p : string) : string :=
  match p with
  | EmptyString => "."
  | String c0 tl =>
      let hasRoot := Ascii.eqb c0 "/" in
      match skipSegment (skipSlashes (rev (list_ascii_of_string tl))) with
      | None => if hasRoot then "/" else "."
      | Some [] => if hasRoot then "//" else String c0 EmptyString
      | Some before => String c0 (string_of_list_ascii (rev before))
      end
  end.

(** [path.join(...args)] *)
Definition join (args : list string) : string :=
  let joined := joinSlash (filter (fun a => negb (String.eqb a "")) args) in
  if String.eqb joined "" then "." else normalize joined.
End Path.



(* ================================================================== *)
(** * The data model ([types/symbols.ts]) *)
(* ================================================================== *)

Record Position := mkPosition { line : nat; character : nat }.

Module IVariable.
Record t := mk {
  position : option Position;
  mixin : option string;
  name : string;
  value : option string;
  offset : nat
}.
End IVariable.

Module IMixin.
Record t := mk {
  position : option Position;
  name : string;
  parameters : list IVariable.t;
  offset : nat
}.
End IMixin.

(** [type IFunction = IMixin] *)
Module IFunction := IMixin.

Module IImport.
Record t := mk {
  reference : option bool;
  filepath : string;
  dynamic : bool;
  css : bool
}.
End IImport.

Module IPathShorthand.
Record t := mk { alias : string; paths : list string }.
End IPathShorthand.

Module ITsConfig.
Record t := mk {
  filepath : string;
  paths : option (list IPathShorthand.t)
}.
End ITsConfig.

Module IDocumentSymbols.
Record t := mk {
  document : option string;   (* the imported path in the document *)
  filepath : option string;   (* the real path on the file system *)
  variables : list IVariable.t;
  mixins : list IMixin.t;
  functions : list IFunction.t;
  imports : list IImport.t
}.
End IDocumentSymbols.

(* ================================================================== *)
(** * The alias resolver ([utils/aliasedPath.ts]) *)
(* ================================================================== *)

Section AliasResolver.
Local Open Scope string_scope.

(** The working directory of the server process, which [path.resolve]
    falls back on. *)
Variable cwd : string.

(** [associatedTsConfig?.paths?.find(sh => fsPath.startsWith(sh.alias))] *)
Definition matchingShorthand (fsPath : string) (associatedTsConfig : option ITsConfig.t)
  : option IPathShorthand.t :=
  match associatedTsConfig with
  | Some c =>
      match ITsConfig.paths c with
      | Some shorthands =>
          find (fun pathShorthand =>
                  JsString.startsWith fsPath (IPathShorthand.alias pathShorthand))
               shorthands
      | None => None
      end
  | None => None
  end.

Definition resolveAliasedPath (fsPath documentPath : string)
           (associatedTsConfig : option ITsConfig.t) : string :=
  match associatedTsConfig, matchingShorthand fsPath associatedTsConfig with
  | Some c, Some shorthand =>
      let inputFragmentAfterReplacement :=
        JsString.replace fsPath (IPathShorthand.alias shorthand)
          (JsString.toString (nth_error (IPathShorthand.paths shorthand) 0)) in
      Path.resolve cwd [Path.dirname (ITsConfig.filepath c); inputFragmentAfterReplacement]
  | _, _ => Path.resolve cwd [Path.dirname documentPath; fsPath]
  end.
End AliasResolver.

(** The alias entries of a config, none when it has no table. *)
Definition aliasesOf (c : ITsConfig.t) : list IPathShorthand.t :=
  match ITsConfig.paths c with
  | Some shorthands => shorthands
  | None => []
  end.

(** [text.replace(/\*$/, '')]: one trailing star is removed. *)
Definition stripTrailingStar (text : string) : string :=
  if JsString.endsWith text "*"
  then String.substring 0 (String.length text - 1) text
  else text.

(** The entry that [parseTsConfig] makes of one [compilerOptions.paths]
    member [alias: paths]. *)
Definition pathShorthandOfEntry (entry : string * list string) : IPathShorthand.t :=
  IPathShorthand.mk (stripTrailingStar (fst entry)) (map stripTrailingStar (snd entry)).

(** A replacement text in which [String.prototype.replace] expands
    nothing: no dollar sign in it is followed by a dollar sign, an
    ampersand, a backtick or an apostrophe. *)
Fixpoint expandsNothing (text : string) : bool :=
  match text with
  | EmptyString => true
  | String c t =>
      if Ascii.eqb c "$" then
        match t with
        | EmptyString => true
        | String d _ =>
            negb (Ascii.eqb d "$" || Ascii.eqb d "&" || Ascii.eqb d "`" || Ascii.eqb d "'")
            && expandsNothing t
        end
      else expandsNothing t
  end.

(* ================================================================== *)
(** * JavaScript [Map] and [Set] with string keys *)
(* ================================================================== *)

(** A [Map<string, V>] is the list of its entries in insertion order:
    setting a key that is present keeps its place, a new key goes last. *)
Module JsMap.
Section WithValue.
Variable V : Type.

Definition t := list (string * V).

Definition empty : t := [].

Fixpoint get (m : t) (key : string) : option V :=
  match m with
  | [] => None
  | (k, v) :: m' => if String.eqb k key then Some v else get m' key
  end.

Fixpoint set (m : t) (key : string) (value : V) : t :=
  match m with
  | [] => [(key, value)]
  | (k, v) :: m' =>
      if String.eqb k key then (key, value) :: m' else (k, v) :: set m' key value
  end.

Definition delete (m : t) (key : string) : t :=
  filter (fun entry => negb (String.eqb (fst entry) key)) m.

Definition has (m : t) (key : string) : bool :=
  match get m key with Some _ => true | None => false end.

Definition keys (m : t) : list string := map fst m.

Definition values (m : t) : list V := map snd m.
End WithValue.
End JsMap.

(** A [Set<string>] under iteration: the elements already visited and, in
    insertion order, those still to come.  [add] of an element that is in
    the set, visited or not, changes nothing. *)
Module JsSet.
Record t := mk { visited : list string; pending : list string }.

Definition has (s : t) (x : string) : bool :=
  existsb (String.eqb x) (visited s) || existsb (String.eqb x) (pending s).

Definition add (s : t) (x : string) : t :=
  if has s x then s else mk (visited s) (pending s ++ [x]).

Definition addAll (s : t) (xs : list string) : t := fold_left add xs s.

(** [new Set(files)] *)
Definition ofList (xs : list string) : t := addAll (mk [] []) xs.

Definition elements (s : t) : list string := visited s ++ pending s.
End JsSet.

(* ================================================================== *)
(** * The storage service ([services/storage.ts]) *)
(* ================================================================== *)

Module StorageService.
Record t := mk {
  _scssDocuments : JsMap.t IDocumentSymbols.t;
  _tsConfigs : JsMap.t ITsConfig.t;
  (* associations between scss path and tsconfig path *)
  _tsConfigsAssociations : JsMap.t string
}.

Definition create : t := mk [] [] [].

Definition get (s : t) (key : string) : option IDocumentSymbols.t :=
  JsMap.get (_scssDocuments s) key.

Definition set (s : t) (key : string) (value : IDocumentSymbols.t) : t :=
  mk (JsMap.set (_scssDocuments s) key value) (_tsConfigs s) (_tsConfigsAssociations s).

Definition delete (s : t) (key : string) : t :=
  mk (JsMap.delete (_scssDocuments s) key) (_tsConfigs s) (_tsConfigsAssociations s).

Definition clear (s : t) : t :=
  mk [] [] (_tsConfigsAssociations s).

Definition getTsConfig (s : t) (configUri : string) : option ITsConfig.t :=
  JsMap.get (_tsConfigs s) configUri.

Definition setTsConfig (s : t) (configUri : string) (configValue : ITsConfig.t) : t :=
  mk (_scssDocuments s) (JsMap.set (_tsConfigs s) configUri configValue)
     (_tsConfigsAssociations s).

Definition deleteTsConfig (s : t) (configUri : string) : t :=
  mk (_scssDocuments s) (JsMap.delete (_tsConfigs s) configUri)
     (_tsConfigsAssociations s).

(** [associatedTsConfigUri ? this._tsConfigs.get(...) : undefined]: the
    empty string is as good as no association. *)
Definition getAssociatedTsConfig (s : t) (scssUri : string) : option ITsConfig.t :=
  match JsMap.get (_tsConfigsAssociations s) scssUri with
  | Some associatedTsConfigUri =>
      if String.eqb associatedTsConfigUri "" then None
      else JsMap.get (_tsConfigs s) associatedTsConfigUri
  | None => None
  end.

Definition associate (s : t) (scssUri tsConfigUri : string) : t :=
  mk (_scssDocuments s) (_tsConfigs s)
     (JsMap.set (_tsConfigsAssociations s) scssUri tsConfigUri).

Definition desociate (s : t) (scssUri : string) : t :=
  mk (_scssDocuments s) (_tsConfigs s)
     (JsMap.delete (_tsConfigsAssociations s) scssUri).

Definition keys (s : t) : list string := JsMap.keys (_scssDocuments s).

Definition values (s : t) : list IDocumentSymbols.t := JsMap.values (_scssDocuments s).

Definition entries (s : t) : list (string * IDocumentSymbols.t) := _scssDocuments s.
End StorageService.

(* ================================================================== *)
(** * What the core consumes from its collaborators *)
(* ================================================================== *)

(** The file system at one moment: the paths that exist, each with its
    text, or with [None] when the file is there and cannot be read. *)
Definition FileSystem := list (string * option string).

(** A text document of the editor protocol. *)
Module TextDocument.
Record t := create { uri : string; getText : string }.
End TextDocument.

Inductive SymbolKind := KindVariable | KindMethod | KindFunction | KindOther.

(** A symbol as the CSS language service reports it. *)
Module SymbolInformation.
Record t := mk { name : string; kind : SymbolKind; location_range_start : Position }.
End SymbolInformation.

Module DocumentLink.
Record t := mk { target : option string }.
End DocumentLink.

(** The CSS language service, the position arithmetic of the text
    document, and what is read off the syntax tree. *)
Module LanguageService.
Record t := mk {
  findDocumentSymbols : TextDocument.t -> list SymbolInformation.t;
  findDocumentLinks2 : TextDocument.t -> list DocumentLink.t;
  offsetAt : TextDocument.t -> Position -> nat;
  positionAt : TextDocument.t -> nat -> Position;
  (* the text of the enclosing variable declaration's value *)
  variableValueAt : TextDocument.t -> nat -> option string;
  (* the parameters of the declaration at an offset *)
  methodParametersAt : TextDocument.t -> nat -> list IVariable.t
}.
End LanguageService.

(** The [vscode-uri] library, as far as the sources use it. *)
Module URI.
Record t := mk {
  file_toString : string -> string;   (* URI.file(path).toString() *)
  parse_fsPath : string -> string     (* URI.parse(uri).fsPath *)
}.
End URI.

Module ISettings.
Record t := mk {
  scanImportedFiles : bool;
  implicitlyLabel : option string;
  suggestVariables : bool;
  suggestMixins : bool;
  suggestFunctions : bool
}.
End ISettings.

(** How an asynchronous operation over the storage ends: its promise is
    resolved or rejected, with the storage as it then is, or the
    operation is still running when the fuel of the model is used up. *)
Inductive Outcome :=
| Resolved (storage : StorageService.t)
| Rejected (storage : StorageService.t)
| Running.

(* ================================================================== *)
(** * File-system helpers ([utils/fs.ts]) *)
(* ================================================================== *)

Section FsUtils.
Local Open Scope string_scope.
Variable cwd : string.
Variable uriLibrary : URI.t.
Variable fs : FileSystem.

Definition fileExists (filepath : string) : bool :=
  existsb (fun entry => String.eqb (fst entry) filepath) fs.

(** [readFile]: [None] when the promise is rejected. *)
Definition readFile (filepath : string) : option string :=
  match find (fun entry => String.eqb (fst entry) filepath) fs with
  | Some (_, content) => content
  | None => None
  end.

(** Checks if file is descendant of directory. *)
Definition isDescendant (file dir : string) : bool :=
  let relative := Path.relative cwd dir file in
  negb (String.eqb relative "")
  && negb (JsString.startsWith relative "..")
  && negb (Path.isAbsolute relative).

(** The [while (dir !== limit)] loop of [findFileInParents]; [None] when
    the loop is still running after [fuel] rounds. *)
Fixpoint findFileInParentsLoop (fuel : nat) (filename dir limit : string)
  : option (option string) :=
  match fuel with
  | O => None
  | S fuel' =>
      if String.eqb dir limit then Some None
      else
        let filepath := Path.join [dir; filename] in
        if fileExists filepath then Some (Some filepath)
        else findFileInParentsLoop fuel' filename (Path.dirname dir) limit
  end.

(** Checks if file exists in directory or in its parents up until the
    limit directory. *)
Definition findFileInParents (fuel : nat) (filename dir limit : string)
  : option (option string) :=
  if negb (isDescendant dir limit) || isDescendant limit dir then Some None
  else findFileInParentsLoop fuel filename dir limit.

(** Make URI a normalized absolute FS path. *)
Definition uriToFsPath (uri : string) : string :=
  Path.normalize
    (if JsString.startsWith uri "file://" then URI.parse_fsPath uriLibrary uri else uri).

(** Make FS path a normalized absolute URI. *)
Definition fsPathToUri (pathname : string) : string :=
  URI.file_toString uriLibrary (Path.normalize pathname).
End FsUtils.

(* ================================================================== *)
(** * The parser service ([services/parser.ts]) *)
(* ================================================================== *)

Section Parser.
Local Open Scope string_scope.
Variable uriLibrary : URI.t.
Variable ls : LanguageService.t.

(** [reDynamicPath = /[#{}\*]/] *)
Definition reDynamicPath_test (target : string) : bool :=
  JsString.includesChar "#" target || JsString.includesChar "{" target
  || JsString.includesChar "}" target || JsString.includesChar "*" target.

Definition convertLinksToImports (links : list DocumentLink.t) : list IImport.t :=
  flat_map (fun link =>
              match DocumentLink.target link with
              | Some target =>
                  [IImport.mk None target (reDynamicPath_test target)
                              (JsString.endsWith target ".css")]
              | None => []
              end) links.

Definition findDocumentLinks (document : TextDocument.t) : list DocumentLink.t :=
  flat_map (fun link =>
              match DocumentLink.target link with
              | Some target =>
                  if String.eqb target "" then []
                  else [DocumentLink.mk (Some (uriToFsPath uriLibrary target))]
              | None => []
              end)
           (LanguageService.findDocumentLinks2 ls document).

Definition variablesOf (document : TextDocument.t) (symbols : list SymbolInformation.t)
  : list IVariable.t :=
  flat_map (fun symbol =>
              let position := SymbolInformation.location_range_start symbol in
              let offset := LanguageService.offsetAt ls document position in
              match SymbolInformation.kind symbol with
              | KindVariable =>
                  [IVariable.mk (Some position) None (SymbolInformation.name symbol)
                                (LanguageService.variableValueAt ls document offset) offset]
              | _ => []
              end) symbols.

Definition methodsOf (wanted : SymbolKind) (document : TextDocument.t)
           (symbols : list SymbolInformation.t) : list IMixin.t :=
  flat_map (fun symbol =>
              let position := SymbolInformation.location_range_start symbol in
              let offset := LanguageService.offsetAt ls document position in
              match SymbolInformation.kind symbol, wanted with
              | KindMethod, KindMethod | KindFunction, KindFunction =>
                  [IMixin.mk (Some position) (SymbolInformation.name symbol)
                             (LanguageService.methodParametersAt ls document offset) offset]
              | _, _ => []
              end) symbols.

(** [findDocumentSymbols]: the symbols of the language service sorted by
    kind, and the links as imports; the two paths are not set here. *)
Definition findDocumentSymbols (document : TextDocument.t) : IDocumentSymbols.t :=
  let symbols := LanguageService.findDocumentSymbols ls document in
  IDocumentSymbols.mk None None
    (variablesOf document symbols)
    (methodsOf KindMethod document symbols)
    (methodsOf KindFunction document symbols)
    (convertLinksToImports (findDocumentLinks document)).

(** The [symbols] of [parseDocument(document)]:
    [{ document: documentPath, filepath: documentPath, ...findDocumentSymbols }]. *)
Definition parseDocument (document : TextDocument.t) : IDocumentSymbols.t :=
  let documentPath := uriToFsPath uriLibrary (TextDocument.uri document) in
  let found := findDocumentSymbols document in
  IDocumentSymbols.mk (Some documentPath) (Some documentPath)
    (IDocumentSymbols.variables found) (IDocumentSymbols.mixins found)
    (IDocumentSymbols.functions found) (IDocumentSymbols.imports found).
End Parser.

(* ================================================================== *)
(** * The scanner service ([services/scanner.ts]) *)
(* ================================================================== *)

Section Scanner.
Local Open Scope string_scope.
Variable cwd : string.
Variable uriLibrary : URI.t.
Variable ls : LanguageService.t.
Variable settings : ISettings.t.
Variable fs : FileSystem.

(** The outcome of [parseTsConfig] on the file system as it is: the config
    read from a path, or [None] when reading the file fails and the promise
    is rejected. *)
Variable parseTsConfig : string -> option ITsConfig.t.

(** The body of the loops of [addTsConfigFile] and [deleteTsConfigFile]
    over the keys of the storage: a key below [ancestor] is associated to
    [tsConfigUri] when that is a non-empty string, and loses its
    association otherwise. *)
Definition reassociate (ancestor : string) (tsConfigUri : option string)
           (storage : StorageService.t) (scssUri : string) : StorageService.t :=
  if isDescendant cwd scssUri ancestor then
    match tsConfigUri with
    | Some configUri =>
        if String.eqb configUri "" then StorageService.desociate storage scssUri
        else StorageService.associate storage scssUri configUri
    | None => StorageService.desociate storage scssUri
    end
  else storage.

Definition addTsConfigFile (storage : StorageService.t) (tsConfigPath : string) : Outcome :=
  match parseTsConfig tsConfigPath with
  | None => Rejected storage
  | Some tsConfig =>
      let tsConfigUri := fsPathToUri uriLibrary tsConfigPath in
      let storage := StorageService.setTsConfig storage tsConfigUri tsConfig in
      Resolved (fold_left (reassociate (Path.dirname tsConfigPath) (Some tsConfigUri))
                          (StorageService.keys storage) storage)
  end.

Definition deleteTsConfigFile (fuel : nat) (storage : StorageService.t)
           (tsConfigPath workspaceDir : string) : Outcome :=
  let tsConfigUri := fsPathToUri uriLibrary tsConfigPath in
  let storage := StorageService.deleteTsConfig storage tsConfigUri in
  match findFileInParents cwd fs fuel "tsconfig.json"
          (Path.dirname (Path.dirname tsConfigPath)) workspaceDir with
  | None => Running
  | Some newTsConfigPath =>
      let newTsConfigUri :=
        match newTsConfigPath with
        | Some p => if String.eqb p "" then None else Some (fsPathToUri uriLibrary p)
        | None => None
        end in
      Resolved (fold_left (reassociate tsConfigPath newTsConfigUri)
                          (StorageService.keys storage) storage)
  end.

(** [oldTsConfig.paths = newTsConfig.paths], on the entry held by the map. *)
Definition updateTsConfigFile (storage : StorageService.t) (tsConfigPath : string) : Outcome :=
  match parseTsConfig tsConfigPath with
  | None => Rejected storage
  | Some newTsConfig =>
      let tsConfigUri := fsPathToUri uriLibrary tsConfigPath in
      match StorageService.getTsConfig storage tsConfigUri with
      | None => Resolved storage
      | Some oldTsConfig =>
          Resolved (StorageService.setTsConfig storage tsConfigUri
                      (ITsConfig.mk (ITsConfig.filepath oldTsConfig)
                                    (ITsConfig.paths newTsConfig)))
      end
  end.

(** The targets that a scan follows: imports that are neither dynamic nor
    plain CSS. *)
Definition staticImports (symbols : IDocumentSymbols.t) : list string :=
  map IImport.filepath
      (filter (fun symbol => negb (IImport.dynamic symbol || IImport.css symbol))
              (IDocumentSymbols.imports symbols)).

(** [{ ...symbols, filepath }] *)
Definition storageValueOf (symbols : IDocumentSymbols.t) (filepath : string)
  : IDocumentSymbols.t :=
  IDocumentSymbols.mk (IDocumentSymbols.document symbols) (Some filepath)
    (IDocumentSymbols.variables symbols) (IDocumentSymbols.mixins symbols)
    (IDocumentSymbols.functions symbols) (IDocumentSymbols.imports symbols).

(** The [for (let filepath of iterator)] loop of [scanScssFiles], one
    round per unit of fuel.  Beside the outcome it returns the paths it
    took from the set, in the order it scanned them. *)
Fixpoint scanLoop (fuel : nat) (iterator : JsSet.t) (storage : StorageService.t)
  : Outcome * list string :=
  match JsSet.pending iterator with
  | [] => (Resolved storage, JsSet.visited iterator)
  | raw :: rest =>
      match fuel with
      | O => (Running, JsSet.visited iterator)
      | S fuel' =>
          let iterator := JsSet.mk (JsSet.visited iterator ++ [raw]) rest in
          (* Cast to the system file path style *)
          let filepath := Path.normalize raw in
          let uri := URI.file_toString uriLibrary filepath in
          if negb (fileExists fs filepath)
          then scanLoop fuel' iterator (StorageService.delete storage uri)
          else
            match readFile fs filepath with
            | None => (Rejected storage, JsSet.visited iterator)
            | Some content =>
                let document := TextDocument.create uri content in
                let symbols := parseDocument uriLibrary ls document in
                let storage :=
                  StorageService.set storage uri (storageValueOf symbols filepath) in
                if negb (ISettings.scanImportedFiles settings)
                then scanLoop fuel' iterator storage
                else scanLoop fuel' (JsSet.addAll iterator (staticImports symbols)) storage
            end
      end
  end.

Definition scanScssFiles (fuel : nat) (storage : StorageService.t) (files : list string)
  : Outcome :=
  fst (scanLoop fuel (JsSet.ofList files) storage).

(** The paths one call of [scanScssFiles] scans, in order. *)
Definition scannedPaths (fuel : nat) (storage : StorageService.t) (files : list string)
  : list string :=
  snd (scanLoop fuel (JsSet.ofList files) storage).

(** Every path a scan of [files] can meet: the files themselves and the
    static imports of every readable file of the file system. *)
Definition scanUniverse (files : list string) : list string :=
  files ++
  flat_map (fun entry =>
              match snd entry with
              | Some content =>
                  staticImports
                    (parseDocument uriLibrary ls
                       (TextDocument.create (URI.file_toString uriLibrary (fst entry)) content))
              | None => []
              end) fs.

(** Rounds enough for any scan of [files]. *)
Definition scanFuel (files : list string) : nat := S (length (scanUniverse files)).
End Scanner.

(* ================================================================== *)
(** * Syntax-tree nodes ([types/nodes.ts]) *)
(* ================================================================== *)

(** [enum NodeType], a numeric enumeration: the members the providers
    test, with their values. *)
Module NodeType.
Definition t := nat.
Definition Undefined : t := 0.
Definition Identifier : t := 1.
Definition StringLiteral : t := 27.
Definition Function : t := 30.
Definition MixinReference : t := 35.
Definition VariableName : t := 36.
Definition VariableDeclaration : t := 37.
Definition Import : t := 54.
Definition FunctionParameter : t := 62.
Definition Use : t := 77.
End NodeType.

Module INode.
Record t := mk { type : NodeType.t; offset : nat; length : nat; getName : string }.
End INode.

(** The root of a parsed stylesheet, by its [getChildren()]. *)
Module Stylesheet.
Record t := mk { getChildren : list INode.t }.
End Stylesheet.

(** The node at the cursor with the chain [getParent()] walks, nearest
    parent first; past its end [getParent()] is [null]. *)
Module HoverNode.
Record t := mk { node : INode.t; parents : list INode.t }.
End HoverNode.

(* ================================================================== *)
(** * Symbols of other documents ([utils/symbols.ts]) *)
(* ================================================================== *)

(** Returns Symbols from all documents. *)
Definition getSymbolsCollection (storage : StorageService.t) : list IDocumentSymbols.t :=
  StorageService.values storage.

Definition optionStringEqb (a : option string) (b : string) : bool :=
  match a with
  | Some s => String.eqb s b
  | None => false
  end.

(** [item.document !== current || item.filepath !== current] *)
Definition isRelatedToDocument (current : string) (item : IDocumentSymbols.t) : bool :=
  negb (optionStringEqb (IDocumentSymbols.document item) current)
  || negb (optionStringEqb (IDocumentSymbols.filepath item) current).

Definition getSymbolsRelatedToDocument (storage : StorageService.t) (current : string)
  : list IDocumentSymbols.t :=
  filter (isRelatedToDocument current) (getSymbolsCollection storage).

(* ================================================================== *)
(** * The definition provider ([providers/goDefinition.ts]) *)
(* ================================================================== *)

(** [keyof ISymbols] *)
Inductive SymbolsKey := variables | mixins | functions | imports.

Module IIdentifier.
Record t := mk { type : SymbolsKey; position : Position; name : string }.
End IIdentifier.

(** An entry of a symbol table, [info: any] in the source: its name and
    position are all the provider reads. *)
Module SymbolInfo.
Record t := mk { name : string; position : option Position }.
End SymbolInfo.

Module ISymbol.
Record t := mk { document : option string; path : string; info : SymbolInfo.t }.
End ISymbol.

Module Location.
Record t := create { uri : string; range_start : Position; range_end : Position }.
End Location.

(** What a query gives back: a location, [null], or a thrown [TypeError]. *)
Inductive Answer :=
| Found (location : Location.t)
| Null
| Throws.

Definition samePosition (a : option Position) (b : Position) : bool :=
  match a with
  | None => false
  | Some a => Nat.eqb (line a) (line b) && Nat.eqb (character a) (character b)
  end.

(** [symbols[identifier.type]] for a key other than [imports]. *)
Definition entriesOfKind (key : SymbolsKey) (symbols : IDocumentSymbols.t)
  : list SymbolInfo.t :=
  match key with
  | variables =>
      map (fun v => SymbolInfo.mk (IVariable.name v) (IVariable.position v))
          (IDocumentSymbols.variables symbols)
  | mixins =>
      map (fun m => SymbolInfo.mk (IMixin.name m) (IMixin.position m))
          (IDocumentSymbols.mixins symbols)
  | functions =>
      map (fun m => SymbolInfo.mk (IMixin.name m) (IMixin.position m))
          (IDocumentSymbols.functions symbols)
  | imports => []
  end.

(** [item.name === identifier.name && !samePosition(item.position, identifier.position)] *)
Definition matchesIdentifier (identifier : IIdentifier.t) (item : SymbolInfo.t) : bool :=
  String.eqb (SymbolInfo.name item) (IIdentifier.name identifier)
  && negb (samePosition (SymbolInfo.position item) (IIdentifier.position identifier)).

Section GoDefinition.
Local Open Scope string_scope.
Variable uriLibrary : URI.t.
Variable ls : LanguageService.t.

(** [getDocumentPath] of [utils/document.ts], which is not among the
    sources: the path of a symbols' document as seen from the current one. *)
Variable getDocumentPath : string -> option string -> string.

(** Returns the Symbol, if it present in the documents. *)
Definition getSymbols (symbolList : list IDocumentSymbols.t) (identifier : IIdentifier.t)
           (currentPath : string) : list ISymbol.t :=
  flat_map (fun symbols =>
              let fsPath := getDocumentPath currentPath (IDocumentSymbols.document symbols) in
              map (fun item => ISymbol.mk (IDocumentSymbols.filepath symbols) fsPath item)
                  (filter (matchesIdentifier identifier)
                          (entriesOfKind (IIdentifier.type identifier) symbols)))
           symbolList.

Definition goIdentifier (document : TextDocument.t) (resourceSymbols : IDocumentSymbols.t)
           (storage : StorageService.t) (identifier : IIdentifier.t)
  : Answer * StorageService.t :=
  let storage :=
    match IDocumentSymbols.document resourceSymbols with
    | Some _ => StorageService.set storage (TextDocument.uri document) resourceSymbols
    | None => storage
    end in
  let documentPath := uriToFsPath uriLibrary (TextDocument.uri document) in
  let symbolsList := getSymbolsRelatedToDocument storage documentPath in
  let candidates := getSymbols symbolsList identifier documentPath in
  match candidates with
  | [] => (Null, storage)
  | definition :: _ =>
      match ISymbol.document definition with
      | None => (Null, storage)
      | Some definitionDocument =>
          let info := ISymbol.info definition in
          match SymbolInfo.position info with
          | None => (Throws, storage)
          | Some position =>
              (Found (Location.create
                        (URI.file_toString uriLibrary definitionDocument)
                        position
                        (mkPosition (line position)
                           (character position + JsString.length (SymbolInfo.name info)))),
               storage)
          end
      end
  end.

Definition isReferenceHead (node : INode.t) : bool :=
  Nat.eqb (INode.type node) NodeType.MixinReference
  || Nat.eqb (INode.type node) NodeType.Function.

(** The [while] loop of [goDefinition] from an identifier: up to the
    nearest mixin reference or function within two parents.  [None] when
    the walk reads the type of a [null] parent. *)
Definition climbToReference (hoverNode : HoverNode.t) : option INode.t :=
  let node := HoverNode.node hoverNode in
  if isReferenceHead node then Some node
  else
    match HoverNode.parents hoverNode with
    | [] => None
    | parent :: above =>
        if isReferenceHead parent then Some parent
        else
          match above with
          | [] => None
          | grandparent :: _ => Some grandparent
          end
    end.

Definition goDefinition (document : TextDocument.t) (hover : option HoverNode.t)
           (storage : StorageService.t) : Answer * StorageService.t :=
  let resourceSymbols := parseDocument uriLibrary ls document in
  match hover with
  | None => (Null, storage)
  | Some hoverNode =>
      let node := HoverNode.node hoverNode in
      if Nat.eqb (INode.type node) NodeType.Undefined then (Null, storage)
      else if Nat.eqb (INode.type node) NodeType.VariableName then
        match HoverNode.parents hoverNode with
        | [] => (Throws, storage)
        | parent :: _ =>
            if negb (Nat.eqb (INode.type parent) NodeType.FunctionParameter)
               && negb (Nat.eqb (INode.type parent) NodeType.VariableDeclaration)
            then goIdentifier document resourceSymbols storage
                   (IIdentifier.mk variables
                      (LanguageService.positionAt ls document (INode.offset node))
                      (INode.getName node))
            else (Null, storage)
        end
      else if Nat.eqb (INode.type node) NodeType.Identifier then
        match climbToReference hoverNode with
        | None => (Throws, storage)
        | Some head =>
            if isReferenceHead head then
              goIdentifier document resourceSymbols storage
                (IIdentifier.mk
                   (if Nat.eqb (INode.type head) NodeType.Function then functions else mixins)
                   (LanguageService.positionAt ls document (INode.offset head))
                   (INode.getName head))
            else (Null, storage)
        end
      else (Null, storage)
  end.
End GoDefinition.

(* ================================================================== *)
(** * The completion provider ([providers/completion.ts]) *)
(* ================================================================== *)

Inductive CompletionItemKind :=
| KindOfFunction | KindOfInterface | KindOfColor | KindOfVariable | KindOfFile | KindOfFolder.

(** A completion item: its label, kind and detail. *)
Module CompletionItem.
Record t := mk { label : string; kind : CompletionItemKind; detail : string }.
End CompletionItem.

(** What [createCompletionContext] reads off the text before the cursor. *)
Module CompletionContext.
Record t := mk {
  comment : bool;
  variable : bool;
  function : bool;
  mixin : bool;
  import : bool;
  use : bool
}.
End CompletionContext.

(** Returns [true] if the path is not present in the document. *)
Definition isImplicitly (symbolsDocument : option string) (documentPath : string)
           (documentImports : list string) : bool :=
  match symbolsDocument with
  | None => true
  | Some symbolsDocument =>
      negb (String.eqb symbolsDocument documentPath)
      && negb (existsb (String.eqb symbolsDocument) documentImports)
  end.

(** [text.replace(/(\.module)?\.scss/, '')]: the leftmost [.module.scss]
    or [.scss] is removed. *)
Fixpoint removeScssExtension (text : string) : string :=
  if JsString.startsWith text ".module.scss" then JsString.drop 12 text
  else if JsString.startsWith text ".scss" then JsString.drop 5 text
  else match text with
       | EmptyString => EmptyString
       | String c rest => String c (removeScssExtension rest)
       end.

(** A setting that is a non-empty string, as a condition reads it. *)
Definition truthy (setting : option string) : bool :=
  match setting with
  | Some text => negb (String.eqb text "")
  | None => false
  end.

Section Completion.
Local Open Scope string_scope.
Variable uriLibrary : URI.t.
Variable ls : LanguageService.t.
Variable getDocumentPath : string -> option string -> string.

(** [getVariableColor] of [utils/color.ts], which is not among the
    sources: the colour a value denotes, if it denotes one. *)
Variable getVariableColor : string -> option string.

(** [settings.implicitlyLabel + ' ' + detailPath] where [labelled] *)
Definition withImplicitlyLabel (settings : ISettings.t) (labelled : bool)
           (detailPath : string) : string :=
  if labelled
  then JsString.toString (ISettings.implicitlyLabel settings) ++ " " ++ detailPath
  else detailPath.

Definition createVariableCompletionItems (ast : option Stylesheet.t)
           (symbols : list IDocumentSymbols.t) (filepath : string) (imports : list string)
           (settings : ISettings.t) : list CompletionItem.t :=
  let isOnlyUse :=
    match ast with
    | Some root =>
        negb (existsb (fun child => Nat.eqb (INode.type child) NodeType.Import)
                      (Stylesheet.getChildren root))
    | None => true
    end in
  flat_map
    (fun symbol =>
       let isImplicitlyImport :=
         isImplicitly (IDocumentSymbols.document symbol) filepath imports in
       let symbolsPath :=
         if isImplicitlyImport then IDocumentSymbols.filepath symbol
         else option_map (fun d => JsString.replace d "file:" "")
                         (IDocumentSymbols.document symbol) in
       let fsPath :=
         getDocumentPath (uriToFsPath uriLibrary filepath)
           (match symbolsPath with
            | Some p => if String.eqb p "" then None else Some (uriToFsPath uriLibrary p)
            | None => None
            end) in
       map (fun variable =>
              let color :=
                getVariableColor
                  (match IVariable.value variable with Some v => v | None => "" end) in
              let completionKind :=
                match color with Some _ => KindOfColor | None => KindOfVariable end in
              (* Add 'implicitly' prefix for Path if the file imported implicitly *)
              let detailPath := removeScssExtension (Path.normalize fsPath) in
              let detailPath :=
                withImplicitlyLabel settings
                  (isImplicitlyImport && truthy (ISettings.implicitlyLabel settings)
                   && negb isOnlyUse)
                  detailPath in
              (* Add 'argument from MIXIN_NAME' suffix if Variable is Mixin argument *)
              let detailText :=
                match IVariable.mixin variable with
                | Some mixin =>
                    if String.eqb mixin "" then detailPath
                    else "argument from " ++ mixin ++ ", " ++ detailPath
                | None => detailPath
                end in
              CompletionItem.mk (IVariable.name variable) completionKind detailText)
           (IDocumentSymbols.variables symbol))
    symbols.

(** The body shared by [createMixinCompletionItems] and
    [createFunctionCompletionItems]. *)
Definition createMethodCompletionItems (kind : CompletionItemKind)
           (entries : IDocumentSymbols.t -> list IMixin.t)
           (symbols : list IDocumentSymbols.t) (filepath : string) (imports : list string)
           (settings : ISettings.t) : list CompletionItem.t :=
  flat_map
    (fun symbol =>
       let isImplicitlyImport :=
         isImplicitly (IDocumentSymbols.document symbol) filepath imports in
       let fsPath :=
         getDocumentPath filepath
           (if isImplicitlyImport then IDocumentSymbols.filepath symbol
            else IDocumentSymbols.document symbol) in
       map (fun method =>
              (* Add 'implicitly' prefix for Path if the file imported implicitly *)
              let detailPath :=
                withImplicitlyLabel settings
                  (isImplicitlyImport && truthy (ISettings.implicitlyLabel settings))
                  fsPath in
              CompletionItem.mk (IMixin.name method) kind detailPath)
           (entries symbol))
    symbols.

Definition createMixinCompletionItems :=
  createMethodCompletionItems KindOfFunction IDocumentSymbols.mixins.

Definition createFunctionCompletionItems :=
  createMethodCompletionItems KindOfInterface IDocumentSymbols.functions.

(** The body of [doCompletion] from [storage.set] on, for a given
    context and given items of [createImportCompletionItems] (they come
    from a listing of the file system, and are asked for only inside
    [@use] and [@import]).  Making the context can throw and listing the
    file system can fail: [CompletionProvider.doCompletion] below is the
    function with both, and gives these items whenever it gives any. *)
Definition doCompletion (document : TextDocument.t) (ast : option Stylesheet.t)
           (context : CompletionContext.t) (importItems : list CompletionItem.t)
           (settings : ISettings.t) (storage : StorageService.t)
  : list CompletionItem.t * StorageService.t :=
  let documentPath := uriToFsPath uriLibrary (TextDocument.uri document) in
  let symbols := parseDocument uriLibrary ls document in
  let storage := StorageService.set storage (TextDocument.uri document) symbols in
  let symbolsList := getSymbolsRelatedToDocument storage documentPath in
  let documentImports := map IImport.filepath (IDocumentSymbols.imports symbols) in
  if CompletionContext.comment context then ([], storage)
  else
    ((if CompletionContext.use context || CompletionContext.import context
      then importItems else [])
     ++ (if ISettings.suggestVariables settings && CompletionContext.variable context
         then createVariableCompletionItems ast symbolsList documentPath documentImports
                settings
         else [])
     ++ (if ISettings.suggestMixins settings && CompletionContext.mixin context
         then createMixinCompletionItems symbolsList documentPath documentImports settings
         else [])
     ++ (if ISettings.suggestFunctions settings && CompletionContext.function context
         then createFunctionCompletionItems symbolsList documentPath documentImports settings
         else []),
     storage)%list.
End Completion.

(* ================================================================== *)
(** * Plain paths: the setting of the worked scenarios *)
(* ================================================================== *)

(** On an absolute path made of letters, digits, dots, dashes, underscores
    and slashes, [vscode-uri] escapes nothing: the URI is [file://] and
    the path, and the path is the URI without [file://]. *)
Module PlainPaths.
Definition file_toString (path : string) : string := String.append "file://" path.
Definition parse_fsPath (uri : string) : string := JsString.drop 7 uri.
Definition uriLibrary : URI.t := URI.mk file_toString parse_fsPath.
End PlainPaths.

(* ================================================================== *)
(** * Worked scenarios *)
(* ================================================================== *)

Module Scenario.
Local Open Scope string_scope.

(** A language service that finds nothing. *)
Definition noSymbols : LanguageService.t :=
  LanguageService.mk (fun _ => []) (fun _ => []) (fun _ _ => 0)
    (fun _ _ => mkPosition 0 0) (fun _ _ => None) (fun _ _ => []).

Definition settings : ISettings.t := ISettings.mk true (Some "(implicitly)") true true true.

(** One stylesheet, [/proj/src/a.scss]. *)
Definition oneFile : FileSystem := [("/proj/src/a.scss", Some "a { color: red; }")].

(** Every config file parses to the alias [@lib/*] for [libs/]. *)
Definition libConfig (filepath : string) : option ITsConfig.t :=
  Some (ITsConfig.mk filepath (Some [IPathShorthand.mk "@lib/" ["libs/"]])).

Definition aKey : string := "file:///proj/src/a.scss".
Definition configKey : string := "file:///proj/tsconfig.json".

(** The index after the initial scan of the one file. *)
Definition indexed : StorageService.t :=
  StorageService.set StorageService.create aKey
    (IDocumentSymbols.mk (Some "/proj/src/a.scss") (Some "/proj/src/a.scss") [] [] [] []).

(** Two configs in the registry, and a new reading of the first. *)
Definition otherKey : string := "file:///other/tsconfig.json".

Definition twoConfigs : StorageService.t :=
  StorageService.setTsConfig
    (StorageService.setTsConfig indexed configKey
       (ITsConfig.mk "/proj/tsconfig.json" (Some [IPathShorthand.mk "@lib/" ["libs/"]])))
    otherKey
    (ITsConfig.mk "/other/tsconfig.json" (Some [IPathShorthand.mk "~/" ["src/"]])).

Definition reread (filepath : string) : option ITsConfig.t :=
  Some (ITsConfig.mk filepath (Some [IPathShorthand.mk "@lib/" ["packages/"]])).
End Scenario.

(** The config of the first-match scenario: [@ui/*] before [@/*]. *)
Definition uiConfig : ITsConfig.t :=
  ITsConfig.mk "/proj/tsconfig.json"
    (Some (map pathShorthandOfEntry
               [("@ui/*", ["src/ui/"]); ("@/*", ["src/"])]))%string.

(* ================================================================== *)
(** * Normalized absolute paths *)
(* ================================================================== *)

(** A segment of a normalized path: not empty, not [.] or [..], and
    without a slash. *)
Definition cleanSegment (segment : string) : bool :=
  negb (String.eqb segment "") && negb (String.eqb segment ".")
  && negb (String.eqb segment "..") && negb (JsString.includesChar "/" segment).

(** The absolute normalized path with the given segments. *)
Definition ofSegments (segments : list string) : string :=
  String.append "/" (JsString.joinSlash segments).

(** The directories from [limit/below] up to, and without, [limit]. *)
Definition searchedDirectories (limit below : list string) : list string :=
  map (fun k => ofSegments (limit ++ firstn k below)) (rev (seq 1 (length below))).

(** The first [n] directories that the loop of [findFileInParents] passes
    through from [dir]: [dir], [path.dirname(dir)], and so on. *)
Fixpoint parentChain (n : nat) (dir : string) : list string :=
  match n with
  | O => []
  | S n' => dir :: parentChain n' (Path.dirname dir)
  end.


(* ================================================================== *)
(** * Notions the statements use *)
(* ================================================================== *)

(** The storage an outcome carries. *)
Definition storageOf (outcome : Outcome) : option StorageService.t :=
  match outcome with
  | Resolved storage | Rejected storage => Some storage
  | Running => None
  end.

(** A table holds an entry that answers the identifier. *)
Definition hasMatch (identifier : IIdentifier.t) (symbols : IDocumentSymbols.t) : bool :=
  existsb (matchesIdentifier identifier) (entriesOfKind (IIdentifier.type identifier) symbols).

(** Two stylesheets that import each other. *)
Module Cycle.
Local Open Scope string_scope.

Definition files : FileSystem :=
  [("/proj/a.scss", Some "@import 'b';"); ("/proj/b.scss", Some "@import 'a';")].

(** The links the language service finds in the two texts. *)
Definition links (document : TextDocument.t) : list DocumentLink.t :=
  if String.eqb (TextDocument.getText document) "@import 'b';"
  then [DocumentLink.mk (Some "file:///proj/b.scss")]
  else if String.eqb (TextDocument.getText document) "@import 'a';"
       then [DocumentLink.mk (Some "file:///proj/a.scss")]
       else [].

Definition languageService : LanguageService.t :=
  LanguageService.mk (fun _ => []) links (fun _ _ => 0)
    (fun _ _ => mkPosition 0 0) (fun _ _ => None) (fun _ _ => []).

Definition tableOf (filepath target : string) : IDocumentSymbols.t :=
  IDocumentSymbols.mk (Some filepath) (Some filepath) [] [] []
    [IImport.mk None target false false].
End Cycle.


(** Every entry of a table that a query can return has a position. *)
Definition hasPositions (symbols : IDocumentSymbols.t) : bool :=
  forallb (fun key =>
             forallb (fun item =>
                        match SymbolInfo.position item with Some _ => true | None => false end)
                     (entriesOfKind key symbols))
          [variables; mixins; functions].

(** A table as the parser makes it: it has a file path, and its entries
    have positions. *)
Definition wellFormedTable (symbols : IDocumentSymbols.t) : bool :=
  match IDocumentSymbols.filepath symbols with Some _ => true | None => false end
  && hasPositions symbols.

(** The definition-across-files scenario: [b.scss] declares [$color] on
    its second line, and a query comes from [a.scss]. *)
Module AcrossFiles.
Local Open Scope string_scope.

Definition bTable : IDocumentSymbols.t :=
  IDocumentSymbols.mk (Some "/proj/b.scss") (Some "/proj/b.scss")
    [IVariable.mk (Some (mkPosition 1 0)) None "$color" (Some "red") 12] [] [] [].

Definition index : StorageService.t :=
  StorageService.set StorageService.create "file:///proj/b.scss" bTable.

Definition aDocument : TextDocument.t :=
  TextDocument.create "file:///proj/a.scss" "@use 'b'; a { color: $color; }".

(** The reference to [$color] in [a.scss]. *)
Definition reference : IIdentifier.t := IIdentifier.mk variables (mkPosition 0 21) "$color".

(** A stand-in for [getDocumentPath]: the path of the symbols as it is. *)
Definition pathAsIs (currentPath : string) (symbolsPath : option string) : string :=
  JsString.toString symbolsPath.

(** A language service that finds no symbol in [a.scss], a text of one
    line, where an offset is a character of the first line. *)
Definition languageService : LanguageService.t :=
  LanguageService.mk (fun _ => []) (fun _ => []) (fun _ position => character position)
    (fun _ offset => mkPosition 0 offset) (fun _ _ => None) (fun _ _ => []).

(** The node at the cursor in [a.scss]: the variable name [$color] at
    offset 21, in a term (type 24, one that the provider does not test)
    of an expression of a declaration. *)
Definition hover : HoverNode.t :=
  HoverNode.mk (INode.mk NodeType.VariableName 21 6 "$color")
    [INode.mk 24 21 6 ""; INode.mk 22 21 6 ""; INode.mk 19 14 13 ""].

(** The file system after [b.scss] is deleted. *)
Definition afterDelete : FileSystem :=
  [("/proj/a.scss", Some "@use 'b'; a { color: $color; }")].
End AcrossFiles.

(** A reference to a mixin whose name is not plain ASCII: [c.scss]
    declares the mixin [gr..e], its third and fourth letters an o with
    umlaut and a sharp s, of two bytes each, on its third line, and
    [a.scss] includes it. *)
Module Included.
Local Open Scope string_scope.

(** Seven bytes, five UTF-16 code units. *)
Definition name : string :=
  String "g" (String "r" (String "195" (String "182" (String "195" (String "159" "e"))))).

Definition cTable : IDocumentSymbols.t :=
  IDocumentSymbols.mk (Some "/proj/c.scss") (Some "/proj/c.scss")
    [] [IMixin.mk (Some (mkPosition 2 7)) name [] 30] [] [].

Definition index : StorageService.t :=
  StorageService.set AcrossFiles.index "file:///proj/c.scss" cTable.

(** The node at the cursor: the identifier of the [@include], whose
    parent is the mixin reference. *)
Definition hover : HoverNode.t :=
  HoverNode.mk (INode.mk NodeType.Identifier 13 7 name)
    [INode.mk NodeType.MixinReference 4 16 name; INode.mk 20 2 20 ""].
End Included.

(** The stylesheet has a top-level node of the given type. *)
Definition hasStatement (type : NodeType.t) (ast : option Stylesheet.t) : bool :=
  match ast with
  | Some root =>
      existsb (fun child => Nat.eqb (INode.type child) type) (Stylesheet.getChildren root)
  | None => false
  end.

(** The settings with the implicitly-label switched off. *)
Definition withoutLabel (settings : ISettings.t) : ISettings.t :=
  ISettings.mk (ISettings.scanImportedFiles settings) None
    (ISettings.suggestVariables settings) (ISettings.suggestMixins settings)
    (ISettings.suggestFunctions settings).

(** Completion in [a.scss], a document without [@use] and [@import],
    beside [b.scss], which declares a variable, a mixin and a function. *)
Module Neighbour.
Local Open Scope string_scope.

Definition bTable : IDocumentSymbols.t :=
  IDocumentSymbols.mk (Some "/proj/b.scss") (Some "/proj/b.scss")
    [IVariable.mk (Some (mkPosition 0 0)) None "$v" (Some "1px") 0]
    [IMixin.mk (Some (mkPosition 1 0)) "m" [] 10]
    [IMixin.mk (Some (mkPosition 2 0)) "f" [] 20]
    [].

Definition index : StorageService.t :=
  StorageService.set StorageService.create "file:///proj/b.scss" bTable.

Definition aDocument : TextDocument.t :=
  TextDocument.create "file:///proj/a.scss" "a { width: ; }".

(** The tree of [a.scss]: no statement at the top is a [@use] or an [@import]. *)
Definition aTree : option Stylesheet.t := Some (Stylesheet.mk []).

Definition everywhere : CompletionContext.t :=
  CompletionContext.mk false true true true false false.

(** A stand-in for [getVariableColor]: no value denotes a colour. *)
Definition noColor (value : string) : option string := None.
End Neighbour.

(* ================================================================== *)
(** * Reading a config file ([parseTsConfig] of [services/parser.ts]) *)
(* ================================================================== *)

(** A value as [JSON.parse] returns it.  An object lists its own
    properties in the order of [Object.entries], each key once.  Of a
    number the parser reads at most whether it is zero, which an integer
    shows as well as any other number. *)
#[warnings="-register-all"]
Inductive Json :=
| JNull
| JBool (b : bool)
| JNumber (n : Z)
| JString (s : string)
| JArray (items : list Json)
| JObject (members : list (string * Json)).

(** How the promise of an asynchronous function ends: fulfilled with a
    value, rejected, or still pending when the fuel of the model is used
    up. *)
Inductive Settled (A : Type) :=
| Fulfilled (value : A)
| Failed
| Pending.

Arguments Fulfilled {A} value.
Arguments Failed {A}.
Arguments Pending {A}.

Module ParserService.
Local Open Scope string_scope.

(** [value[name]] for a [value] that is not [null] and a [name] that no
    prototype defines, as [compilerOptions], [paths] and [extends] are:
    [undefined] unless [value] is an object with that key. *)
Definition property (value : Json) (name : string) : option Json :=
  match value with
  | JObject members => JsMap.get members name
  | _ => None
  end.

(** Whether a condition takes a value, [undefined] included, for true. *)
Definition truthyValue (value : option Json) : bool :=
  match value with
  | None | Some JNull => false
  | Some (JBool b) => b
  | Some (JNumber n) => negb (Z.eqb n 0)
  | Some (JString s) => negb (String.eqb s "")
  | Some (JArray _) | Some (JObject _) => true
  end.

(** [json.compilerOptions?.paths || {}] for a [json] that is not [null]. *)
Definition configuredPaths (json : Json) : Json :=
  let paths :=
    match property json "compilerOptions" with
    | None | Some JNull => None
    | Some compilerOptions => property compilerOptions "paths"
    end in
  match paths with
  | Some value => if truthyValue paths then value else JObject []
  | None => JObject []
  end.

(** The keys of an array or a string: the indices, in decimal. *)
Definition indexString (n : nat) : string := NilEmpty.string_of_uint (Nat.to_uint n).

Definition indexedEntries (items : list Json) : list (string * Json) :=
  combine (map indexString (seq 0 (length items))) items.

(** [Object.entries(value)] for a [value] that is not [null]. *)
Definition objectEntries (value : Json) : list (string * Json) :=
  match value with
  | JObject members => members
  | JArray items => indexedEntries items
  | JString s =>
      indexedEntries (map (fun c => JString (String c "")) (list_ascii_of_string s))
  | JNull | JBool _ | JNumber _ => []
  end.

(** [paths.map((path) => path.replace(/\*$/, ''))] on the items of an
    array; [None] where an item is no string and a [TypeError] is thrown. *)
Fixpoint stripStars (items : list Json) : option (list string) :=
  match items with
  | [] => Some []
  | JString path :: rest =>
      match stripStars rest with
      | Some stripped => Some (stripTrailingStar path :: stripped)
      | None => None
      end
  | _ :: _ => None
  end.

(** The callback of the [map] over the entries; [None] where [paths] is
    no array, or one of its items no string, and a [TypeError] is thrown. *)
Definition shorthandOfMember (member : string * Json) : option IPathShorthand.t :=
  match snd member with
  | JArray items =>
      match stripStars items with
      | Some stripped => Some (IPathShorthand.mk (stripTrailingStar (fst member)) stripped)
      | None => None
      end
  | _ => None
  end.

Fixpoint shorthandsOfMembers (members : list (string * Json))
  : option (list IPathShorthand.t) :=
  match members with
  | [] => Some []
  | member :: rest =>
      match shorthandOfMember member with
      | Some shorthand =>
          match shorthandsOfMembers rest with
          | Some shorthands => Some (shorthand :: shorthands)
          | None => None
          end
      | None => None
      end
  end.

(** [json.extends && json.extends.startsWith('.')] for a [json] that is
    not [null]: the text of [extends] where the condition holds; [None]
    where [extends] is a value other than a string that counts as true,
    and calling its [startsWith] throws a [TypeError]. *)
Definition extensionOf (json : Json) : option (option string) :=
  match property json "extends" with
  | Some (JString target) =>
      Some (if negb (String.eqb target "") && JsString.startsWith target "."
            then Some target else None)
  | value => if truthyValue value then None else Some None
  end.

Section WithFiles.
Variable fs : FileSystem.

(** [JSON.parse]; [None] where it throws a [SyntaxError]. *)
Variable JSON_parse : string -> option Json.

Fixpoint parseTsConfig (fuel : nat) (filepath : string) : Settled ITsConfig.t :=
  match fuel with
  | O => Pending
  | S fuel' =>
      match readFile fs filepath with
      | None => Failed
      | Some contents =>
          (* what the [catch] returns *)
          let caught := Fulfilled (ITsConfig.mk filepath None) in
          match JSON_parse contents with
          | None | Some JNull => caught
          | Some json =>
              match shorthandsOfMembers (objectEntries (configuredPaths json)) with
              | None => caught
              | Some own =>
                  match extensionOf json with
                  | None => caught
                  | Some None => Fulfilled (ITsConfig.mk filepath (Some own))
                  | Some (Some target) =>
                      let extensionPath := Path.join [Path.dirname filepath; target] in
                      match parseTsConfig fuel' extensionPath with
                      | Pending => Pending
                      | Failed => caught
                      | Fulfilled extension =>
                          Fulfilled
                            (ITsConfig.mk filepath
                               (Some (match ITsConfig.paths extension with
                                      | Some inherited => (own ++ inherited)%list
                                      | None => own
                                      end)))
                      end
                  end
              end
          end
      end
  end.
End WithFiles.
End ParserService.

(** The [compilerOptions.paths] object that lists the given aliases, each
    with its candidates. *)
Definition pathsObject (entries : list (string * list string)) : Json :=
  JObject (map (fun entry => (fst entry, JArray (map JString (snd entry)))) entries).

(* ================================================================== *)
(** * The links provider ([providers/links.ts]) *)
(* ================================================================== *)

(** A node by what [links] reads of it. *)
Module TextNode.
Record t := mk { type : NodeType.t; offset : nat; end_ : nat; getText : string }.
End TextNode.

(** A statement at the top of a stylesheet: its type and its
    [getChild(0)], which is [null] when it has no child. *)
Module Statement.
Record t := mk { type : NodeType.t; getChild0 : option TextNode.t }.
End Statement.

(** A link as the provider returns it. *)
Module ResolvedLink.
Record t := mk { target : string; range_start : Position; range_end : Position }.
End ResolvedLink.

(** [s.slice(1, -1)] *)
Definition sliceInner (s : string) : string :=
  String.substring 1 (String.length s - 2) s.

(** [findLinkNodes]: the first child of every top-level [@use] whose first
    child is a string literal; [None] where the type of a [null] child is
    read and a [TypeError] is thrown. *)
Fixpoint findLinkNodes (children : list Statement.t) : option (list TextNode.t) :=
  match children with
  | [] => Some []
  | node :: rest =>
      if Nat.eqb (Statement.type node) NodeType.Use then
        match Statement.getChild0 node with
        | None => None
        | Some child =>
            match findLinkNodes rest with
            | Some result =>
                Some (if Nat.eqb (TextNode.type child) NodeType.StringLiteral
                      then child :: result else result)
            | None => None
            end
        end
      else findLinkNodes rest
  end.

Section Links.
Local Open Scope string_scope.
Variable cwd : string.
Variable uriLibrary : URI.t.
Variable ls : LanguageService.t.

(** [links(document, storage)], with the top-level statements of the
    parsed document given; [None] where the promise is rejected. *)
Definition links (document : TextDocument.t) (children : list Statement.t)
           (storage : StorageService.t) : option (list ResolvedLink.t) :=
  match findLinkNodes children with
  | None => None
  | Some [] => Some []
  | Some linkNodes =>
      let tsConfig := StorageService.getAssociatedTsConfig storage (TextDocument.uri document) in
      Some (map (fun node =>
                   let importPath := sliceInner (TextNode.getText node) in
                   let documentPath := uriToFsPath uriLibrary (TextDocument.uri document) in
                   let resolvedPath := resolveAliasedPath cwd importPath documentPath tsConfig in
                   ResolvedLink.mk (resolvedPath ++ ".scss")
                     (LanguageService.positionAt ls document (TextNode.offset node))
                     (LanguageService.positionAt ls document (TextNode.end_ node)))
                linkNodes)
  end.
End Links.

(* ================================================================== *)
(** * Completion of import paths ([createImportCompletionItems]) *)
(* ================================================================== *)

(** A completion item for a file or a folder. *)
Module ImportItem.
Record t := mk {
  label : string;
  kind : CompletionItemKind;
  sortText : string;
  detail : string
}.
End ImportItem.

(** [s.split('/').pop()] *)
Definition lastPart (s : string) : string := last (JsString.splitSlash s) EmptyString.

Section ImportCompletion.
Local Open Scope string_scope.
Variable cwd : string.

(** [readDir]: the names in a directory; [None] where the promise is
    rejected. *)
Variable readDir : string -> option (list string).

(** [statFile], by the [isFile()] of its result; [None] where the promise
    is rejected. *)
Variable statFile : string -> option bool.

(** [document.getText().slice(startInputOffset, cursorOffset)] *)
Definition inputFragmentAt (document : TextDocument.t) (node : INode.t) (cursorOffset : nat)
  : string :=
  let startInputOffset := INode.offset node + 1 in (* Skip the start quote *)
  String.substring startInputOffset (cursorOffset - startInputOffset)
    (TextDocument.getText document).

(** The directory whose entries are offered. *)
Definition fullInputPathDir (inputFragment documentPath : string)
           (associatedTsConfig : option ITsConfig.t) : string :=
  let fullInputPath := resolveAliasedPath cwd inputFragment documentPath associatedTsConfig in
  if JsString.endsWith inputFragment "/" then fullInputPath else Path.dirname fullInputPath.

(** The [Promise.all] over the names: each with its [isFile()]. *)
Fixpoint statAll (directory : string) (files : list string) : option (list (string * bool)) :=
  match files with
  | [] => Some []
  | filepath :: rest =>
      match statFile (Path.join [directory; filepath]) with
      | Some isFile =>
          match statAll directory rest with
          | Some stats => Some ((filepath, isFile) :: stats)
          | None => None
          end
      | None => None
      end
  end.

(** The body of the loop over the stats: the item an entry gives, if any. *)
Definition importItemOf (inputFragment : string) (stat : string * bool)
  : list ImportItem.t :=
  let '(filepath, isFile) := stat in
  if isFile && negb (JsString.endsWith filepath ".scss") then []
  else
    let lastInputPart := lastPart inputFragment in
    let lastImportPart := lastPart filepath in
    if String.eqb lastImportPart ""
       || (negb (String.eqb lastInputPart "")
           && negb (JsString.startsWith lastImportPart lastInputPart))
    then []
    else
      let formattedLastImportPart :=
        if isFile then removeScssExtension lastImportPart else lastImportPart in
      [ImportItem.mk formattedLastImportPart
         (if isFile then KindOfFile else KindOfFolder)
         ((if isFile then "1" else "0") ++ formattedLastImportPart)
         filepath].

Definition createImportCompletionItems (node : option INode.t) (documentPath : string)
           (document : TextDocument.t) (cursorOffset : nat)
           (associatedTsConfig : option ITsConfig.t) : option (list ImportItem.t) :=
  match node with
  | None => Some []
  | Some node =>
      if negb (Nat.eqb (INode.type node) NodeType.StringLiteral) then Some []
      else
        let inputFragment := inputFragmentAt document node cursorOffset in
        let directory := fullInputPathDir inputFragment documentPath associatedTsConfig in
        match readDir directory with
        | None => None
        | Some files =>
            match statAll directory files with
            | None => None
            | Some stats => Some (flat_map (importItemOf inputFragment) stats)
            end
        end
  end.
End ImportCompletion.

(* ================================================================== *)
(** * The context of a completion ([providers/completion.ts]) *)
(* ================================================================== *)

(** [s.substr(-2, 1)] *)
Definition substrLastButOne (s : string) : string :=
  String.substring (String.length s - 2) 1 s.

(** [s.indexOf(searchString) !== -1] *)
Definition indexOfFound (s searchString : string) : bool :=
  match JsString.splitFirst searchString s with
  | Some _ => true
  | None => false
  end.

(** Check context for Variables suggestions. *)
Definition checkVariableContext (word : string)
           (isInterpolation isPropertyValue isEmptyValue isQuotes : bool) : bool :=
  if isPropertyValue && negb isEmptyValue && negb isQuotes
  then JsString.includesChar "$" word
  else if isQuotes then isInterpolation
  else
    match word with
    | String c _ => Ascii.eqb c "$"
    | EmptyString => false
    end
    || isInterpolation || isEmptyValue.

(** Check context for Mixins suggestions, [mixinReference] being
    [reMixinReference.test(textBeforeWord)]. *)
Definition checkMixinContext (mixinReference isPropertyValue : bool) : bool :=
  negb isPropertyValue && mixinReference.

(** Check context for Function suggestions, with the setting
    [suggestFunctionsInStringContextAfterSymbols]. *)
Definition checkFunctionContext (textBeforeWord : string)
           (isInterpolation isPropertyValue isEmptyValue isQuotes : bool)
           (suggestFunctionsInStringContextAfterSymbols : string) : bool :=
  if isPropertyValue && negb isEmptyValue && negb isQuotes
  then
    let lastChar := substrLastButOne textBeforeWord in
    indexOfFound suggestFunctionsInStringContextAfterSymbols lastChar
  else if isQuotes then isInterpolation
  else false.

(** [text.includes('#{')] *)
Definition isInterpolationContext (text : string) : bool := indexOfFound text "#{".

(** What [createCompletionContext] reads off the text before the cursor,
    with [getCurrentWord] and [getTextBeforePosition] ([utils/string.ts],
    not among the sources) and its regular expressions. *)
Module CursorText.
Record t := mk {
  currentWord : string;
  textBeforeWord : string;
  isPropertyValue : bool;    (* rePropertyValue.test(textBeforeWord) *)
  isEmptyValue : bool;       (* reEmptyPropertyValue.test(textBeforeWord) *)
  isQuotes : bool;           (* reQuotes.test(textBeforeWord.replace(...)) *)
  isMixinReference : bool;   (* reMixinReference.test(textBeforeWord) *)
  isComment : bool           (* isCommentContext(textBeforeWord) *)
}.
End CursorText.

(** The completion provider as the server calls it: [doCompletion] from
    the parsed document on, with the node at the cursor and the tree that
    [parseDocument] returns given.  A promise that is rejected is [None]. *)
Module CompletionProvider.
Section WithCollaborators.
Local Open Scope string_scope.
Variable cwd : string.
Variable uriLibrary : URI.t.
Variable ls : LanguageService.t.
Variable getDocumentPath : string -> option string -> string.
Variable getVariableColor : string -> option string.
Variable readDir : string -> option (list string).
Variable statFile : string -> option bool.

(** [node?.getParent().type === type]: [false] without a node, and
    [None] where the node has no parent, so that reading the type of
    [null] throws a [TypeError]. *)
Definition parentTypeIs (node : option HoverNode.t) (type : NodeType.t) : option bool :=
  match node with
  | None => Some false
  | Some hoverNode =>
      match HoverNode.parents hoverNode with
      | [] => None
      | parent :: _ => Some (Nat.eqb (INode.type parent) type)
      end
  end.

(** [createCompletionContext], with the setting
    [suggestFunctionsInStringContextAfterSymbols]; [None] where it
    throws. *)
Definition createCompletionContext (node : option HoverNode.t) (text : CursorText.t)
           (suggestFunctionsInStringContextAfterSymbols : string)
  : option CompletionContext.t :=
  let currentWord := CursorText.currentWord text in
  let textBeforeWord := CursorText.textBeforeWord text in
  (* Is "#{INTERPOLATION}" *)
  let isInterpolation := isInterpolationContext currentWord in
  (* Information about current position *)
  let isPropertyValue := CursorText.isPropertyValue text in
  let isEmptyValue := CursorText.isEmptyValue text in
  let isQuotes := CursorText.isQuotes text in
  match parentTypeIs node NodeType.Import, parentTypeIs node NodeType.Use with
  | Some import, Some use =>
      Some (CompletionContext.mk
              (CursorText.isComment text)
              (checkVariableContext currentWord isInterpolation isPropertyValue
                 isEmptyValue isQuotes)
              (checkFunctionContext textBeforeWord isInterpolation isPropertyValue
                 isEmptyValue isQuotes suggestFunctionsInStringContextAfterSymbols)
              (checkMixinContext (CursorText.isMixinReference text) isPropertyValue)
              import use)
  | _, _ => None
  end.

(** An item for a file or a folder, by its label, kind and detail. *)
Definition itemOfImport (item : ImportItem.t) : CompletionItem.t :=
  CompletionItem.mk (ImportItem.label item) (ImportItem.kind item) (ImportItem.detail item).

Definition doCompletion (document : TextDocument.t) (node : option HoverNode.t)
           (ast : option Stylesheet.t) (text : CursorText.t) (offset : nat)
           (suggestFunctionsInStringContextAfterSymbols : string)
           (settings : ISettings.t) (storage : StorageService.t)
  : option (list CompletionItem.t) * StorageService.t :=
  let documentPath := uriToFsPath uriLibrary (TextDocument.uri document) in
  let symbols := parseDocument uriLibrary ls document in
  let associatedTsConfig :=
    StorageService.getAssociatedTsConfig storage (TextDocument.uri document) in
  let storage := StorageService.set storage (TextDocument.uri document) symbols in
  let symbolsList := getSymbolsRelatedToDocument storage documentPath in
  let documentImports := map IImport.filepath (IDocumentSymbols.imports symbols) in
  match createCompletionContext node text suggestFunctionsInStringContextAfterSymbols with
  | None => (None, storage)
  | Some context =>
      (* Drop suggestions inside `//` and `/* */` comments *)
      if CompletionContext.comment context then (Some [], storage)
      else
        match
          (if CompletionContext.use context || CompletionContext.import context
           then createImportCompletionItems cwd readDir statFile
                  (option_map HoverNode.node node) documentPath document offset
                  associatedTsConfig
           else Some [])
        with
        | None => (None, storage)
        | Some uses =>
            (Some
               (map itemOfImport uses
                ++ (if ISettings.suggestVariables settings
                       && CompletionContext.variable context
                    then createVariableCompletionItems uriLibrary getDocumentPath
                           getVariableColor ast symbolsList documentPath documentImports
                           settings
                    else [])
                ++ (if ISettings.suggestMixins settings && CompletionContext.mixin context
                    then createMixinCompletionItems getDocumentPath symbolsList
                           documentPath documentImports settings
                    else [])
                ++ (if ISettings.suggestFunctions settings
                       && CompletionContext.function context
                    then createFunctionCompletionItems getDocumentPath symbolsList
                           documentPath documentImports settings
                    else []))%list,
             storage)
        end
  end.
End WithCollaborators.
End CompletionProvider.

(* ================================================================== *)
(** * Further notions the statements use *)
(* ================================================================== *)

(** What the loops of [addTsConfigFile] and [deleteTsConfigFile] record
    for a key that passes their test: the config URI, or nothing when
    there is none or it is the empty string. *)
Definition associationOf (tsConfigUri : option string) : option string :=
  match tsConfigUri with
  | Some configUri => if String.eqb configUri "" then None else Some configUri
  | None => None
  end.

(** A normalized absolute path as the texts between its slashes. *)
Definition rootedSegments (segments : list string) : list string :=
  match segments with
  | [] => [EmptyString; EmptyString]
  | _ => EmptyString :: segments
  end.

(** The names that a list of tables declares, table by table. *)
Definition variableNames (tables : list IDocumentSymbols.t) : list string :=
  flat_map (fun table => map IVariable.name (IDocumentSymbols.variables table)) tables.

Definition methodNames (entries : IDocumentSymbols.t -> list IMixin.t)
           (tables : list IDocumentSymbols.t) : list string :=
  flat_map (fun table => map IMixin.name (entries table)) tables.

(** More of the worked scenarios. *)
Module Inheritance.
Local Open Scope string_scope.

(** A config in [/proj/app] that extends the one in [/proj]. *)
Definition files : FileSystem :=
  [("/proj/app/tsconfig.json", Some "child"); ("/proj/tsconfig.json", Some "parent")].

Definition JSON_parse (contents : string) : option Json :=
  if String.eqb contents "child"
  then Some (JObject [("extends", JString "../tsconfig.json");
                      ("compilerOptions",
                       JObject [("paths", pathsObject [("@ui/*", ["src/ui/*"])])])])
  else if String.eqb contents "parent"
       then Some (JObject [("compilerOptions",
                            JObject [("paths", pathsObject [("@/*", ["src/*"])])])])
       else if String.eqb contents "self"
            then Some (JObject [("extends", JString "./tsconfig.json")])
            else None.

(** The child alone, its parent gone. *)
Definition orphan : FileSystem := [("/proj/app/tsconfig.json", Some "child")].

(** A config that extends itself. *)
Definition selfExtending : FileSystem := [("/proj/tsconfig.json", Some "self")].
End Inheritance.

(** Completion in [a.scss] beside [b.scss], with the cursor after the
    colon of [a { width: ; }] and a dollar sign typed. *)
Module AtCursor.
Local Open Scope string_scope.

Definition text : CursorText.t :=
  CursorText.mk "$" "a { width: " true true false false false.

(** The node at the cursor is a term (type 24) of an expression of a
    declaration. *)
Definition inValue : option HoverNode.t :=
  Some (HoverNode.mk (INode.mk 24 11 0 "")
          [INode.mk 22 11 0 ""; INode.mk 19 4 9 ""]).

(** The node at the cursor is the stylesheet (type 2), the root of the
    tree, which has no parent. *)
Definition atRoot : option HoverNode.t :=
  Some (HoverNode.mk (INode.mk 2 0 14 "") []).

(** The node at the cursor is the string literal of an [@use]. *)
Definition inUse : option HoverNode.t :=
  Some (HoverNode.mk (INode.mk NodeType.StringLiteral 5 2 "")
          [INode.mk NodeType.Use 0 8 ""]).

(** No directory can be listed. *)
Definition noDirectory (directory : string) : option (list string) := None.

Definition noStat (filepath : string) : option bool := None.
End AtCursor.

(** An import with an interpolation: [a.scss] imports [b.scss#{$x}], and
    the URI library drops the fragment that the [#] starts. *)
Module Fragments.
Local Open Scope string_scope.

(** The text before the first [#]. *)
Fixpoint beforeHash (s : string) : string :=
  match s with
  | EmptyString => EmptyString
  | String c s' => if Ascii.eqb c "#" then EmptyString else String c (beforeHash s')
  end.

(** On a plain [file:] URI, [URI.parse(uri).fsPath] is the path, without
    the fragment. *)
Definition parse_fsPath (uri : string) : string := beforeHash (JsString.drop 7 uri).

Definition uriLibrary : URI.t := URI.mk PlainPaths.file_toString parse_fsPath.

Definition files : FileSystem :=
  [("/proj/a.scss", Some "@import 'b.scss#{$x}';"); ("/proj/b.scss", Some "")].

(** The link the language service finds in the text of [a.scss]. *)
Definition links (document : TextDocument.t) : list DocumentLink.t :=
  if String.eqb (TextDocument.getText document) "@import 'b.scss#{$x}';"
  then [DocumentLink.mk (Some "file:///proj/b.scss#{$x}")]
  else [].

Definition languageService : LanguageService.t :=
  LanguageService.mk (fun _ => []) links (fun _ _ => 0)
    (fun _ _ => mkPosition 0 0) (fun _ _ => None) (fun _ _ => []).
End Fragments.

(* ================================================================== *)
(** * The primitives at work *)
(* ================================================================== *)

Module PathExamples.
Local Open Scope string_scope.
Import Path.

Example resolve_plain :
resolve "/" ["/proj/src"; "../lib/x"] = "/proj/lib/x".
Proof. reflexivity. Qed.

Example resolve_relative_argument :
resolve "/home/u" ["file:///proj/a.scss"] = "/home/u/file:/proj/a.scss".
Proof. reflexivity. Qed.

Example relative_down : relative "/" "/proj" "/proj/src/a.scss" = "src/a.scss".
Proof. reflexivity. Qed.

Example relative_up : relative "/" "/proj/sub" "/proj" = "..".
Proof. reflexivity. Qed.

Example relative_root : relative "/" "/" "/foo" = "foo".
Proof. reflexivity. Qed.

Example relative_sibling : relative "/" "/a/b/c" "/a/d" = "../../d".
Proof. reflexivity. Qed.

Example dirname_file : dirname "/proj/sub/tsconfig.json" = "/proj/sub".
Proof. reflexivity. Qed.

Example dirname_top : dirname "/proj" = "/".
Proof. reflexivity. Qed.

Example dirname_root : dirname "/" = "/".
Proof. reflexivity. Qed.

Example dirname_trailing : dirname "/a/b/" = "/a".
Proof. reflexivity. Qed.

Example dirname_double : dirname "a//b" = "a/".
Proof. reflexivity. Qed.

Example dirname_bare : dirname "a" = ".".
Proof. reflexivity. Qed.

Example normalize_dots : normalize "/a/./b/../c//d/" = "/a/c/d/".
Proof. reflexivity. Qed.

Example join_two : join ["/proj/sub"; "tsconfig.json"] = "/proj/sub/tsconfig.json".
Proof. reflexivity. Qed.


Example replace_first_only :
  JsString.replace "a/b/a" "a" "x" = "x/b/a".
Proof. reflexivity. Qed.

Example replace_expands_dollar :
  JsString.replace "@ui/button" "@ui/" "[$&|$$|$1]" = "[@ui/|$|$1]button".
Proof. reflexivity. Qed.

Example replace_undefined :
  JsString.replace "@ui/button" "@ui/" (JsString.toString None) = "undefinedbutton".
Proof. reflexivity. Qed.

Example isDescendant_of_a_uri :
  isDescendant "/" "file:///proj/src/a.scss" "/proj" = false
  /\ Path.relative "/" "/proj" "file:///proj/src/a.scss" = "../file:/proj/src/a.scss".
Proof. split; reflexivity. Qed.

Example isDescendant_dotted_name :
  isDescendant "/" "/proj/..cache/x" "/proj" = false.
Proof. reflexivity. Qed.

Example removeScssExtension_module :
  removeScssExtension "src/button.module.scss" = "src/button".
Proof. reflexivity. Qed.
End PathExamples.
(* ================================================================== *)
(** * Properties of the string and path primitives *)
(* ================================================================== *)

Section StringFacts.
Local Open Scope string_scope.

Lemma startsWith_append (s searchString : string) :
  JsString.startsWith s searchString = true ->
  s = searchString ++ JsString.drop (String.length searchString) s.
Proof.
  revert s; induction searchString as [|c p IH]; intros s H; simpl in *.
  - reflexivity.
  - destruct s as [|d s']; [discriminate|].
    apply andb_true_iff in H as [Hc Hp].
    apply Ascii.eqb_eq in Hc; subst d.
    simpl. f_equal. now apply IH.
Qed.

Lemma splitFirst_prefix (s searchString : string) :
  JsString.startsWith s searchString = true ->
  JsString.splitFirst searchString s
  = Some ("", JsString.drop (String.length searchString) s).
Proof.
  intros H. destruct s; cbn [JsString.splitFirst]; rewrite H; reflexivity.
Qed.

Lemma getSubstitution_expandsNothing (matched before after template : string) :
  expandsNothing template = true ->
  JsString.getSubstitution matched before after template = template.
Proof.
  induction template as [|c t IH]; intros H; [reflexivity|].
  cbn [JsString.getSubstitution expandsNothing] in *.
  destruct (Ascii.eqb c "$").
  - destruct t as [|d rest]; [reflexivity|].
    apply andb_true_iff in H as [Hd Ht].
    apply negb_true_iff in Hd.
    apply orb_false_iff in Hd as [Hd Hquote].
    apply orb_false_iff in Hd as [Hd Hbacktick].
    apply orb_false_iff in Hd as [Hdollar Hampersand].
    rewrite Hdollar, Hampersand, Hbacktick, Hquote.
    f_equal. now apply IH.
  - f_equal. now apply IH.
Qed.

(** Replacing a prefix puts the expansion of the replacement text in the
    place of the prefix. *)
Lemma replace_prefix_expanded (s searchString replaceValue : string) :
  JsString.startsWith s searchString = true ->
  let after := JsString.drop (String.length searchString) s in
  JsString.replace s searchString replaceValue
  = JsString.getSubstitution searchString "" after replaceValue ++ after.
Proof.
  intros Hs after. unfold JsString.replace.
  rewrite (splitFirst_prefix _ _ Hs). reflexivity.
Qed.

(** Replacing a prefix by a text in which nothing is expanded puts the
    text in the place of the prefix. *)
Lemma replace_prefix (s searchString replaceValue : string) :
  JsString.startsWith s searchString = true ->
  expandsNothing replaceValue = true ->
  JsString.replace s searchString replaceValue
  = replaceValue ++ JsString.drop (String.length searchString) s.
Proof.
  intros Hs Hd. rewrite (replace_prefix_expanded _ _ _ Hs).
  now rewrite getSubstitution_expandsNothing.
Qed.

Lemma find_none_iff {A} (f : A -> bool) (l : list A) :
  find f l = None <-> forall x, In x l -> f x = false.
Proof.
  split.
  - apply find_none.
  - induction l as [|a l IH]; simpl; intros H; [reflexivity|].
    rewrite (H a (or_introl eq_refl)). apply IH. intros x Hx. apply H. now right.
Qed.

Lemma find_first {A} (f : A -> bool) (before : list A) (x : A) (after : list A) :
  (forall y, In y before -> f y = false) -> f x = true ->
  find f (before ++ x :: after) = Some x.
Proof.
  induction before as [|b before IH]; simpl; intros Hb Hx.
  - now rewrite Hx.
  - rewrite (Hb b (or_introl eq_refl)). apply IH; auto.
Qed.
End StringFacts.

(* ================================================================== *)
(** * The alias resolver: first match, first candidate *)
(* ================================================================== *)

Section AliasResolverFacts.
Local Open Scope string_scope.
Variable cwd : string.

Lemma resolveAliasedPath_no_config (fsPath documentPath : string) :
  resolveAliasedPath cwd fsPath documentPath None
  = Path.resolve cwd [Path.dirname documentPath; fsPath].
Proof. reflexivity. Qed.

Lemma resolveAliasedPath_no_match (fsPath documentPath : string) (c : ITsConfig.t) :
  (forall shorthand, In shorthand (aliasesOf c) ->
     JsString.startsWith fsPath (IPathShorthand.alias shorthand) = false) ->
  resolveAliasedPath cwd fsPath documentPath (Some c)
  = Path.resolve cwd [Path.dirname documentPath; fsPath].
Proof.
  intros H. unfold resolveAliasedPath, matchingShorthand, aliasesOf in *.
  destruct (ITsConfig.paths c) as [shorthands|]; [|reflexivity].
  apply (proj2 (find_none_iff _ _)) in H. now rewrite H.
Qed.

Lemma resolveAliasedPath_first_match (fsPath documentPath : string) (c : ITsConfig.t)
      (before : list IPathShorthand.t) (shorthand : IPathShorthand.t)
      (after : list IPathShorthand.t) :
  aliasesOf c = (before ++ shorthand :: after)%list ->
  (forall earlier, In earlier before ->
     JsString.startsWith fsPath (IPathShorthand.alias earlier) = false) ->
  JsString.startsWith fsPath (IPathShorthand.alias shorthand) = true ->
  resolveAliasedPath cwd fsPath documentPath (Some c)
  = Path.resolve cwd
      [Path.dirname (ITsConfig.filepath c);
       JsString.replace fsPath (IPathShorthand.alias shorthand)
         (JsString.toString (nth_error (IPathShorthand.paths shorthand) 0))].
Proof.
  intros Hc Hb Hs. unfold resolveAliasedPath, matchingShorthand, aliasesOf in *.
  destruct (ITsConfig.paths c) as [shorthands|].
  - subst shorthands.
    now rewrite (find_first
                   (fun sh => JsString.startsWith fsPath (IPathShorthand.alias sh))
                   before shorthand after Hb Hs).
  - destruct before; discriminate.
Qed.
End AliasResolverFacts.

Section AliasResolverLaw.
Local Open Scope string_scope.

(** C1, at the failing input.  The prefix is replaced with
    [String.prototype.replace], which expands [$$], [$&], [$`] and [$']
    in the candidate: with the alias [@ui/] and the candidate [lib/$&],
    [@ui/button] resolves to [/proj/lib/@ui/button], where the path with
    the prefix replaced by the candidate is [/proj/lib/$&button].  In
    general the first alias, in declaration order, that is a prefix of the
    path decides, and the result is the expansion of its first candidate
    followed by the rest of the path, resolved against the directory of
    the config file; it is the candidate as written exactly when nothing
    in it is expanded, as in [lib/$x/].  Without a config, or when no
    alias is a prefix of the path, the path is resolved against the
    directory of the importing file; with [@ui/*] declared before [@/*],
    [@ui/button] goes through the first. *)
Theorem resolveAliasedPath_expands_dollar_patterns :
  (let c := ITsConfig.mk "/proj/tsconfig.json"
              (Some [IPathShorthand.mk "@ui/" ["lib/$&"]]) in
   matchingShorthand "@ui/button" (Some c) = Some (IPathShorthand.mk "@ui/" ["lib/$&"])
   /\ resolveAliasedPath "/" "@ui/button" "/proj/app/a.scss" (Some c)
      = "/proj/lib/@ui/button"
   /\ Path.resolve "/"
        [Path.dirname (ITsConfig.filepath c);
         String.append "lib/$&" (JsString.drop (String.length "@ui/") "@ui/button")]
      = "/proj/lib/$&button"
   /\ resolveAliasedPath "/" "@ui/button" "/proj/app/a.scss" (Some c)
      <> Path.resolve "/"
           [Path.dirname (ITsConfig.filepath c);
            String.append "lib/$&" (JsString.drop (String.length "@ui/") "@ui/button")])
  /\ (let c := ITsConfig.mk "/proj/tsconfig.json"
                 (Some [IPathShorthand.mk "@ui/" ["lib/$x/"]]) in
      expandsNothing "lib/$x/" = true
      /\ resolveAliasedPath "/" "@ui/button" "/proj/app/a.scss" (Some c)
         = "/proj/lib/$x/button")
  /\ (forall cwd fsPath documentPath c before shorthand after candidate others,
        aliasesOf c = (before ++ shorthand :: after)%list ->
        (forall earlier, In earlier before ->
           JsString.startsWith fsPath (IPathShorthand.alias earlier) = false) ->
        JsString.startsWith fsPath (IPathShorthand.alias shorthand) = true ->
        IPathShorthand.paths shorthand = candidate :: others ->
        let rest := JsString.drop (String.length (IPathShorthand.alias shorthand)) fsPath in
        resolveAliasedPath cwd fsPath documentPath (Some c)
        = Path.resolve cwd
            [Path.dirname (ITsConfig.filepath c);
             String.append
               (JsString.getSubstitution (IPathShorthand.alias shorthand) "" rest candidate)
               rest]
        /\ (expandsNothing candidate = true ->
            resolveAliasedPath cwd fsPath documentPath (Some c)
            = Path.resolve cwd
                [Path.dirname (ITsConfig.filepath c); String.append candidate rest]))
  /\ (forall cwd fsPath documentPath,
        resolveAliasedPath cwd fsPath documentPath None
        = Path.resolve cwd [Path.dirname documentPath; fsPath])
  /\ (forall cwd fsPath documentPath c,
        (forall shorthand, In shorthand (aliasesOf c) ->
           JsString.startsWith fsPath (IPathShorthand.alias shorthand) = false) ->
        resolveAliasedPath cwd fsPath documentPath (Some c)
        = Path.resolve cwd [Path.dirname documentPath; fsPath])
  /\ (forall cwd documentPath,
        resolveAliasedPath cwd "@ui/button" documentPath (Some uiConfig)
        = Path.resolve cwd ["/proj"; "src/ui/button"]).
Proof.
  split; [repeat split; discriminate|].
  split; [repeat split|].
  split.
  { intros cwd fsPath documentPath c before shorthand after candidate others
           Hc Hb Hs Hp rest.
    rewrite (resolveAliasedPath_first_match cwd fsPath documentPath c
               before shorthand after Hc Hb Hs).
    rewrite Hp. cbn [nth_error JsString.toString].
    split.
    - now rewrite (replace_prefix_expanded _ _ _ Hs).
    - intros Hd. now rewrite replace_prefix. }
  split; [intros; apply resolveAliasedPath_no_config|].
  split; [intros cwd fsPath documentPath c; apply resolveAliasedPath_no_match|].
  reflexivity.
Qed.
End AliasResolverLaw.

(** C6, at the failing input: an alias that matches and has no candidate is
    not passed over; the text [undefined] takes the place of the prefix and
    the result lies below the config, where the plain resolution of the
    same path lies below the importing file. *)
Theorem resolveAliasedPath_empty_candidates :
  let c := ITsConfig.mk "/proj/tsconfig.json"
             (Some [IPathShorthand.mk "@ui/" []])%string in
  resolveAliasedPath "/" "@ui/button" "/proj/src/a.scss" (Some c)
  = "/proj/undefinedbutton"%string
  /\ Path.resolve "/" [Path.dirname "/proj/src/a.scss"; "@ui/button"]%string
     = "/proj/src/@ui/button"%string.
Proof. split; reflexivity. Qed.

(* ================================================================== *)
(** * Properties of [Map] and of the storage *)
(* ================================================================== *)

Section JsMapFacts.
Variable V : Type.
Implicit Types (m : JsMap.t V) (key : string) (value : V).

Lemma get_set_same m key value : JsMap.get (JsMap.set m key value) key = Some value.
Proof.
  induction m as [|[k v] m IH]; simpl.
  - now rewrite String.eqb_refl.
  - destruct (String.eqb k key) eqn:E; simpl.
    + now rewrite String.eqb_refl.
    + now rewrite E.
Qed.

Lemma get_set_other m key value other :
  other <> key -> JsMap.get (JsMap.set m key value) other = JsMap.get m other.
Proof.
  intros Hne. induction m as [|[k v] m IH]; simpl.
  - destruct (String.eqb key other) eqn:E; [|reflexivity].
    apply String.eqb_eq in E. congruence.
  - destruct (String.eqb k key) eqn:E; simpl.
    + apply String.eqb_eq in E. subst k.
      destruct (String.eqb key other) eqn:E'; [|reflexivity].
      apply String.eqb_eq in E'. congruence.
    + now rewrite IH.
Qed.

Lemma get_delete_same m key : JsMap.get (JsMap.delete m key) key = None.
Proof.
  induction m as [|[k v] m IH]; simpl; [reflexivity|].
  destruct (String.eqb k key) eqn:E; simpl; [exact IH|].
  now rewrite E.
Qed.

Lemma get_delete_other m key other :
  other <> key -> JsMap.get (JsMap.delete m key) other = JsMap.get m other.
Proof.
  intros Hne. induction m as [|[k v] m IH]; simpl; [reflexivity|].
  destruct (String.eqb k key) eqn:E; simpl.
  - apply String.eqb_eq in E. subst k.
    destruct (String.eqb key other) eqn:E'; [|exact IH].
    apply String.eqb_eq in E'. congruence.
  - now rewrite IH.
Qed.

Lemma get_some_in_keys m key value :
  JsMap.get m key = Some value -> In key (JsMap.keys m).
Proof.
  induction m as [|[k v] m IH]; simpl; [discriminate|].
  destruct (String.eqb k key) eqn:E; intros H.
  - left. now apply String.eqb_eq.
  - right. now apply IH.
Qed.

Lemma get_none_not_in_keys m key :
  JsMap.get m key = None -> ~ In key (JsMap.keys m).
Proof.
  induction m as [|[k v] m IH]; simpl; [tauto|].
  destruct (String.eqb k key) eqn:E; intros H; [discriminate|].
  intros [->|Hin]; [now rewrite String.eqb_refl in E|now apply IH].
Qed.

(** Setting a key that is present keeps the order of the keys. *)
Lemma keys_set_present m key value old :
  JsMap.get m key = Some old -> JsMap.keys (JsMap.set m key value) = JsMap.keys m.
Proof.
  induction m as [|[k v] m IH]; simpl; [discriminate|].
  destruct (String.eqb k key) eqn:E; simpl; intros H.
  - apply String.eqb_eq in E. now subst k.
  - f_equal. now apply IH.
Qed.

(** A new key goes last. *)
Lemma keys_set_absent m key value :
  JsMap.get m key = None -> JsMap.keys (JsMap.set m key value) = JsMap.keys m ++ [key].
Proof.
  induction m as [|[k v] m IH]; simpl; [reflexivity|].
  destruct (String.eqb k key) eqn:E; simpl; intros H; [discriminate|].
  f_equal. now apply IH.
Qed.

Lemma keys_set_NoDup m key value :
  NoDup (JsMap.keys m) -> NoDup (JsMap.keys (JsMap.set m key value)).
Proof.
  intros Hnd. destruct (JsMap.get m key) as [old|] eqn:E.
  - now rewrite (@keys_set_present m key value old E).
  - rewrite (@keys_set_absent m key value E).
    apply NoDup_app; [exact Hnd|repeat constructor; intros []|].
    intros x Hx [Hk|[]]. subst x. now apply (@get_none_not_in_keys m key E).
Qed.

Lemma keys_delete_NoDup m key :
  NoDup (JsMap.keys m) -> NoDup (JsMap.keys (JsMap.delete m key)).
Proof.
  induction m as [|[k v] m IH]; simpl; intros Hnd; [constructor|].
  inversion Hnd as [|? ? Hk Hm]; subst.
  destruct (String.eqb k key); simpl; [now apply IH|].
  constructor; [|now apply IH].
  intros Hin. apply Hk. unfold JsMap.keys, JsMap.delete in *.
  apply in_map_iff in Hin as [[k' v'] [Hk' Hin]]. simpl in Hk'. subst k'.
  apply filter_In in Hin as [Hin _].
  apply in_map_iff. now exists (k, v').
Qed.
End JsMapFacts.

(* ================================================================== *)
(** * Config events *)
(* ================================================================== *)

Section ConfigEvents.
Variable cwd : string.
Variable uriLibrary : URI.t.
Variable parseTsConfig : string -> option ITsConfig.t.

Lemma reassociate_frame ancestor tsConfigUri storage scssUri :
  StorageService._scssDocuments (reassociate cwd ancestor tsConfigUri storage scssUri)
  = StorageService._scssDocuments storage
  /\ StorageService._tsConfigs (reassociate cwd ancestor tsConfigUri storage scssUri)
     = StorageService._tsConfigs storage.
Proof.
  unfold reassociate.
  destruct (isDescendant cwd scssUri ancestor); [|now split].
  destruct tsConfigUri as [u|]; [destruct (String.eqb u "")|]; now split.
Qed.

Lemma fold_reassociate_frame ancestor tsConfigUri scssUris storage :
  StorageService._scssDocuments
    (fold_left (reassociate cwd ancestor tsConfigUri) scssUris storage)
  = StorageService._scssDocuments storage
  /\ StorageService._tsConfigs
       (fold_left (reassociate cwd ancestor tsConfigUri) scssUris storage)
     = StorageService._tsConfigs storage.
Proof.
  revert storage. induction scssUris as [|k l IH]; intros storage; simpl; [now split|].
  destruct (IH (reassociate cwd ancestor tsConfigUri storage k)) as [Hd Hc].
  destruct (reassociate_frame ancestor tsConfigUri storage k) as [Hd' Hc'].
  split; congruence.
Qed.

(** Every key that passes the scanner's own test is associated. *)
Lemma fold_reassociate_associates ancestor configUri scssUris storage scssUri :
  configUri <> ""%string ->
  In scssUri scssUris ->
  isDescendant cwd scssUri ancestor = true ->
  JsMap.get (StorageService._tsConfigsAssociations
               (fold_left (reassociate cwd ancestor (Some configUri)) scssUris storage))
            scssUri
  = Some configUri.
Proof.
  intros Hne Hin Hd. apply String.eqb_neq in Hne.
  assert (Hkeep : forall l st,
             JsMap.get (StorageService._tsConfigsAssociations st) scssUri = Some configUri ->
             JsMap.get (StorageService._tsConfigsAssociations
                          (fold_left (reassociate cwd ancestor (Some configUri)) l st))
                       scssUri = Some configUri).
  { induction l as [|k l IH]; intros st Hst; simpl; [exact Hst|].
    apply IH. unfold reassociate. rewrite Hne.
    destruct (isDescendant cwd k ancestor); [|exact Hst]. simpl.
    destruct (String.eqb k scssUri) eqn:E.
    - apply String.eqb_eq in E. subst k. apply get_set_same.
    - rewrite get_set_other; [exact Hst|].
      intros ->. now rewrite String.eqb_refl in E. }
  revert storage. induction scssUris as [|k l IH]; intros storage; [destruct Hin|].
  simpl. destruct Hin as [->|Hin].
  - apply Hkeep. unfold reassociate. rewrite Hd, Hne. simpl. apply get_set_same.
  - now apply IH.
Qed.
(** What [addTsConfigFile] achieves: every key of the index that passes
    the test on the key itself gets the new config. *)
Lemma addTsConfigFile_associates_passing_keys storage tsConfigPath tsConfig scssUri :
  parseTsConfig tsConfigPath = Some tsConfig ->
  fsPathToUri uriLibrary tsConfigPath <> ""%string ->
  In scssUri (StorageService.keys storage) ->
  isDescendant cwd scssUri (Path.dirname tsConfigPath) = true ->
  exists storage',
    addTsConfigFile cwd uriLibrary parseTsConfig storage tsConfigPath = Resolved storage'
    /\ StorageService.getAssociatedTsConfig storage' scssUri = Some tsConfig.
Proof.
  intros Hparse Huri Hkey Hbelow. unfold addTsConfigFile. rewrite Hparse.
  eexists. split; [reflexivity|].
  unfold StorageService.getAssociatedTsConfig.
  rewrite (@fold_reassociate_associates _ _ _ _ _ Huri Hkey Hbelow).
  apply String.eqb_neq in Huri. rewrite Huri.
  destruct (fold_reassociate_frame (Path.dirname tsConfigPath)
              (Some (fsPathToUri uriLibrary tsConfigPath))
              (StorageService.keys
                 (StorageService.setTsConfig storage
                    (fsPathToUri uriLibrary tsConfigPath) tsConfig))
              (StorageService.setTsConfig storage
                 (fsPathToUri uriLibrary tsConfigPath) tsConfig)) as [_ Hconfigs].
  rewrite Hconfigs. cbn. apply get_set_same.
Qed.
End ConfigEvents.

(** An association whose target is no key of the config map is as good as
    none: the document resolves its imports as one without a config. *)
Lemma getAssociatedTsConfig_dangling (cwd : string) (storage : StorageService.t)
      (scssUri target fsPath documentPath : string) :
  JsMap.get (StorageService._tsConfigsAssociations storage) scssUri = Some target ->
  StorageService.getTsConfig storage target = None ->
  StorageService.getAssociatedTsConfig storage scssUri = None
  /\ resolveAliasedPath cwd fsPath documentPath
       (StorageService.getAssociatedTsConfig storage scssUri)
     = Path.resolve cwd [Path.dirname documentPath; fsPath].
Proof.
  intros Hassoc Hconfig.
  assert (Hnone : StorageService.getAssociatedTsConfig storage scssUri = None).
  { unfold StorageService.getAssociatedTsConfig. rewrite Hassoc.
    destruct (String.eqb target ""); [reflexivity|exact Hconfig]. }
  split; [exact Hnone|]. now rewrite Hnone.
Qed.

(** C9.  [updateTsConfigFile] leaves the document tables and the
    associations as they are, keeps the keys of the config map and every
    entry under another key, and, when the config is stored and the file
    parses, replaces the alias table of its entry by the parsed one and
    keeps the entry's [filepath]; otherwise the storage is unchanged. *)
Theorem updateTsConfigFile_frame
        (uriLibrary : URI.t) (parseTsConfig : string -> option ITsConfig.t)
        (storage : StorageService.t) (tsConfigPath : string) :
  let tsConfigUri := fsPathToUri uriLibrary tsConfigPath in
  exists storage',
    (updateTsConfigFile uriLibrary parseTsConfig storage tsConfigPath = Resolved storage'
     \/ updateTsConfigFile uriLibrary parseTsConfig storage tsConfigPath = Rejected storage')
    /\ StorageService._scssDocuments storage' = StorageService._scssDocuments storage
    /\ StorageService._tsConfigsAssociations storage'
       = StorageService._tsConfigsAssociations storage
    /\ JsMap.keys (StorageService._tsConfigs storage')
       = JsMap.keys (StorageService._tsConfigs storage)
    /\ (forall other, other <> tsConfigUri ->
          StorageService.getTsConfig storage' other = StorageService.getTsConfig storage other)
    /\ match StorageService.getTsConfig storage tsConfigUri, parseTsConfig tsConfigPath with
       | Some oldTsConfig, Some newTsConfig =>
           StorageService.getTsConfig storage' tsConfigUri
           = Some (ITsConfig.mk (ITsConfig.filepath oldTsConfig)
                                (ITsConfig.paths newTsConfig))
       | _, _ => storage' = storage
       end.
Proof.
  intros tsConfigUri. unfold updateTsConfigFile. fold tsConfigUri.
  destruct (parseTsConfig tsConfigPath) as [newTsConfig|].
  - destruct (StorageService.getTsConfig storage tsConfigUri) as [oldTsConfig|] eqn:E.
    + eexists. split; [left; reflexivity|]. simpl.
      repeat split.
      * unfold StorageService.getTsConfig in E. now apply keys_set_present with (old := oldTsConfig).
      * intros other Hne. unfold StorageService.getTsConfig. simpl.
        now apply get_set_other.
      * unfold StorageService.getTsConfig. simpl. apply get_set_same.
    + exists storage. split; [left; reflexivity|]. repeat split; auto.
  - exists storage. split; [right; reflexivity|]. repeat split; auto.
    destruct (StorageService.getTsConfig storage tsConfigUri); reflexivity.
Qed.


(** C9, an instance: after [/proj/tsconfig.json] is read again, its entry
    has the new alias table and the entry of the other config is as it
    was. *)
Lemma updateTsConfigFile_frame_witness :
  exists storage',
    updateTsConfigFile PlainPaths.uriLibrary Scenario.reread Scenario.twoConfigs
      "/proj/tsconfig.json"
    = Resolved storage'
    /\ StorageService.getTsConfig storage' Scenario.configKey
       = Scenario.reread "/proj/tsconfig.json"
    /\ StorageService.getTsConfig storage' Scenario.otherKey
       = StorageService.getTsConfig Scenario.twoConfigs Scenario.otherKey.
Proof.
  destruct (updateTsConfigFile_frame PlainPaths.uriLibrary Scenario.reread
              Scenario.twoConfigs "/proj/tsconfig.json")
    as [storage' [[H|H] [_ [_ [_ [Hother Hentry]]]]]]; [|discriminate H].
  exists storage'. split; [exact H|]. split; [exact Hentry|].
  apply Hother. discriminate.
Defined.

(** C2, at the failing input.  The server runs in [/]; [/proj/src/a.scss]
    is scanned, so the index holds it under the key
    [file:///proj/src/a.scss]; then [/proj/tsconfig.json] is added.  The
    document lies below [/proj], the directory of the config, yet it is
    not associated: the scanner hands the key, a URI, to the path test, and
    the URI resolved as a path lies outside [/proj]. *)
Theorem addTsConfigFile_misses_descendant :
  scanScssFiles PlainPaths.uriLibrary Scenario.noSymbols Scenario.settings
    Scenario.oneFile 8 StorageService.create ["/proj/src/a.scss"%string]
  = Resolved Scenario.indexed
  /\ exists configured,
      addTsConfigFile "/" PlainPaths.uriLibrary Scenario.libConfig Scenario.indexed
        "/proj/tsconfig.json"
      = Resolved configured
      /\ StorageService.keys configured = [Scenario.aKey]
      /\ isDescendant "/" "/proj/src/a.scss" (Path.dirname "/proj/tsconfig.json") = true
      /\ isDescendant "/" Scenario.aKey (Path.dirname "/proj/tsconfig.json") = false
      /\ StorageService.getTsConfig configured Scenario.configKey
         = Scenario.libConfig "/proj/tsconfig.json"
      /\ StorageService.getAssociatedTsConfig configured Scenario.aKey = None.
Proof.
  split; [reflexivity|].
  eexists. split; [reflexivity|]. repeat split.
Qed.

(** C8, at the failing input.  The server runs in [/proj]; the file is
    scanned, [/proj/tsconfig.json] is added, which associates the document
    to it, and is then deleted.  The association stays, and its target is
    no key of the config map any more: [deleteTsConfigFile] tests the keys
    against the path of the config file, not against its directory as
    [addTsConfigFile] does, and no key lies below a file.  Only the lookup
    hides it: the document resolves as one without a config.  [clear]
    leaves the same behind: it empties the config map and keeps the
    associations. *)
Theorem deleteTsConfigFile_leaves_dangling_association :
  exists configured deleted,
    addTsConfigFile "/proj" PlainPaths.uriLibrary Scenario.libConfig Scenario.indexed
      "/proj/tsconfig.json"
    = Resolved configured
    /\ StorageService.getAssociatedTsConfig configured Scenario.aKey
       = Scenario.libConfig "/proj/tsconfig.json"
    /\ deleteTsConfigFile "/proj" PlainPaths.uriLibrary Scenario.oneFile 8 configured
         "/proj/tsconfig.json" "file:///proj"
       = Resolved deleted
    /\ JsMap.get (StorageService._tsConfigsAssociations deleted) Scenario.aKey
       = Some Scenario.configKey
    /\ StorageService.getTsConfig deleted Scenario.configKey = None
    /\ StorageService.getAssociatedTsConfig deleted Scenario.aKey = None
    /\ JsMap.get (StorageService._tsConfigsAssociations (StorageService.clear configured))
         Scenario.aKey
       = Some Scenario.configKey
    /\ StorageService.getTsConfig (StorageService.clear configured) Scenario.configKey
       = None.
Proof.
  eexists. eexists. split; [reflexivity|]. repeat split.
Qed.
(* ================================================================== *)
(** * Walking up from a directory to a limit *)
(* ================================================================== *)

Section PathFacts.
Local Open Scope string_scope.

Lemma append_assoc (a b c : string) : (a ++ b) ++ c = a ++ (b ++ c).
Proof. induction a; simpl; congruence. Qed.

Lemma append_empty_r (a : string) : a ++ "" = a.
Proof. induction a; simpl; congruence. Qed.

Lemma includesChar_append c a b :
  JsString.includesChar c (a ++ b) = JsString.includesChar c a || JsString.includesChar c b.
Proof. induction a; simpl; [reflexivity|]. rewrite IHa. now rewrite orb_assoc. Qed.

Lemma splitSlashAux_segment (cur a rest : string) :
  JsString.includesChar "/" a = false ->
  JsString.splitSlashAux cur (a ++ String "/" rest)
  = (cur ++ a) :: JsString.splitSlashAux "" rest.
Proof.
  revert cur. induction a as [|c a IH]; intros cur H.
  - cbn. now rewrite append_empty_r.
  - cbn [JsString.includesChar] in H. apply orb_false_iff in H as [Hc Ha].
    cbn [String.append JsString.splitSlashAux].
    rewrite Ascii.eqb_sym in Hc. rewrite Hc.
    rewrite IH by assumption. now rewrite append_assoc.
Qed.

Lemma splitSlashAux_last (cur a : string) :
  JsString.includesChar "/" a = false ->
  JsString.splitSlashAux cur a = [cur ++ a].
Proof.
  revert cur. induction a as [|c a IH]; intros cur H.
  - cbn. now rewrite append_empty_r.
  - cbn [JsString.includesChar] in H. apply orb_false_iff in H as [Hc Ha].
    cbn [JsString.splitSlashAux].
    rewrite Ascii.eqb_sym in Hc. rewrite Hc.
    rewrite IH by assumption. now rewrite append_assoc.
Qed.

Lemma cleanSegment_parts s :
  cleanSegment s = true ->
  s <> "" /\ s <> "." /\ s <> ".." /\ JsString.includesChar "/" s = false.
Proof.
  unfold cleanSegment. intros H.
  repeat (apply andb_true_iff in H as [H ?]).
  repeat match goal with
         | X : negb _ = true |- _ => apply negb_true_iff in X
         end.
  repeat split; try (apply String.eqb_neq; assumption). assumption.
Qed.

Lemma joinSlash_cons s segments :
  segments <> [] ->
  JsString.joinSlash (s :: segments) = s ++ String "/" (JsString.joinSlash segments).
Proof. destruct segments; [congruence|reflexivity]. Qed.

(** Splitting the joined segments, with a slash and more after them. *)
Lemma splitSlash_join_then segments rest :
  Forall (fun s => cleanSegment s = true) segments ->
  segments <> [] ->
  JsString.splitSlashAux "" (JsString.joinSlash segments ++ String "/" rest)
  = (segments ++ JsString.splitSlashAux "" rest)%list.
Proof.
  induction segments as [|s segments IH]; intros Hc Hne; [congruence|].
  inversion Hc as [|? ? Hs Hrest]; subst.
  apply cleanSegment_parts in Hs as (_ & _ & _ & Hs).
  destruct segments as [|s' segments].
  - cbn [JsString.joinSlash String.concat]. now rewrite splitSlashAux_segment.
  - rewrite joinSlash_cons by discriminate.
    rewrite append_assoc. cbn [String.append].
    rewrite splitSlashAux_segment by assumption.
    cbn [String.append]. rewrite IH by (assumption || discriminate). reflexivity.
Qed.

Lemma splitSlash_join segments :
  Forall (fun s => cleanSegment s = true) segments ->
  segments <> [] ->
  JsString.splitSlash (JsString.joinSlash segments) = segments.
Proof.
  unfold JsString.splitSlash.
  induction segments as [|s segments IH]; intros Hc Hne; [congruence|].
  inversion Hc as [|? ? Hs Hrest]; subst.
  apply cleanSegment_parts in Hs as (_ & _ & _ & Hs).
  destruct segments as [|s' segments].
  - cbn [JsString.joinSlash String.concat]. now rewrite splitSlashAux_last.
  - rewrite joinSlash_cons by discriminate.
    rewrite splitSlashAux_segment by assumption.
    cbn [String.append]. rewrite IH by (assumption || discriminate). reflexivity.
Qed.

Lemma normalizeSegments_clean allowAboveRoot segments stack rest :
  Forall (fun s => cleanSegment s = true) segments ->
  Path.normalizeSegments allowAboveRoot stack (segments ++ rest)%list
  = Path.normalizeSegments allowAboveRoot (rev segments ++ stack)%list rest.
Proof.
  revert stack. induction segments as [|s segments IH]; intros stack Hc; [reflexivity|].
  inversion Hc as [|? ? Hs Hrest]; subst.
  apply cleanSegment_parts in Hs as (He & Hd & Hdd & _).
  apply String.eqb_neq in He, Hd, Hdd.
  cbn [app Path.normalizeSegments]. rewrite He, Hd, Hdd.
  rewrite IH by assumption. cbn [rev]. now rewrite <- app_assoc.
Qed.

Lemma ofSegments_not_empty segments : String.eqb (ofSegments segments) "" = false.
Proof. reflexivity. Qed.

Lemma resolveSegments_ofSegments cwd segments :
  Forall (fun s => cleanSegment s = true) segments ->
  Path.resolveSegments cwd [ofSegments segments] = (segments, true).
Proof.
  intros Hc. unfold Path.resolveSegments. cbn [rev app Path.resolveLoop].
  rewrite ofSegments_not_empty. cbn [Path.isAbsolute ofSegments String.append].
  rewrite Ascii.eqb_refl. cbn [negb]. f_equal.
  unfold JsString.splitSlash. cbn [JsString.splitSlashAux]. rewrite Ascii.eqb_refl.
  destruct segments as [|s segments].
  - reflexivity.
  - rewrite splitSlash_join_then by (assumption || discriminate).
    cbn [Path.normalizeSegments String.eqb].
    rewrite normalizeSegments_clean by assumption.
    cbn. rewrite app_nil_r.
    change (rev segments ++ [s])%list with (rev (s :: segments)). apply rev_involutive.
Qed.

Lemma resolve_ofSegments cwd segments :
  Forall (fun s => cleanSegment s = true) segments ->
  Path.resolve cwd [ofSegments segments] = ofSegments segments.
Proof.
  intros Hc. unfold Path.resolve. now rewrite resolveSegments_ofSegments.
Qed.

Lemma dropCommon_spec from to up down :
  Path.dropCommon from to = (up, down) ->
  exists common, from = (common ++ up)%list /\ to = (common ++ down)%list.
Proof.
  revert to. induction from as [|f from IH]; intros to H.
  - simpl in H. inversion H; subst. now exists [].
  - destruct to as [|t to]; simpl in H.
    + inversion H; subst. now exists [].
    + destruct (String.eqb f t) eqn:E.
      * apply String.eqb_eq in E. subst t.
        destruct (IH _ H) as [common [-> ->]]. now exists (f :: common).
      * inversion H; subst. now exists [].
Qed.

Lemma joinSlash_dotdot_startsWith segments :
  JsString.startsWith (JsString.joinSlash (".." :: segments)) ".." = true.
Proof. destruct segments; reflexivity. Qed.

(** Between normalized absolute paths, a descendant has the segments of
    its ancestor and more. *)
Lemma isDescendant_ofSegments cwd file dir :
  Forall (fun s => cleanSegment s = true) file ->
  Forall (fun s => cleanSegment s = true) dir ->
  isDescendant cwd (ofSegments file) (ofSegments dir) = true ->
  exists below, below <> [] /\ file = (dir ++ below)%list.
Proof.
  intros Hf Hd H. unfold isDescendant, Path.relative in H.
  rewrite !resolve_ofSegments, !resolveSegments_ofSegments in H by assumption.
  destruct (String.eqb (ofSegments dir) (ofSegments file)); [discriminate|].
  cbn [fst] in H.
  destruct (Path.dropCommon dir file) as [up down] eqn:E.
  apply dropCommon_spec in E as [common [Hdir Hfile]].
  destruct up as [|u up].
  - rewrite app_nil_r in Hdir. subst common.
    exists down. split; [|assumption].
    intros ->. discriminate.
  - cbn [map app] in H. rewrite joinSlash_dotdot_startsWith in H.
    rewrite andb_false_r in H. discriminate.
Qed.

Lemma joinSlash_snoc segments s :
  segments <> [] ->
  JsString.joinSlash (segments ++ [s]) = JsString.joinSlash segments ++ String "/" s.
Proof.
  induction segments as [|a segments IH]; intros Hne; [congruence|].
  destruct segments as [|b segments].
  - reflexivity.
  - change ((a :: b :: segments) ++ [s])%list with (a :: ((b :: segments) ++ [s]))%list.
    rewrite joinSlash_cons by (destruct segments; discriminate).
    rewrite IH by discriminate.
    rewrite (@joinSlash_cons a (b :: segments)) by discriminate.
    rewrite append_assoc. reflexivity.
Qed.

Lemma list_ascii_of_string_append a b :
  list_ascii_of_string (a ++ b) = (list_ascii_of_string a ++ list_ascii_of_string b)%list.
Proof. induction a; simpl; congruence. Qed.

Lemma chars_without_slash s :
  JsString.includesChar "/" s = false ->
  Forall (fun c => Ascii.eqb c "/" = false) (list_ascii_of_string s).
Proof.
  induction s as [|c s IH]; intros H; [constructor|].
  cbn [JsString.includesChar] in H. apply orb_false_iff in H as [Hc Hs].
  rewrite Ascii.eqb_sym in Hc. constructor; auto.
Qed.

Lemma skipSlashes_segment (l rest : list ascii) :
  l <> [] -> Forall (fun c => Ascii.eqb c "/" = false) l ->
  Path.skipSlashes (l ++ rest) = (l ++ rest)%list.
Proof.
  destruct l as [|c l]; intros Hne Hl; [congruence|].
  inversion Hl; subst. cbn [app Path.skipSlashes]. now rewrite H1.
Qed.

Lemma skipSegment_segment (l rest : list ascii) :
  Forall (fun c => Ascii.eqb c "/" = false) l ->
  Path.skipSegment (l ++ "/"%char :: rest) = Some rest.
Proof.
  induction l as [|c l IH]; intros Hl.
  - reflexivity.
  - inversion Hl; subst. cbn [app Path.skipSegment]. rewrite H1. now apply IH.
Qed.

Lemma skipSegment_none (l : list ascii) :
  Forall (fun c => Ascii.eqb c "/" = false) l -> Path.skipSegment l = None.
Proof.
  induction l as [|c l IH]; intros Hl; [reflexivity|].
  inversion Hl; subst. cbn [Path.skipSegment]. rewrite H1. now apply IH.
Qed.

Lemma joinSlash_not_empty s segments :
  s <> "" -> JsString.joinSlash (s :: segments) <> "".
Proof.
  intros Hs. destruct segments; [exact Hs|].
  rewrite joinSlash_cons by discriminate. destruct s; [congruence|discriminate].
Qed.

(** One step up from a normalized absolute path drops its last segment. *)
Lemma dirname_ofSegments segments s :
  Forall (fun s => cleanSegment s = true) segments ->
  cleanSegment s = true ->
  Path.dirname (ofSegments (segments ++ [s])) = ofSegments segments.
Proof.
  intros Hc Hs. apply cleanSegment_parts in Hs as (Hne & _ & _ & Hslash).
  pose proof (chars_without_slash _ Hslash) as Hchars.
  assert (Hrev : Forall (fun c => Ascii.eqb c "/" = false) (rev (list_ascii_of_string s)))
    by (apply Forall_rev; exact Hchars).
  assert (Hrne : rev (list_ascii_of_string s) <> []).
  { destruct s; [congruence|]. simpl. intros E. now apply app_eq_nil in E as [_ E]. }
  unfold ofSegments, Path.dirname. cbn [String.append]. rewrite Ascii.eqb_refl.
  destruct segments as [|a segments].
  - cbn [app JsString.joinSlash String.concat].
    rewrite <- (app_nil_r (rev (list_ascii_of_string s))) at 1.
    rewrite skipSlashes_segment by assumption. rewrite app_nil_r.
    now rewrite skipSegment_none.
  - rewrite joinSlash_snoc by discriminate.
    rewrite list_ascii_of_string_append. cbn [list_ascii_of_string].
    rewrite rev_app_distr. cbn [rev]. rewrite <- app_assoc. cbn [app].
    rewrite skipSlashes_segment by assumption.
    rewrite skipSegment_segment by assumption.
    inversion Hc as [|? ? Ha Hrest]; subst.
    apply cleanSegment_parts in Ha as (Hane & _).
    destruct (rev (list_ascii_of_string (JsString.joinSlash (a :: segments)))) as [|c l] eqn:E.
    + exfalso. apply (joinSlash_not_empty segments Hane).
      apply (f_equal (@rev ascii)) in E. rewrite rev_involutive in E.
      rewrite <- (string_of_list_ascii_of_string (JsString.joinSlash (a :: segments))).
      now rewrite E.
    + rewrite <- E, rev_involutive, string_of_list_ascii_of_string. reflexivity.
Qed.

Lemma ofSegments_below_differs limit below :
  Forall (fun s => cleanSegment s = true) limit ->
  Forall (fun s => cleanSegment s = true) below ->
  below <> [] ->
  String.eqb (ofSegments (limit ++ below)) (ofSegments limit) = false.
Proof.
  intros Hl Hb Hne. apply String.eqb_neq. intros E.
  unfold ofSegments in E. cbn [String.append] in E. inversion E as [E'].
  assert (Hall : Forall (fun s => cleanSegment s = true) (limit ++ below))
    by (apply Forall_app; now split).
  destruct limit as [|a limit].
  - destruct below as [|b below]; [congruence|].
    inversion Hb as [|? ? Hbc _]; subst.
    apply cleanSegment_parts in Hbc as (Hbne & _).
    now apply (joinSlash_not_empty below Hbne).
  - apply (f_equal JsString.splitSlash) in E'.
    rewrite !splitSlash_join in E' by (assumption || discriminate).
    rewrite <- (app_nil_r (a :: limit)) in E' at 2.
    apply app_inv_head in E'. congruence.
Qed.

Lemma isDescendant_self cwd path : isDescendant cwd path path = false.
Proof. unfold isDescendant, Path.relative. now rewrite String.eqb_refl. Qed.

Lemma searchedDirectories_nil limit : searchedDirectories limit [] = [].
Proof. reflexivity. Qed.

Lemma searchedDirectories_snoc limit below s :
  searchedDirectories limit (below ++ [s])
  = ofSegments (limit ++ below ++ [s]) :: searchedDirectories limit below.
Proof.
  unfold searchedDirectories.
  rewrite length_app. cbn [length]. rewrite Nat.add_1_r.
  rewrite seq_S, rev_app_distr. cbn [rev app map].
  f_equal.
  - replace (1 + length below) with (length (below ++ [s]))
      by (rewrite length_app; cbn; lia).
    now rewrite firstn_all.
  - apply map_ext_in. intros k Hk. apply in_rev in Hk. apply in_seq in Hk.
    rewrite firstn_app. replace (k - length below) with 0 by lia.
    cbn [firstn]. now rewrite app_nil_r.
Qed.

Lemma searchedDirectories_below limit below directory :
  Forall (fun s => cleanSegment s = true) limit ->
  Forall (fun s => cleanSegment s = true) below ->
  In directory (searchedDirectories limit below) ->
  directory <> ofSegments limit.
Proof.
  intros Hl Hb Hin. unfold searchedDirectories in Hin.
  apply in_map_iff in Hin as [k [<- Hk]]. apply in_rev in Hk. apply in_seq in Hk.
  apply String.eqb_neq. apply ofSegments_below_differs; [assumption| |].
  - rewrite <- (firstn_skipn k below) in Hb. now apply Forall_app in Hb as [Hb _].
  - destruct below; [simpl in Hk; lia|]. destruct k; [lia|discriminate].
Qed.
End PathFacts.

Section FindFileInParents.
Variable cwd : string.
Variable fs : FileSystem.
Variable filename : string.

(** From a normalized directory below a normalized limit, the loop tries
    the directories up to the limit in turn and stops at the limit. *)
Lemma findFileInParentsLoop_ofSegments limit below :
  Forall (fun s => cleanSegment s = true) limit ->
  Forall (fun s => cleanSegment s = true) below ->
  forall fuel, length below < fuel ->
  findFileInParentsLoop fs fuel filename (ofSegments (limit ++ below)) (ofSegments limit)
  = Some (find (fileExists fs)
               (map (fun directory => Path.join [directory; filename])
                    (searchedDirectories limit below))).
Proof.
  intros Hl. induction below as [|s below IH] using rev_ind; intros Hb fuel Hfuel.
  - destruct fuel; [simpl in Hfuel; lia|].
    rewrite app_nil_r. cbn [findFileInParentsLoop]. now rewrite String.eqb_refl.
  - apply Forall_app in Hb as [Hb Hs]. inversion Hs as [|? ? Hs' _]; subst.
    rewrite length_app in Hfuel. cbn [length] in Hfuel.
    destruct fuel as [|fuel]; [lia|].
    cbn [findFileInParentsLoop].
    rewrite ofSegments_below_differs;
      [|assumption|apply Forall_app; now split|now destruct below].
    rewrite searchedDirectories_snoc. cbn [map find].
    destruct (fileExists fs (Path.join [ofSegments (limit ++ below ++ [s]); filename]));
      [reflexivity|].
    rewrite app_assoc, dirname_ofSegments; [|apply Forall_app; now split|assumption].
    apply IH; [assumption|lia].
Qed.

Lemma length_parentChain n : forall dir, length (parentChain n dir) = n.
Proof. induction n as [|n IH]; intros dir; cbn; [reflexivity|now rewrite IH]. Qed.

(** While the text of the limit is not met, the loop goes on or ends with
    a file: it never gives [undefined]. *)
Lemma findFileInParentsLoop_running limit fuel :
  forall dir,
    ~ In limit (parentChain fuel dir) ->
    findFileInParentsLoop fs fuel filename dir limit
    = option_map Some
        (find (fileExists fs)
              (map (fun directory => Path.join [directory; filename])
                   (parentChain fuel dir))).
Proof.
  induction fuel as [|fuel IH]; intros dir Hnot; [reflexivity|].
  cbn [findFileInParentsLoop parentChain map find] in *.
  destruct (String.eqb dir limit) eqn:E.
  - apply String.eqb_eq in E. exfalso. apply Hnot. now left.
  - destruct (fileExists fs (Path.join [dir; filename])); [reflexivity|].
    apply IH. intros Hin. apply Hnot. now right.
Qed.

(** When the text of the limit is met after [n] steps, the loop ends there,
    having tried the directories before it. *)
Lemma findFileInParentsLoop_stops limit n :
  forall dir directories,
    parentChain (S n) dir = (directories ++ [limit])%list ->
    ~ In limit directories ->
    forall fuel, n < fuel ->
      findFileInParentsLoop fs fuel filename dir limit
      = Some (find (fileExists fs)
                   (map (fun directory => Path.join [directory; filename]) directories)).
Proof.
  induction n as [|n IH]; intros dir directories Hchain Hnot fuel Hfuel;
    (destruct fuel as [|fuel]; [lia|]).
  - cbn [parentChain] in Hchain.
    destruct directories as [|d [|d' directories]]; try discriminate.
    injection Hchain as ->. cbn [findFileInParentsLoop map find].
    now rewrite String.eqb_refl.
  - change (parentChain (S (S n)) dir)
      with (dir :: parentChain (S n) (Path.dirname dir)) in Hchain.
    destruct directories as [|d directories].
    + apply (f_equal (@length string)) in Hchain.
      cbn [length app] in Hchain. rewrite length_parentChain in Hchain. lia.
    + injection Hchain as <- Hrest.
      cbn [findFileInParentsLoop map find].
      destruct (String.eqb dir limit) eqn:E.
      * apply String.eqb_eq in E. exfalso. apply Hnot. now left.
      * destruct (fileExists fs (Path.join [dir; filename])); [reflexivity|].
        apply (IH _ _ Hrest); [|lia]. intros Hin. apply Hnot. now right.
Qed.
End FindFileInParents.

(** On normalized absolute paths the walk is as one expects:
    [findFileInParents] from a directory below the limit ends, having
    tried the directory and each directory above it that is still
    strictly below the limit, never the limit itself; it gives the first
    path that exists, or [undefined] when none does. *)
Lemma findFileInParents_below_limit (cwd : string) (fs : FileSystem) (filename : string) :
  (forall fuel dir limit,
     dir = limit \/ isDescendant cwd dir limit = false \/ isDescendant cwd limit dir = true ->
     findFileInParents cwd fs fuel filename dir limit = Some None)
  /\ (forall dirSegments limitSegments,
        Forall (fun s => cleanSegment s = true) dirSegments ->
        Forall (fun s => cleanSegment s = true) limitSegments ->
        isDescendant cwd (ofSegments dirSegments) (ofSegments limitSegments) = true ->
        exists below,
          below <> [] /\ dirSegments = limitSegments ++ below
          /\ ~ In (ofSegments limitSegments) (searchedDirectories limitSegments below)
          /\ forall fuel, length below < fuel ->
               findFileInParents cwd fs fuel filename
                 (ofSegments dirSegments) (ofSegments limitSegments)
               = Some (find (fileExists fs)
                            (map (fun directory => Path.join [directory; filename])
                                 (searchedDirectories limitSegments below)))).
Proof.
  split.
  - intros fuel dir limit H. unfold findFileInParents.
    destruct H as [->|[H|H]].
    + now rewrite isDescendant_self.
    + now rewrite H.
    + rewrite H. now rewrite orb_true_r.
  - intros dirSegments limitSegments Hd Hl H.
    destruct (isDescendant_ofSegments cwd Hd Hl H) as [below [Hne ->]].
    apply Forall_app in Hd as [_ Hb].
    exists below. repeat split; try assumption.
    + intros Hin. now apply (searchedDirectories_below Hl Hb Hin).
    + intros fuel Hfuel. unfold findFileInParents. rewrite H.
      assert (Hback : isDescendant cwd (ofSegments limitSegments)
                        (ofSegments (limitSegments ++ below)) = false).
      { destruct (isDescendant cwd (ofSegments limitSegments)
                    (ofSegments (limitSegments ++ below))) eqn:E; [|reflexivity].
        apply isDescendant_ofSegments in E as [above [Hane Habove]];
          [|assumption|apply Forall_app; now split].
        apply (f_equal (@length string)) in Habove.
        rewrite !length_app in Habove.
        destruct below; [congruence|]. cbn in Habove. lia. }
      rewrite Hback. cbn [negb orb].
      now apply findFileInParentsLoop_ofSegments.
Qed.

(** From [/proj/sub/x], below the limit [/proj], the config of
    [/proj/sub] is found. *)
Example findFileInParents_below_limit_example :
  findFileInParents "/" [("/proj/sub/tsconfig.json", Some "{}")]%string 3
    "tsconfig.json" "/proj/sub/x" "/proj"
  = Some (Some "/proj/sub/tsconfig.json"%string).
Proof.
  destruct (findFileInParents_below_limit "/"
              [("/proj/sub/tsconfig.json", Some "{}")]%string "tsconfig.json")
    as [_ H].
  destruct (H ["proj"; "sub"; "x"]%string ["proj"]%string) as [below [_ [Hd [_ Hf]]]].
  - repeat constructor.
  - repeat constructor.
  - reflexivity.
  - apply app_inv_head with (l := ["proj"%string]) in Hd. subst below.
    exact (Hf 3 (le_n 3)).
Qed.

Section FindFileInParentsLaw.
Local Open Scope string_scope.

(** C10, at the failing input.  The guard of [findFileInParents] compares
    resolved paths and its loop compares texts: with the limit [/proj/],
    written with a slash at its end, [/proj/sub] is below the limit and
    passes the guard, but no directory the loop reaches is the text
    [/proj/].  The loop looks into [/proj], the limit directory itself,
    and returns the file found there; when nothing is found it goes round
    at [/] for ever.  In general: when the guard fails the answer is
    [undefined] at once; when it passes and the text of the limit is
    first met after [n] steps of [path.dirname], the directories before
    it are tried in turn and the first path that exists is returned, or
    [undefined]; when the text of the limit is never met, the call never
    gives [undefined]: it returns the first path that exists on the way,
    above the limit as well as below, or does not end. *)
Theorem findFileInParents_overruns_slash_limit :
  (isDescendant "/" "/proj/sub" "/proj/" = true
   /\ isDescendant "/" "/proj/" "/proj/sub" = false
   /\ parentChain 4 "/proj/sub" = ["/proj/sub"; "/proj"; "/"; "/"]
   /\ findFileInParents "/" [("/proj/tsconfig.json", Some "{}")] 3
        "tsconfig.json" "/proj/sub" "/proj/"
      = Some (Some "/proj/tsconfig.json")
   /\ Path.dirname "/proj/tsconfig.json" = Path.resolve "/" ["/proj/"]
   /\ (forall fuel,
         findFileInParents "/" [] fuel "tsconfig.json" "/proj/sub" "/proj/" = None))
  /\ forall cwd fs filename dir limit,
       (dir = limit \/ isDescendant cwd dir limit = false
        \/ isDescendant cwd limit dir = true ->
        forall fuel, findFileInParents cwd fs fuel filename dir limit = Some None)
       /\ (isDescendant cwd dir limit = true ->
           isDescendant cwd limit dir = false ->
           (forall n directories,
              parentChain (S n) dir = (directories ++ [limit])%list ->
              ~ In limit directories ->
              forall fuel, n < fuel ->
                findFileInParents cwd fs fuel filename dir limit
                = Some (find (fileExists fs)
                             (map (fun directory => Path.join [directory; filename])
                                  directories)))
           /\ ((forall n, ~ In limit (parentChain n dir)) ->
               forall fuel,
                 findFileInParents cwd fs fuel filename dir limit
                 = option_map Some
                     (find (fileExists fs)
                           (map (fun directory => Path.join [directory; filename])
                                (parentChain fuel dir))))).
Proof.
  assert (Hnever : forall n, ~ In "/proj/" (parentChain n "/proj/sub")).
  { assert (Hroot : forall n, ~ In "/proj/" (parentChain n "/")).
    { induction n as [|n IH]; [intros []|].
      intros [H|H]; [discriminate|exact (IH H)]. }
    intros [|[|n]]; cbn [parentChain In]; try tauto.
    - intros [H|[]]. discriminate.
    - intros [H|[H|H]]; try discriminate. exact (Hroot n H). }
  split.
  { repeat split. intros fuel. unfold findFileInParents.
    change (findFileInParentsLoop [] fuel "tsconfig.json" "/proj/sub" "/proj/" = None).
    rewrite findFileInParentsLoop_running by apply Hnever.
    assert (Hnone : forall n dir,
               find (fileExists [])
                    (map (fun directory => Path.join [directory; "tsconfig.json"])
                         (parentChain n dir)) = None).
    { induction n as [|n IH]; intros dir; [reflexivity|]. cbn [parentChain map find].
      unfold fileExists at 1. cbn [existsb]. apply IH. }
    now rewrite Hnone. }
  intros cwd fs filename dir limit. split.
  - intros H fuel. unfold findFileInParents.
    destruct H as [->|[H|H]].
    + now rewrite isDescendant_self.
    + now rewrite H.
    + rewrite H. now rewrite orb_true_r.
  - intros Hbelow Hback. split.
    + intros n directories Hchain Hnot fuel Hfuel. unfold findFileInParents.
      rewrite Hbelow, Hback. cbn [negb orb].
      now apply findFileInParentsLoop_stops with (n := n).
    + intros Hnot fuel. unfold findFileInParents.
      rewrite Hbelow, Hback. cbn [negb orb].
      now apply findFileInParentsLoop_running.
Qed.
End FindFileInParentsLaw.

(* ================================================================== *)
(** * The scan queue *)
(* ================================================================== *)

Section JsSetFacts.
Implicit Types (s : JsSet.t) (x : string).

Lemma has_iff s x : JsSet.has s x = true <-> In x (JsSet.elements s).
Proof.
  unfold JsSet.has, JsSet.elements. rewrite orb_true_iff, in_app_iff, !existsb_exists.
  split.
  - intros [[y [Hy E]]|[y [Hy E]]]; apply String.eqb_eq in E; subst; auto.
  - intros [H|H]; [left|right]; exists x; (split; [assumption|apply String.eqb_refl]).
Qed.

Lemma visited_add s x : JsSet.visited (JsSet.add s x) = JsSet.visited s.
Proof. unfold JsSet.add. now destruct (JsSet.has s x). Qed.

Lemma elements_add s x :
  JsSet.elements (JsSet.add s x)
  = if JsSet.has s x then JsSet.elements s else JsSet.elements s ++ [x].
Proof.
  unfold JsSet.add. destruct (JsSet.has s x); [reflexivity|].
  unfold JsSet.elements. simpl. now rewrite app_assoc.
Qed.

Lemma add_NoDup s x : NoDup (JsSet.elements s) -> NoDup (JsSet.elements (JsSet.add s x)).
Proof.
  intros Hnd. rewrite elements_add. destruct (JsSet.has s x) eqn:E; [assumption|].
  apply NoDup_app; [assumption|repeat constructor; intros []|].
  intros y Hy [Hx|[]]. subst y. apply has_iff in Hy. congruence.
Qed.

Lemma add_incl s x universe :
  incl (JsSet.elements s) universe -> In x universe ->
  incl (JsSet.elements (JsSet.add s x)) universe.
Proof.
  intros Hs Hx. rewrite elements_add. destruct (JsSet.has s x); [assumption|].
  apply incl_app; [assumption|]. intros y [<-|[]]. assumption.
Qed.

Lemma add_keeps s x y : In y (JsSet.elements s) -> In y (JsSet.elements (JsSet.add s x)).
Proof.
  intros H. rewrite elements_add. destruct (JsSet.has s x); [assumption|].
  apply in_or_app. now left.
Qed.

Lemma add_in s x : In x (JsSet.elements (JsSet.add s x)).
Proof.
  rewrite elements_add. destruct (JsSet.has s x) eqn:E.
  - now apply has_iff.
  - apply in_or_app. right. now left.
Qed.

Lemma visited_addAll xs s : JsSet.visited (JsSet.addAll s xs) = JsSet.visited s.
Proof.
  revert s. induction xs as [|x xs IH]; intros s; [reflexivity|].
  unfold JsSet.addAll in *. simpl. rewrite IH. apply visited_add.
Qed.

Lemma addAll_NoDup xs s :
  NoDup (JsSet.elements s) -> NoDup (JsSet.elements (JsSet.addAll s xs)).
Proof.
  revert s. induction xs as [|x xs IH]; intros s H; [assumption|].
  unfold JsSet.addAll in *. simpl. apply IH. now apply add_NoDup.
Qed.

Lemma addAll_incl xs s universe :
  incl (JsSet.elements s) universe -> incl xs universe ->
  incl (JsSet.elements (JsSet.addAll s xs)) universe.
Proof.
  revert s. induction xs as [|x xs IH]; intros s Hs Hxs; [assumption|].
  unfold JsSet.addAll in *. simpl. apply IH.
  - apply add_incl; [assumption|]. apply Hxs. now left.
  - intros y Hy. apply Hxs. now right.
Qed.

Lemma addAll_keeps xs s y :
  In y (JsSet.elements s) -> In y (JsSet.elements (JsSet.addAll s xs)).
Proof.
  revert s. induction xs as [|x xs IH]; intros s H; [assumption|].
  unfold JsSet.addAll in *. simpl. apply IH. now apply add_keeps.
Qed.

Lemma addAll_in xs s y : In y xs -> In y (JsSet.elements (JsSet.addAll s xs)).
Proof.
  revert s. induction xs as [|x xs IH]; intros s H; [destruct H|].
  unfold JsSet.addAll in *. simpl. destruct H as [->|H].
  - apply (addAll_keeps xs). apply add_in.
  - now apply IH.
Qed.

Lemma ofList_NoDup xs : NoDup (JsSet.elements (JsSet.ofList xs)).
Proof. apply addAll_NoDup. constructor. Qed.

Lemma ofList_incl xs : incl (JsSet.elements (JsSet.ofList xs)) xs.
Proof. apply addAll_incl; [intros y []|apply incl_refl]. Qed.

Lemma ofList_in xs y : In y xs -> In y (JsSet.elements (JsSet.ofList xs)).
Proof. apply addAll_in. Qed.

Lemma visited_ofList xs : JsSet.visited (JsSet.ofList xs) = [].
Proof. unfold JsSet.ofList. now rewrite visited_addAll. Qed.
End JsSetFacts.

(* ================================================================== *)
(** * Scanning: termination, the order of the scan, removed files *)
(* ================================================================== *)

(** One round of the scan loop: the set is empty or a path is taken. *)
Ltac scan_round pending raw rest :=
  destruct pending as [|raw rest];
  cbn [scanLoop JsSet.pending JsSet.visited fst snd Nat.add] in *.

Section ScanFacts.
Variable uriLibrary : URI.t.
Variable ls : LanguageService.t.
Variable settings : ISettings.t.
Variable fs : FileSystem.

Lemma readFile_in filepath content :
  readFile fs filepath = Some content -> In (filepath, Some content) fs.
Proof.
  unfold readFile.
  destruct (find (fun entry => String.eqb (fst entry) filepath) fs) as [[q c]|] eqn:E;
    [|discriminate].
  intros ->. apply find_some in E as [Hin Hq]. simpl in Hq.
  apply String.eqb_eq in Hq. now subst q.
Qed.

Lemma staticImports_in_universe files filepath content :
  readFile fs filepath = Some content ->
  incl (staticImports
          (parseDocument uriLibrary ls
             (TextDocument.create (URI.file_toString uriLibrary filepath) content)))
       (scanUniverse uriLibrary ls fs files).
Proof.
  intros Hread target Htarget. unfold scanUniverse.
  apply in_or_app. right. apply in_flat_map.
  exists (filepath, Some content). split; [now apply readFile_in|exact Htarget].
Qed.

Lemma elements_step visited raw rest :
  JsSet.elements (JsSet.mk (visited ++ [raw]) rest)
  = JsSet.elements (JsSet.mk visited (raw :: rest)).
Proof. unfold JsSet.elements. simpl. now rewrite <- app_assoc. Qed.

(** The loop ends within as many rounds as the universe has paths. *)
Lemma scanLoop_terminates files fuel :
  forall iterator storage,
    NoDup (JsSet.elements iterator) ->
    incl (JsSet.elements iterator) (scanUniverse uriLibrary ls fs files) ->
    length (scanUniverse uriLibrary ls fs files) < fuel + length (JsSet.visited iterator) ->
    fst (scanLoop uriLibrary ls settings fs fuel iterator storage) <> Running.
Proof.
  induction fuel as [|fuel IH]; intros [visited pending] storage Hnd Hincl Hlen;
    scan_round pending raw rest;
    try discriminate.
  - exfalso. apply NoDup_incl_length in Hincl; [|assumption].
    unfold JsSet.elements in Hincl. cbn in Hincl. rewrite length_app in Hincl.
    cbn in Hincl. lia.
  - assert (Hnd' : NoDup (JsSet.elements (JsSet.mk (visited ++ [raw]) rest)))
      by now rewrite elements_step.
    assert (Hincl' : incl (JsSet.elements (JsSet.mk (visited ++ [raw]) rest))
                          (scanUniverse uriLibrary ls fs files))
      by now rewrite elements_step.
    assert (Hlen' : length (scanUniverse uriLibrary ls fs files)
                    < fuel + length (visited ++ [raw]))
      by (rewrite length_app; cbn; lia).
    destruct (fileExists fs (Path.normalize raw)); cbn [negb].
    + destruct (readFile fs (Path.normalize raw)) as [content|] eqn:Hread;
        [|cbn; discriminate].
      destruct (ISettings.scanImportedFiles settings); cbn [negb].
      * apply IH.
        -- now apply addAll_NoDup.
        -- apply addAll_incl; [assumption|].
           now apply staticImports_in_universe.
        -- now rewrite visited_addAll.
      * now apply IH.
    + now apply IH.
Qed.

(** Fuel beyond what a finished scan used changes nothing. *)
Lemma scanLoop_fuel_irrelevant fuel :
  forall iterator storage more,
    fst (scanLoop uriLibrary ls settings fs fuel iterator storage) <> Running ->
    scanLoop uriLibrary ls settings fs (fuel + more) iterator storage
    = scanLoop uriLibrary ls settings fs fuel iterator storage.
Proof.
  induction fuel as [|fuel IH]; intros [visited pending] storage more H;
    scan_round pending raw rest;
    try (now destruct more); try congruence.
  destruct (fileExists fs (Path.normalize raw)); cbn [negb] in *.
  - destruct (readFile fs (Path.normalize raw)) as [content|]; [|reflexivity].
    destruct (ISettings.scanImportedFiles settings); cbn [negb] in *; now apply IH.
  - now apply IH.
Qed.

(** No path is taken from the set twice. *)
Lemma scanLoop_trace_NoDup fuel :
  forall iterator storage,
    NoDup (JsSet.elements iterator) ->
    NoDup (snd (scanLoop uriLibrary ls settings fs fuel iterator storage)).
Proof.
  induction fuel as [|fuel IH]; intros [visited pending] storage Hnd;
    scan_round pending raw rest;
    try (unfold JsSet.elements in Hnd; cbn in Hnd; now apply NoDup_app_remove_r in Hnd).
  assert (Hnd' : NoDup (JsSet.elements (JsSet.mk (visited ++ [raw]) rest)))
    by now rewrite elements_step.
  destruct (fileExists fs (Path.normalize raw)); cbn [negb].
  - destruct (readFile fs (Path.normalize raw)) as [content|].
    + destruct (ISettings.scanImportedFiles settings); cbn [negb]; apply IH;
        [now apply addAll_NoDup|assumption].
    + cbn. unfold JsSet.elements in Hnd'. cbn in Hnd'.
      now apply NoDup_app_remove_r in Hnd'.
  - now apply IH.
Qed.

(** A scan that completes has taken every element of the set. *)
Lemma scanLoop_trace_complete fuel :
  forall iterator storage storage',
    fst (scanLoop uriLibrary ls settings fs fuel iterator storage) = Resolved storage' ->
    incl (JsSet.elements iterator)
         (snd (scanLoop uriLibrary ls settings fs fuel iterator storage)).
Proof.
  induction fuel as [|fuel IH]; intros [visited pending] storage storage' H;
    scan_round pending raw rest;
    try discriminate;
    try (unfold JsSet.elements; cbn; rewrite app_nil_r; apply incl_refl).
  rewrite <- elements_step.
  destruct (fileExists fs (Path.normalize raw)); cbn [negb] in *.
  - destruct (readFile fs (Path.normalize raw)) as [content|]; [|discriminate].
    destruct (ISettings.scanImportedFiles settings); cbn [negb] in *.
    + intros y Hy. apply (IH _ _ _ H). now apply addAll_keeps.
    + now apply (IH _ _ _ H).
  - now apply (IH _ _ _ H).
Qed.

(** The keys of the index stay distinct. *)
Lemma scanLoop_keys_NoDup fuel :
  forall iterator storage storage',
    NoDup (StorageService.keys storage) ->
    storageOf (fst (scanLoop uriLibrary ls settings fs fuel iterator storage))
    = Some storage' ->
    NoDup (StorageService.keys storage').
Proof.
  induction fuel as [|fuel IH]; intros [visited pending] storage storage' Hnd H;
    scan_round pending raw rest;
    try discriminate; try (inversion H; now subst).
  destruct (fileExists fs (Path.normalize raw)); cbn [negb] in *.
  - destruct (readFile fs (Path.normalize raw)) as [content|];
      [|inversion H; now subst].
    assert (Hset : forall value,
               NoDup (StorageService.keys
                        (StorageService.set storage
                           (URI.file_toString uriLibrary (Path.normalize raw)) value)))
      by (intros value; now apply keys_set_NoDup).
    destruct (ISettings.scanImportedFiles settings); cbn [negb] in *;
      exact (IH _ _ _ (Hset _) H).
  - eapply IH; [|exact H]. now apply keys_delete_NoDup.
Qed.

(** A path that was taken from the set and whose file is missing, under a
    key that no readable file has, has no entry when the scan is over. *)
Lemma scanLoop_removes_missing (D : string) fuel :
  fileExists fs (Path.normalize D) = false ->
  (forall q content,
     readFile fs q = Some content ->
     URI.file_toString uriLibrary q <> URI.file_toString uriLibrary (Path.normalize D)) ->
  forall iterator storage storage',
    (In D (JsSet.visited iterator) ->
     StorageService.get storage (URI.file_toString uriLibrary (Path.normalize D)) = None) ->
    storageOf (fst (scanLoop uriLibrary ls settings fs fuel iterator storage))
    = Some storage' ->
    In D (snd (scanLoop uriLibrary ls settings fs fuel iterator storage)) ->
    StorageService.get storage' (URI.file_toString uriLibrary (Path.normalize D)) = None.
Proof.
  intros Hmissing Hkey.
  induction fuel as [|fuel IH]; intros [visited pending] storage storage' Hst H Hin;
    scan_round pending raw rest;
    try discriminate; try (inversion H; subst; now apply Hst).
  destruct (fileExists fs (Path.normalize raw)) eqn:Hexists; cbn [negb] in *.
  - assert (HnotD : raw <> D) by (intros ->; congruence).
    assert (Hvisited : In D (visited ++ [raw]) -> In D visited).
    { intros Hd. apply in_app_or in Hd as [Hd|[Hd|[]]]; [assumption|congruence]. }
    destruct (readFile fs (Path.normalize raw)) as [content|] eqn:Hread.
    + assert (Hother : URI.file_toString uriLibrary (Path.normalize D)
                       <> URI.file_toString uriLibrary (Path.normalize raw)).
      { intros E. now apply (Hkey _ _ Hread). }
      assert (Hst' : forall value,
                 In D (visited ++ [raw]) ->
                 StorageService.get
                   (StorageService.set storage
                      (URI.file_toString uriLibrary (Path.normalize raw)) value)
                   (URI.file_toString uriLibrary (Path.normalize D)) = None).
      { intros value Hd. unfold StorageService.get, StorageService.set. simpl.
        rewrite get_set_other by assumption. apply Hst. now apply Hvisited. }
      destruct (ISettings.scanImportedFiles settings); cbn [negb] in *;
        eapply IH; try exact H; try exact Hin; try rewrite visited_addAll; apply Hst'.
    + cbn in H, Hin. inversion H; subst. apply Hst. now apply Hvisited.
  - eapply IH; [|exact H|exact Hin].
    cbn [JsSet.visited]. intros Hd.
    unfold StorageService.get, StorageService.delete. simpl.
    destruct (String.eqb (URI.file_toString uriLibrary (Path.normalize D))
                         (URI.file_toString uriLibrary (Path.normalize raw))) eqn:E.
    + apply String.eqb_eq in E. rewrite E. apply get_delete_same.
    + apply String.eqb_neq in E. rewrite get_delete_other by assumption.
      apply Hst. apply in_app_or in Hd as [Hd|[Hd|[]]]; [assumption|].
      subst raw. congruence.
Qed.
End ScanFacts.

(** C4.  With [scanFuel] rounds, which only the file system and the input
    decide, a scan ends, resolved or rejected, and more rounds change
    nothing; the paths a scan takes from the set are pairwise distinct; the
    keys of the index stay distinct; and of two files that import each
    other, a scan of one leaves exactly one entry for each. *)
Theorem scanScssFiles_terminates
        (uriLibrary : URI.t) (ls : LanguageService.t) (settings : ISettings.t)
        (fs : FileSystem) (storage : StorageService.t) (files : list string) :
  let fuel := scanFuel uriLibrary ls fs files in
  scanScssFiles uriLibrary ls settings fs fuel storage files <> Running
  /\ (forall more,
        scanScssFiles uriLibrary ls settings fs (fuel + more) storage files
        = scanScssFiles uriLibrary ls settings fs fuel storage files)
  /\ (forall rounds, NoDup (scannedPaths uriLibrary ls settings fs rounds storage files))
  /\ (forall storage',
        NoDup (StorageService.keys storage) ->
        storageOf (scanScssFiles uriLibrary ls settings fs fuel storage files)
        = Some storage' ->
        NoDup (StorageService.keys storage'))
  /\ (let cycleFuel :=
         scanFuel PlainPaths.uriLibrary Cycle.languageService Cycle.files
                  ["/proj/a.scss"%string] in
       scanScssFiles PlainPaths.uriLibrary Cycle.languageService Scenario.settings
         Cycle.files cycleFuel StorageService.create ["/proj/a.scss"%string]
       = Resolved
           (StorageService.mk
              [("file:///proj/a.scss", Cycle.tableOf "/proj/a.scss" "/proj/b.scss");
               ("file:///proj/b.scss", Cycle.tableOf "/proj/b.scss" "/proj/a.scss")]%string
              [] [])
       /\ scannedPaths PlainPaths.uriLibrary Cycle.languageService Scenario.settings
            Cycle.files cycleFuel StorageService.create ["/proj/a.scss"%string]
          = ["/proj/a.scss"; "/proj/b.scss"]%string).
Proof.
  intros fuel.
  assert (Hend : fst (scanLoop uriLibrary ls settings fs fuel (JsSet.ofList files) storage)
                 <> Running).
  { apply scanLoop_terminates with (files := files).
    - apply ofList_NoDup.
    - intros y Hy. apply ofList_incl in Hy. unfold scanUniverse.
      apply in_or_app. now left.
    - rewrite visited_ofList. unfold fuel, scanFuel. cbn. lia. }
  split; [exact Hend|].
  split; [intros more; unfold scanScssFiles; now rewrite scanLoop_fuel_irrelevant|].
  split; [intros rounds; apply scanLoop_trace_NoDup, ofList_NoDup|].
  split; [intros storage' Hnd H; eapply scanLoop_keys_NoDup; [exact Hnd|exact H]|].
  split; reflexivity.
Qed.

(** C4, an instance: the index that the scan of the two files leaves has
    distinct keys. *)
Lemma scanScssFiles_terminates_witness :
  NoDup (StorageService.keys
           (StorageService.mk
              [("file:///proj/a.scss", Cycle.tableOf "/proj/a.scss" "/proj/b.scss");
               ("file:///proj/b.scss", Cycle.tableOf "/proj/b.scss" "/proj/a.scss")]%string
              [] [])).
Proof.
  destruct (scanScssFiles_terminates PlainPaths.uriLibrary Cycle.languageService
              Scenario.settings Cycle.files StorageService.create
              ["/proj/a.scss"%string]) as [_ [_ [_ [Hkeys _]]]].
  apply Hkeys; [constructor|reflexivity].
Defined.

(* ================================================================== *)
(** * Go to definition: the first match in the order of the index *)
(* ================================================================== *)

Section GoDefinitionFacts.
Variable uriLibrary : URI.t.
Variable ls : LanguageService.t.
Variable getDocumentPath : string -> option string -> string.

Lemma filter_no_match {A} (f : A -> bool) (l : list A) :
  existsb f l = false -> filter f l = [].
Proof.
  induction l as [|a l IH]; simpl; [reflexivity|].
  intros H. apply orb_false_iff in H as [Ha Hl]. rewrite Ha. now apply IH.
Qed.



Lemma getSymbols_no_match tables identifier currentPath :
  (forall t, In t tables -> hasMatch identifier t = false) ->
  getSymbols getDocumentPath tables identifier currentPath = [].
Proof.
  induction tables as [|t tables IH]; intros H; [reflexivity|].
  unfold getSymbols in *. cbn [flat_map].
  rewrite IH by (intros t' Ht'; apply H; now right).
  rewrite filter_no_match by (apply (H t); now left).
  reflexivity.
Qed.

(** The fresh table of the current document is no candidate. *)
Lemma parseDocument_not_related document :
  isRelatedToDocument (uriToFsPath uriLibrary (TextDocument.uri document))
                      (parseDocument uriLibrary ls document) = false.
Proof.
  unfold isRelatedToDocument, parseDocument, optionStringEqb. cbn.
  now rewrite String.eqb_refl.
Qed.



Lemma goIdentifier_storage document storage identifier :
  snd (goIdentifier uriLibrary getDocumentPath document
         (parseDocument uriLibrary ls document) storage identifier)
  = StorageService.set storage (TextDocument.uri document)
      (parseDocument uriLibrary ls document).
Proof.
  unfold goIdentifier. cbn [parseDocument IDocumentSymbols.document].
  destruct (getSymbols _ _ _ _) as [|definition rest]; [reflexivity|].
  destruct (ISymbol.document definition); [|reflexivity].
  destruct (SymbolInfo.position (ISymbol.info definition)); reflexivity.
Qed.

Lemma goIdentifier_no_candidate document storage identifier :
  (forall t,
     In t (StorageService.values
             (StorageService.set storage (TextDocument.uri document)
                (parseDocument uriLibrary ls document))) ->
     isRelatedToDocument (uriToFsPath uriLibrary (TextDocument.uri document)) t = true ->
     hasMatch identifier t = false) ->
  fst (goIdentifier uriLibrary getDocumentPath document
         (parseDocument uriLibrary ls document) storage identifier)
  = Null.
Proof.
  intros H. unfold goIdentifier. cbn [parseDocument IDocumentSymbols.document].
  rewrite getSymbols_no_match; [reflexivity|].
  intros t Ht. unfold getSymbolsRelatedToDocument, getSymbolsCollection in Ht.
  apply filter_In in Ht as [Hin Hrel]. now apply H.
Qed.



(** What [goDefinition] does before it reaches the index does not depend
    on the index. *)
Lemma goDefinition_cases document hover :
  (forall storage,
     goDefinition uriLibrary ls getDocumentPath document hover storage = (Null, storage))
  \/ (forall storage,
        goDefinition uriLibrary ls getDocumentPath document hover storage
        = (Throws, storage))
  \/ exists identifier,
      IIdentifier.type identifier <> imports
      /\ forall storage,
           goDefinition uriLibrary ls getDocumentPath document hover storage
           = goIdentifier uriLibrary getDocumentPath document
               (parseDocument uriLibrary ls document) storage identifier.
Proof.
  unfold goDefinition. destruct hover as [hoverNode|]; [|now left].
  destruct (Nat.eqb (INode.type (HoverNode.node hoverNode)) NodeType.Undefined);
    [now left|].
  destruct (Nat.eqb (INode.type (HoverNode.node hoverNode)) NodeType.VariableName).
  - destruct (HoverNode.parents hoverNode) as [|parent above]; [right; now left|].
    destruct (negb (Nat.eqb (INode.type parent) NodeType.FunctionParameter)
              && negb (Nat.eqb (INode.type parent) NodeType.VariableDeclaration));
      [|now left].
    right; right. eexists. split; [|reflexivity]. discriminate.
  - destruct (Nat.eqb (INode.type (HoverNode.node hoverNode)) NodeType.Identifier);
      [|now left].
    destruct (climbToReference hoverNode) as [head|]; [|right; now left].
    destruct (isReferenceHead head); [|now left].
    right; right. eexists. split; [|reflexivity].
    cbn. destruct (Nat.eqb (INode.type head) NodeType.Function); discriminate.
Qed.

Lemma variablesOf_position document symbols variable :
  In variable (variablesOf ls document symbols) -> IVariable.position variable <> None.
Proof.
  unfold variablesOf. intros Hin.
  apply in_flat_map in Hin as [symbol [_ Hin]].
  destruct (SymbolInformation.kind symbol); cbn in Hin;
    try (destruct Hin as [<-|[]]; discriminate); destruct Hin.
Qed.

Lemma methodsOf_position wanted document symbols method :
  In method (methodsOf ls wanted document symbols) -> IMixin.position method <> None.
Proof.
  unfold methodsOf. intros Hin.
  apply in_flat_map in Hin as [symbol [_ Hin]].
  destruct (SymbolInformation.kind symbol), wanted; cbn in Hin;
    try (destruct Hin as [<-|[]]; discriminate); destruct Hin.
Qed.

Lemma entriesOfKind_parseDocument key document item :
  In item (entriesOfKind key (parseDocument uriLibrary ls document)) ->
  SymbolInfo.position item <> None.
Proof.
  unfold parseDocument.
  destruct key; cbn [entriesOfKind IDocumentSymbols.variables IDocumentSymbols.mixins
                       IDocumentSymbols.functions];
    intros Hin; [| | |destruct Hin];
    apply in_map_iff in Hin as [entry [<- Hentry]]; cbn [SymbolInfo.position].
  - now apply variablesOf_position in Hentry.
  - now apply methodsOf_position in Hentry.
  - now apply methodsOf_position in Hentry.
Qed.

Lemma parseDocument_wellFormed document :
  wellFormedTable (parseDocument uriLibrary ls document) = true.
Proof.
  unfold wellFormedTable. apply andb_true_iff. split; [reflexivity|].
  unfold hasPositions. apply forallb_forall. intros key _.
  apply forallb_forall. intros item Hitem.
  apply entriesOfKind_parseDocument in Hitem.
  now destruct (SymbolInfo.position item).
Qed.

Lemma storageValueOf_wellFormed symbols filepath :
  wellFormedTable symbols = true ->
  wellFormedTable (storageValueOf symbols filepath) = true.
Proof.
  unfold wellFormedTable. intros H. apply andb_true_iff in H as [_ H].
  apply andb_true_iff. split; [reflexivity|exact H].
Qed.


Lemma values_set_wellFormed (m : JsMap.t IDocumentSymbols.t) key table :
  Forall (fun t => wellFormedTable t = true) (JsMap.values m) ->
  wellFormedTable table = true ->
  Forall (fun t => wellFormedTable t = true) (JsMap.values (JsMap.set m key table)).
Proof.
  intros Hm Ht. induction m as [|[k v] m IH]; cbn.
  - now repeat constructor.
  - inversion Hm as [|? ? Hv Hrest]; subst.
    destruct (String.eqb k key); cbn; constructor; auto.
Qed.

Lemma values_delete_wellFormed (m : JsMap.t IDocumentSymbols.t) key :
  Forall (fun t => wellFormedTable t = true) (JsMap.values m) ->
  Forall (fun t => wellFormedTable t = true) (JsMap.values (JsMap.delete m key)).
Proof.
  intros Hm. induction m as [|[k v] m IH]; cbn; [constructor|].
  inversion Hm as [|? ? Hv Hrest]; subst.
  destruct (String.eqb k key); cbn; [auto|constructor; auto].
Qed.
(** The scanner keeps the tables of the index as the parser makes them. *)
Lemma scanLoop_wellFormed (settings : ISettings.t) (fs : FileSystem) fuel :
  forall iterator storage storage',
    Forall (fun table => wellFormedTable table = true) (StorageService.values storage) ->
    storageOf (fst (scanLoop uriLibrary ls settings fs fuel iterator storage))
    = Some storage' ->
    Forall (fun table => wellFormedTable table = true) (StorageService.values storage').
Proof.
  induction fuel as [|fuel IH]; intros [visited pending] storage storage' Hwf H;
    scan_round pending raw rest;
    try discriminate; try (inversion H; now subst).
  destruct (fileExists fs (Path.normalize raw)); cbn [negb] in *.
  - destruct (readFile fs (Path.normalize raw)) as [content|];
      [|inversion H; now subst].
    assert (Hset : Forall (fun table => wellFormedTable table = true)
                     (StorageService.values
                        (StorageService.set storage
                           (URI.file_toString uriLibrary (Path.normalize raw))
                           (storageValueOf
                              (parseDocument uriLibrary ls
                                 (TextDocument.create
                                    (URI.file_toString uriLibrary (Path.normalize raw))
                                    content))
                              (Path.normalize raw))))).
    { apply values_set_wellFormed; [exact Hwf|].
      apply storageValueOf_wellFormed, parseDocument_wellFormed. }
    destruct (ISettings.scanImportedFiles settings); cbn [negb] in *;
      exact (IH _ _ _ Hset H).
  - eapply IH; [|exact H]. now apply values_delete_wellFormed.
Qed.

(** The identifier that a query looks up, by the node at the cursor. *)
Lemma goDefinition_variable_reference document hoverNode parent above storage :
  INode.type (HoverNode.node hoverNode) = NodeType.VariableName ->
  HoverNode.parents hoverNode = parent :: above ->
  INode.type parent <> NodeType.FunctionParameter ->
  INode.type parent <> NodeType.VariableDeclaration ->
  goDefinition uriLibrary ls getDocumentPath document (Some hoverNode) storage
  = goIdentifier uriLibrary getDocumentPath document
      (parseDocument uriLibrary ls document) storage
      (IIdentifier.mk variables
         (LanguageService.positionAt ls document (INode.offset (HoverNode.node hoverNode)))
         (INode.getName (HoverNode.node hoverNode))).
Proof.
  intros Htype Hparents Hparameter Hdeclaration. unfold goDefinition.
  rewrite Htype, Hparents. cbn [Nat.eqb NodeType.VariableName NodeType.Undefined].
  apply Nat.eqb_neq in Hparameter, Hdeclaration.
  now rewrite Hparameter, Hdeclaration.
Qed.



Lemma isReferenceHead_identifier node :
  INode.type node = NodeType.Identifier -> isReferenceHead node = false.
Proof. unfold isReferenceHead. now intros ->. Qed.

Lemma goDefinition_reference document hoverNode head storage :
  INode.type (HoverNode.node hoverNode) = NodeType.Identifier ->
  climbToReference hoverNode = Some head ->
  goDefinition uriLibrary ls getDocumentPath document (Some hoverNode) storage
  = if isReferenceHead head
    then goIdentifier uriLibrary getDocumentPath document
           (parseDocument uriLibrary ls document) storage
           (IIdentifier.mk
              (if Nat.eqb (INode.type head) NodeType.Function then functions else mixins)
              (LanguageService.positionAt ls document (INode.offset head))
              (INode.getName head))
    else (Null, storage).
Proof.
  intros Htype Hclimb. unfold goDefinition. now rewrite Htype, Hclimb.
Qed.

Lemma climbToReference_parent hoverNode parent above :
  INode.type (HoverNode.node hoverNode) = NodeType.Identifier ->
  HoverNode.parents hoverNode = parent :: above ->
  isReferenceHead parent = true ->
  climbToReference hoverNode = Some parent.
Proof.
  intros Htype Hparents Hhead. unfold climbToReference.
  now rewrite (isReferenceHead_identifier _ Htype), Hparents, Hhead.
Qed.

Lemma climbToReference_grandparent hoverNode parent grandparent above :
  INode.type (HoverNode.node hoverNode) = NodeType.Identifier ->
  HoverNode.parents hoverNode = parent :: grandparent :: above ->
  isReferenceHead parent = false ->
  climbToReference hoverNode = Some grandparent.
Proof.
  intros Htype Hparents Hhead. unfold climbToReference.
  now rewrite (isReferenceHead_identifier _ Htype), Hparents, Hhead.
Qed.



(** An entry of a map that was written to is the one written or one that
    was there. *)
Lemma in_set (V : Type) (m : JsMap.t V) key value k v :
  In (k, v) (JsMap.set m key value) -> (k = key /\ v = value) \/ In (k, v) m.
Proof.
  induction m as [|[k' v'] m IH]; cbn [JsMap.set].
  - intros [H|[]]. injection H as <- <-. now left.
  - destruct (String.eqb k' key).
    + intros [H|H]; [injection H as <- <-; now left|right; now right].
    + intros [H|H]; [right; now left|].
      destruct (IH H) as [?|?]; [now left|right; now right].
Qed.

(** When every candidate table that holds a match is under a key that the
    index does not have, the answer is [null]. *)
Lemma goIdentifier_only_under_absent document storage identifier key :
  StorageService.get storage key = None ->
  (forall k table,
     In (k, table)
        (StorageService.entries
           (StorageService.set storage (TextDocument.uri document)
              (parseDocument uriLibrary ls document))) ->
     isRelatedToDocument (uriToFsPath uriLibrary (TextDocument.uri document)) table = true ->
     hasMatch identifier table = true -> k = key) ->
  goIdentifier uriLibrary getDocumentPath document
    (parseDocument uriLibrary ls document) storage identifier
  = (Null,
     StorageService.set storage (TextDocument.uri document)
       (parseDocument uriLibrary ls document)).
Proof.
  intros Hgone Honly.
  rewrite (surjective_pairing (goIdentifier _ _ _ _ _ _)).
  rewrite goIdentifier_storage. f_equal.
  apply goIdentifier_no_candidate. intros table Htable Hrelated.
  destruct (hasMatch identifier table) eqn:Hmatch; [exfalso|reflexivity].
  unfold StorageService.values, JsMap.values in Htable.
  apply in_map_iff in Htable as [[k t] [Ht Hentry]]. cbn in Ht. subst t.
  pose proof (Honly k table Hentry Hrelated Hmatch) as Hk. subst k.
  unfold StorageService.entries, StorageService.set in Hentry.
  cbn [StorageService._scssDocuments] in Hentry.
  apply in_set in Hentry as [[_ ->]|Hentry].
  - now rewrite parseDocument_not_related in Hrelated.
  - apply get_none_not_in_keys in Hgone. apply Hgone.
    unfold JsMap.keys. apply in_map_iff. now exists (key, table).
Qed.
End GoDefinitionFacts.





(** C5.  Let the file at [D] be missing, and let no readable file have the
    index key of [D].  After a scan that completed and had [D] among its
    files, and after any scan that ended, resolved or rejected, having
    taken [D] from the set, the index holds no entry under the key of [D].
    A definition query on that index, from any document, that looks up an
    identifier for which every candidate table holding a match is under
    the key of [D] then answers [null], with the fresh table of the
    document written to the index: the lookup of the identifier does, and
    so does the query at a node that refers to a variable, a mixin or a
    function. *)
Theorem scanScssFiles_removes_missing
        (uriLibrary : URI.t) (ls : LanguageService.t) (settings : ISettings.t)
        (fs : FileSystem) (getDocumentPath : string -> option string -> string)
        (fuel : nat) (storage : StorageService.t) (files : list string) (D : string)
        (storage' : StorageService.t) :
  let key := URI.file_toString uriLibrary (Path.normalize D) in
  let outcome := scanScssFiles uriLibrary ls settings fs fuel storage files in
  fileExists fs (Path.normalize D) = false ->
  (forall q content,
     readFile fs q = Some content -> URI.file_toString uriLibrary q <> key) ->
  (outcome = Resolved storage' /\ In D files)
  \/ (storageOf outcome = Some storage'
      /\ In D (scannedPaths uriLibrary ls settings fs fuel storage files)) ->
  StorageService.get storage' key = None
  /\ forall document,
       let fresh := parseDocument uriLibrary ls document in
       let current := uriToFsPath uriLibrary (TextDocument.uri document) in
       let written := StorageService.set storage' (TextDocument.uri document) fresh in
       let onlyUnderKey := fun identifier =>
         forall k table,
           In (k, table) (StorageService.entries written) ->
           isRelatedToDocument current table = true ->
           hasMatch identifier table = true -> k = key in
       let query := fun hoverNode =>
         goDefinition uriLibrary ls getDocumentPath document (Some hoverNode) storage' in
       let reference := fun head =>
         IIdentifier.mk
           (if Nat.eqb (INode.type head) NodeType.Function then functions else mixins)
           (LanguageService.positionAt ls document (INode.offset head))
           (INode.getName head) in
       (forall identifier,
          onlyUnderKey identifier ->
          goIdentifier uriLibrary getDocumentPath document fresh storage' identifier
          = (Null, written))
       /\ forall hoverNode,
            let node := HoverNode.node hoverNode in
            (forall parent above,
               INode.type node = NodeType.VariableName ->
               HoverNode.parents hoverNode = parent :: above ->
               INode.type parent <> NodeType.FunctionParameter ->
               INode.type parent <> NodeType.VariableDeclaration ->
               onlyUnderKey
                 (IIdentifier.mk variables
                    (LanguageService.positionAt ls document (INode.offset node))
                    (INode.getName node)) ->
               query hoverNode = (Null, written))
            /\ (forall parent above,
                  INode.type node = NodeType.Identifier ->
                  HoverNode.parents hoverNode = parent :: above ->
                  isReferenceHead parent = true ->
                  onlyUnderKey (reference parent) ->
                  query hoverNode = (Null, written))
            /\ (forall parent grandparent above,
                  INode.type node = NodeType.Identifier ->
                  HoverNode.parents hoverNode = parent :: grandparent :: above ->
                  isReferenceHead parent = false ->
                  isReferenceHead grandparent = true ->
                  onlyUnderKey (reference grandparent) ->
                  query hoverNode = (Null, written)).
Proof.
  intros key outcome Hmissing Hkey Hscan.
  assert (Hgone : StorageService.get storage' key = None).
  { assert (Hended : storageOf outcome = Some storage'
                     /\ In D (scannedPaths uriLibrary ls settings fs fuel storage files)).
    { destruct Hscan as [[Hresolved Hfile]|Hended]; [|exact Hended].
      split; [unfold outcome in *; now rewrite Hresolved|].
      unfold scannedPaths.
      apply (@scanLoop_trace_complete uriLibrary ls settings fs fuel
               (JsSet.ofList files) storage storage' Hresolved).
      now apply ofList_in. }
    destruct Hended as [Hended Htaken].
    apply (@scanLoop_removes_missing uriLibrary ls settings fs D fuel Hmissing Hkey
             (JsSet.ofList files) storage storage').
    - rewrite visited_ofList. intros [].
    - exact Hended.
    - exact Htaken. }
  split; [exact Hgone|].
  intros document fresh current written onlyUnderKey query reference.
  assert (Hnull : forall identifier,
             onlyUnderKey identifier ->
             goIdentifier uriLibrary getDocumentPath document fresh storage' identifier
             = (Null, written)).
  { intros identifier Honly.
    now apply (@goIdentifier_only_under_absent uriLibrary ls getDocumentPath document
                 storage' identifier key). }
  split; [exact Hnull|].
  intros hoverNode node. subst query. cbn beta. split; [|split].
  - intros parent above Htype Hparents Hparameter Hdeclaration Honly.
    rewrite (@goDefinition_variable_reference uriLibrary ls getDocumentPath document
               hoverNode parent above storage' Htype Hparents Hparameter Hdeclaration).
    now apply Hnull.
  - intros parent above Htype Hparents Hhead Honly.
    rewrite (@goDefinition_reference uriLibrary ls getDocumentPath document hoverNode
               parent storage' Htype
               (@climbToReference_parent hoverNode parent above Htype Hparents Hhead)).
    rewrite Hhead. now apply Hnull.
  - intros parent grandparent above Htype Hparents Hparent Hhead Honly.
    rewrite (@goDefinition_reference uriLibrary ls getDocumentPath document hoverNode
               grandparent storage' Htype
               (@climbToReference_grandparent hoverNode parent grandparent above
                  Htype Hparents Hparent)).
    rewrite Hhead. now apply Hnull.
Qed.

(** C5, an instance: [b.scss], which declares [$color], is indexed, and
    the query at [$color] in [a.scss] answers its declaration.  The file
    is deleted and the scan of the delete event completes; the entry of
    [b.scss] is gone, and the same query answers [null]. *)
Lemma scanScssFiles_removes_missing_witness :
  StorageService.get AcrossFiles.index "file:///proj/b.scss" = Some AcrossFiles.bTable
  /\ fst (goDefinition PlainPaths.uriLibrary AcrossFiles.languageService
            AcrossFiles.pathAsIs AcrossFiles.aDocument (Some AcrossFiles.hover)
            AcrossFiles.index)
     = Found (Location.create "file:///proj/b.scss" (mkPosition 1 0) (mkPosition 1 6))
  /\ scanScssFiles PlainPaths.uriLibrary AcrossFiles.languageService Scenario.settings
       AcrossFiles.afterDelete 1 AcrossFiles.index ["/proj/b.scss"%string]
     = Resolved StorageService.create
  /\ StorageService.get StorageService.create "file:///proj/b.scss" = None
  /\ goDefinition PlainPaths.uriLibrary AcrossFiles.languageService
       AcrossFiles.pathAsIs AcrossFiles.aDocument (Some AcrossFiles.hover)
       StorageService.create
     = (Null,
        StorageService.set StorageService.create "file:///proj/a.scss"
          (parseDocument PlainPaths.uriLibrary AcrossFiles.languageService
             AcrossFiles.aDocument)).
Proof.
  split; [reflexivity|]. split; [reflexivity|]. split; [reflexivity|].
  pose proof (@scanScssFiles_removes_missing PlainPaths.uriLibrary
                AcrossFiles.languageService Scenario.settings AcrossFiles.afterDelete
                AcrossFiles.pathAsIs 1 AcrossFiles.index ["/proj/b.scss"%string]
                "/proj/b.scss"%string StorageService.create) as H.
  cbv beta zeta in H.
  destruct H as [Hgone Hquery].
  - reflexivity.
  - intros q content Hread.
    unfold readFile, AcrossFiles.afterDelete in Hread. cbn [find fst] in Hread.
    destruct (String.eqb "/proj/a.scss" q) eqn:E; [|discriminate Hread].
    apply String.eqb_eq in E. subst q. cbv. discriminate.
  - left. split; [reflexivity|now left].
  - split; [exact Hgone|].
    destruct (Hquery AcrossFiles.aDocument) as [_ Hnode].
    destruct (Hnode AcrossFiles.hover) as [Hvariable _].
    apply (Hvariable _ _ eq_refl eq_refl); try (cbv; discriminate).
    intros k table [Hentry|[]] Hrelated. inversion Hentry; subst.
    discriminate Hrelated.
Defined.

(* ================================================================== *)
(** * Completion: where the implicitly-label goes *)
(* ================================================================== *)

Section CompletionFacts.
Local Open Scope string_scope.
Variable uriLibrary : URI.t.
Variable ls : LanguageService.t.
Variable getDocumentPath : string -> option string -> string.
Variable getVariableColor : string -> option string.

Lemma truthy_withoutLabel settings :
  truthy (ISettings.implicitlyLabel (withoutLabel settings)) = false.
Proof. reflexivity. Qed.

(** Without an [@import] at the top, the label setting does not reach the
    variable items. *)
Lemma createVariableCompletionItems_unlabelled ast symbols filepath imports settings :
  hasStatement NodeType.Import ast = false ->
  createVariableCompletionItems uriLibrary getDocumentPath getVariableColor
    ast symbols filepath imports settings
  = createVariableCompletionItems uriLibrary getDocumentPath getVariableColor
      ast symbols filepath imports (withoutLabel settings).
Proof.
  intros Hast. unfold createVariableCompletionItems.
  assert (Honly : match ast with
                  | Some root =>
                      negb (existsb (fun child => Nat.eqb (INode.type child) NodeType.Import)
                                    (Stylesheet.getChildren root))
                  | None => true
                  end = true).
  { destruct ast as [root|]; [|reflexivity]. cbn in Hast. now rewrite Hast. }
  rewrite Honly. cbn [negb]. rewrite truthy_withoutLabel.
  apply flat_map_ext. intros symbol. apply map_ext. intros variable.
  now rewrite !andb_false_r.
Qed.

(** A mixin or function of a table that is implicitly imported is
    labelled as soon as the label is set. *)
Lemma createMethodCompletionItems_labelled kind entries symbols filepath imports
      settings label symbol method :
  ISettings.implicitlyLabel settings = Some label ->
  label <> "" ->
  In symbol symbols ->
  isImplicitly (IDocumentSymbols.document symbol) filepath imports = true ->
  In method (entries symbol) ->
  In (CompletionItem.mk (IMixin.name method) kind
        (label ++ " " ++ getDocumentPath filepath (IDocumentSymbols.filepath symbol)))
     (createMethodCompletionItems getDocumentPath kind entries symbols filepath imports
        settings).
Proof.
  intros Hlabel Hne Hsymbol Himplicit Hmethod.
  unfold createMethodCompletionItems. apply in_flat_map. exists symbol.
  split; [assumption|]. apply in_map_iff. exists method. split; [|assumption].
  rewrite Himplicit. unfold withImplicitlyLabel, truthy. rewrite Hlabel.
  apply String.eqb_neq in Hne. rewrite Hne. reflexivity.
Qed.

Lemma length_append (a b : string) :
  String.length (a ++ b) = String.length a + String.length b.
Proof. induction a; simpl; congruence. Qed.
End CompletionFacts.

(** C7 (as amended).  For a current document without an [@import]
    statement at its top, so for one with neither [@use] nor [@import],
    the variable items are those made with the label switched off, and so
    is all of [doCompletion] where neither mixins nor functions are
    offered.  Mixin items and function items bear the label whenever it is
    set and the document of the symbols is neither the current one nor
    among its imports, whatever statements the current document has. *)
Theorem implicitly_label_spares_variables_only
        (uriLibrary : URI.t) (ls : LanguageService.t)
        (getDocumentPath : string -> option string -> string)
        (getVariableColor : string -> option string)
        (ast : option Stylesheet.t) (settings : ISettings.t) :
  (hasStatement NodeType.Import ast = false ->
   (forall symbols filepath imports,
      createVariableCompletionItems uriLibrary getDocumentPath getVariableColor
        ast symbols filepath imports settings
      = createVariableCompletionItems uriLibrary getDocumentPath getVariableColor
          ast symbols filepath imports (withoutLabel settings))
   /\ (forall document context importItems storage,
         CompletionContext.mixin context = false ->
         CompletionContext.function context = false ->
         doCompletion uriLibrary ls getDocumentPath getVariableColor
           document ast context importItems settings storage
         = doCompletion uriLibrary ls getDocumentPath getVariableColor
             document ast context importItems (withoutLabel settings) storage))
  /\ (forall label symbols filepath imports symbol,
        ISettings.implicitlyLabel settings = Some label ->
        label <> ""%string ->
        In symbol symbols ->
        isImplicitly (IDocumentSymbols.document symbol) filepath imports = true ->
        (forall mixin,
           In mixin (IDocumentSymbols.mixins symbol) ->
           In (CompletionItem.mk (IMixin.name mixin) KindOfFunction
                 (String.append label
                    (String.append " "
                       (getDocumentPath filepath (IDocumentSymbols.filepath symbol)))))
              (createMixinCompletionItems getDocumentPath symbols filepath imports settings))
        /\ (forall func,
              In func (IDocumentSymbols.functions symbol) ->
              In (CompletionItem.mk (IMixin.name func) KindOfInterface
                    (String.append label
                       (String.append " "
                          (getDocumentPath filepath (IDocumentSymbols.filepath symbol)))))
                 (createFunctionCompletionItems getDocumentPath symbols filepath imports
                    settings))).
Proof.
  split.
  - intros Hast. split.
    + intros symbols filepath imports.
      now apply createVariableCompletionItems_unlabelled.
    + intros document context importItems storage Hmixin Hfunction.
      unfold doCompletion. rewrite Hmixin, Hfunction, !andb_false_r.
      cbn [ISettings.suggestVariables withoutLabel].
      now rewrite <- createVariableCompletionItems_unlabelled.
  - intros label symbols filepath imports symbol Hlabel Hne Hsymbol Himplicit. split.
    + intros mixin Hmixin.
      unfold createMixinCompletionItems.
      eapply createMethodCompletionItems_labelled; eassumption.
    + intros func Hfunc.
      unfold createFunctionCompletionItems.
      eapply createMethodCompletionItems_labelled; eassumption.
Qed.

(** C7, an instance: in [a.scss] the variable of [b.scss] is offered
    with the same detail whether the label is set or not. *)
Lemma implicitly_label_spares_variables_only_witness :
  createVariableCompletionItems PlainPaths.uriLibrary AcrossFiles.pathAsIs
    Neighbour.noColor Neighbour.aTree [Neighbour.bTable] "/proj/a.scss" []
    Scenario.settings
  = [CompletionItem.mk "$v" KindOfVariable "/proj/b"]%string.
Proof.
  destruct (implicitly_label_spares_variables_only PlainPaths.uriLibrary
              Scenario.noSymbols AcrossFiles.pathAsIs Neighbour.noColor
              Neighbour.aTree Scenario.settings) as [H _].
  destruct (H eq_refl) as [Hvariables _].
  rewrite Hvariables. reflexivity.
Defined.

(** C7, where it fails as stated: [a.scss] has neither [@use] nor
    [@import], the label is set, and the mixin and the function of
    [b.scss] are offered with the label in their detail; only the variable
    goes without.  Whatever [getDocumentPath] and [getVariableColor]
    compute, the items differ from those made with the label off. *)
Lemma implicitly_label_counterexample :
  hasStatement NodeType.Use Neighbour.aTree = false
  /\ hasStatement NodeType.Import Neighbour.aTree = false
  /\ fst (doCompletion PlainPaths.uriLibrary Scenario.noSymbols AcrossFiles.pathAsIs
            Neighbour.noColor Neighbour.aDocument Neighbour.aTree Neighbour.everywhere
            [] Scenario.settings Neighbour.index)
     = [CompletionItem.mk "$v" KindOfVariable "/proj/b";
        CompletionItem.mk "m" KindOfFunction "(implicitly) /proj/b.scss";
        CompletionItem.mk "f" KindOfInterface "(implicitly) /proj/b.scss"]%string
  /\ (forall getDocumentPath getVariableColor,
        fst (doCompletion PlainPaths.uriLibrary Scenario.noSymbols getDocumentPath
               getVariableColor Neighbour.aDocument Neighbour.aTree Neighbour.everywhere
               [] Scenario.settings Neighbour.index)
        <> fst (doCompletion PlainPaths.uriLibrary Scenario.noSymbols getDocumentPath
                  getVariableColor Neighbour.aDocument Neighbour.aTree
                  Neighbour.everywhere [] (withoutLabel Scenario.settings)
                  Neighbour.index)).
Proof.
  repeat split.
  intros getDocumentPath getVariableColor H.
  apply (f_equal (fun items => nth 1 (map CompletionItem.detail items) EmptyString)) in H.
  cbn in H. apply (f_equal String.length) in H. cbn in H. lia.
Qed.

(* ================================================================== *)
(** * Descendants and resolved paths *)
(* ================================================================== *)

Local Open Scope string_scope.

Section DescendantFacts.
Variable cwd : string.

Lemma dropCommon_prefix (dir rest : list string) :
  Path.dropCommon dir (dir ++ rest)%list = ([], rest).
Proof.
  induction dir as [|d dir IH]; simpl.
  - now destruct rest.
  - now rewrite String.eqb_refl.
Qed.

Lemma startsWith_empty s : JsString.startsWith s "" = true.
Proof. now destruct s. Qed.

Lemma startsWith_joinSlash_dotdot s below :
  cleanSegment s = true ->
  JsString.startsWith (JsString.joinSlash (s :: below)) ".." = JsString.startsWith s "..".
Proof.
  intros Hs. apply cleanSegment_parts in Hs as (Hne & Hdot & _ & _).
  destruct below as [|b below]; [reflexivity|].
  rewrite joinSlash_cons by discriminate.
  destruct s as [|c [|d s]]; [congruence| |].
  - cbn [JsString.startsWith String.append].
    destruct (Ascii.eqb "." c); reflexivity.
  - cbn [JsString.startsWith String.append]. rewrite !startsWith_empty. reflexivity.
Qed.

Lemma isAbsolute_joinSlash s below :
  cleanSegment s = true ->
  Path.isAbsolute (JsString.joinSlash (s :: below)) = false.
Proof.
  intros Hs. apply cleanSegment_parts in Hs as (Hne & _ & _ & Hslash).
  destruct s as [|c s]; [congruence|].
  cbn [JsString.includesChar] in Hslash. apply orb_false_iff in Hslash as [Hc _].
  rewrite Ascii.eqb_sym in Hc.
  destruct below as [|b below]; [exact Hc|].
  rewrite joinSlash_cons by discriminate. exact Hc.
Qed.

(** From a normalized directory to a path below it, [path.relative] is
    the rest of the path. *)
Lemma relative_ofSegments_below dir s below :
  Forall (fun s => cleanSegment s = true) dir ->
  Forall (fun s => cleanSegment s = true) (s :: below) ->
  Path.relative cwd (ofSegments dir) (ofSegments (dir ++ s :: below))
  = JsString.joinSlash (s :: below).
Proof.
  intros Hd Hb.
  assert (Hf : Forall (fun s => cleanSegment s = true) (dir ++ s :: below))
    by (apply Forall_app; now split).
  assert (Hdiff : String.eqb (ofSegments dir) (ofSegments (dir ++ s :: below)) = false).
  { rewrite String.eqb_sym. apply ofSegments_below_differs; try assumption. discriminate. }
  unfold Path.relative.
  rewrite !resolve_ofSegments, !resolveSegments_ofSegments by assumption.
  rewrite Hdiff. cbn [fst]. now rewrite dropCommon_prefix.
Qed.

Lemma isDescendant_below dir s below :
  Forall (fun s => cleanSegment s = true) dir ->
  Forall (fun s => cleanSegment s = true) (s :: below) ->
  isDescendant cwd (ofSegments (dir ++ s :: below)) (ofSegments dir)
  = negb (JsString.startsWith s "..").
Proof.
  intros Hd Hb. unfold isDescendant.
  rewrite relative_ofSegments_below by assumption.
  inversion Hb as [|? ? Hs Hbelow]; subst.
  rewrite startsWith_joinSlash_dotdot, isAbsolute_joinSlash by assumption.
  destruct (String.eqb (JsString.joinSlash (s :: below)) "") eqn:E.
  - apply String.eqb_eq in E. apply cleanSegment_parts in Hs as (Hne & _).
    now apply joinSlash_not_empty in E.
  - cbn. now rewrite andb_true_r.
Qed.

Lemma app_cons_not_self (A : Type) (l : list A) (x : A) (rest : list A) :
  l <> (l ++ x :: rest)%list.
Proof.
  intros E. apply (f_equal (@length A)) in E.
  rewrite length_app in E. cbn in E. lia.
Qed.
End DescendantFacts.

(** X1.  Between normalized absolute paths, [isDescendant(file, dir)]
    holds exactly when the segments of [file] are those of [dir] followed
    by at least one more, the first of which does not begin with two
    dots; the working directory plays no part. *)
Theorem isDescendant_iff_strictly_below (cwd : string) (file dir : list string) :
  Forall (fun s => cleanSegment s = true) file ->
  Forall (fun s => cleanSegment s = true) dir ->
  isDescendant cwd (ofSegments file) (ofSegments dir) = true
  <-> exists s below,
        file = (dir ++ s :: below)%list /\ JsString.startsWith s ".." = false.
Proof.
  intros Hf Hd. split.
  - intros H.
    destruct (isDescendant_ofSegments cwd Hf Hd H) as [[|s below] [Hne ->]];
      [congruence|].
    exists s, below. split; [reflexivity|].
    apply Forall_app in Hf as [_ Hb].
    rewrite isDescendant_below in H by assumption.
    now apply negb_true_iff in H.
  - intros (s & below & -> & Hs).
    apply Forall_app in Hf as [_ Hb].
    rewrite isDescendant_below by assumption. now rewrite Hs.
Qed.

Lemma isDescendant_iff_strictly_below_witness :
  isDescendant "/" (ofSegments ["proj"; "src"; "a.scss"]) (ofSegments ["proj"]) = true
  <-> exists s below,
        ["proj"; "src"; "a.scss"] = (["proj"] ++ s :: below)%list
        /\ JsString.startsWith s ".." = false.
Proof.
  apply (@isDescendant_iff_strictly_below "/" ["proj"; "src"; "a.scss"] ["proj"]);
    repeat constructor.
Defined.

(** X2.  On normalized absolute paths [isDescendant] is a strict order:
    no path is its own descendant, two paths are never descendants of
    each other, and a descendant of a descendant is a descendant. *)
Theorem isDescendant_strict_order (cwd : string) (a b c : list string) :
  Forall (fun s => cleanSegment s = true) a ->
  Forall (fun s => cleanSegment s = true) b ->
  Forall (fun s => cleanSegment s = true) c ->
  isDescendant cwd (ofSegments a) (ofSegments a) = false
  /\ (isDescendant cwd (ofSegments a) (ofSegments b) = true ->
      isDescendant cwd (ofSegments b) (ofSegments a) = false)
  /\ (isDescendant cwd (ofSegments a) (ofSegments b) = true ->
      isDescendant cwd (ofSegments b) (ofSegments c) = true ->
      isDescendant cwd (ofSegments a) (ofSegments c) = true).
Proof.
  intros Ha Hb Hc. split; [apply isDescendant_self|]. split.
  - intros Hab.
    destruct (isDescendant_ofSegments cwd Ha Hb Hab) as [[|s below] [Hne ->]];
      [congruence|].
    destruct (isDescendant cwd (ofSegments b) (ofSegments (b ++ s :: below))) eqn:Hba;
      [|reflexivity].
    destruct (isDescendant_ofSegments cwd Hb Ha Hba) as [[|t above] [_ E]].
    + rewrite app_nil_r in E. now apply app_cons_not_self in E.
    + rewrite <- app_assoc in E. cbn [app] in E. now apply app_cons_not_self in E.
  - intros Hab Hbc.
    destruct (isDescendant_ofSegments cwd Ha Hb Hab) as [[|s below] [_ ->]];
      [now rewrite app_nil_r, isDescendant_self in Hab|].
    destruct (isDescendant_ofSegments cwd Hb Hc Hbc) as [[|t above] [_ ->]];
      [now rewrite app_nil_r, isDescendant_self in Hbc|].
    apply Forall_app in Hb as [_ Hta].
    rewrite isDescendant_below in Hbc by assumption.
    rewrite <- app_assoc. cbn [app].
    rewrite isDescendant_below; [assumption|assumption|].
    inversion Hta; subst. constructor; [assumption|].
    apply Forall_app in Ha as [_ Hsb]. apply Forall_app. now split.
Qed.

Lemma isDescendant_strict_order_witness :
  isDescendant "/" (ofSegments ["proj"; "src"; "a.scss"])
    (ofSegments ["proj"; "src"; "a.scss"]) = false
  /\ (isDescendant "/" (ofSegments ["proj"; "src"; "a.scss"]) (ofSegments ["proj"; "src"])
      = true ->
      isDescendant "/" (ofSegments ["proj"; "src"]) (ofSegments ["proj"; "src"; "a.scss"])
      = false)
  /\ (isDescendant "/" (ofSegments ["proj"; "src"; "a.scss"]) (ofSegments ["proj"; "src"])
      = true ->
      isDescendant "/" (ofSegments ["proj"; "src"]) (ofSegments ["proj"]) = true ->
      isDescendant "/" (ofSegments ["proj"; "src"; "a.scss"]) (ofSegments ["proj"]) = true).
Proof.
  apply (@isDescendant_strict_order "/" ["proj"; "src"; "a.scss"] ["proj"; "src"]
           ["proj"]);
    repeat constructor.
Defined.

(* ================================================================== *)
(** * What [path.resolve] returns *)
(* ================================================================== *)

Section ResolveFacts.

Lemma splitSlashAux_no_slash s :
  forall cur, JsString.includesChar "/" cur = false ->
  Forall (fun segment => JsString.includesChar "/" segment = false)
         (JsString.splitSlashAux cur s).
Proof.
  induction s as [|c s IH]; intros cur Hcur; cbn [JsString.splitSlashAux].
  - now constructor.
  - destruct (Ascii.eqb c "/") eqn:E.
    + constructor; [assumption|]. now apply IH.
    + apply IH. rewrite includesChar_append, Hcur. cbn [JsString.includesChar].
      rewrite Ascii.eqb_sym, E. reflexivity.
Qed.

Lemma cleanSegment_intro s :
  String.eqb s "" = false -> String.eqb s "." = false -> String.eqb s ".." = false ->
  JsString.includesChar "/" s = false -> cleanSegment s = true.
Proof. intros H1 H2 H3 H4. unfold cleanSegment. now rewrite H1, H2, H3, H4. Qed.

(** Below the root, [normalizeString] keeps clean segments only. *)
Lemma normalizeSegments_below_root segments :
  Forall (fun segment => JsString.includesChar "/" segment = false) segments ->
  forall stack,
    Forall (fun s => cleanSegment s = true) stack ->
    Forall (fun s => cleanSegment s = true)
           (Path.normalizeSegments false stack segments).
Proof.
  induction 1 as [|seg rest Hseg Hrest IH]; intros stack Hstack;
    cbn [Path.normalizeSegments].
  - now apply Forall_rev.
  - destruct (String.eqb seg "") eqn:E1; [now apply IH|].
    destruct (String.eqb seg ".") eqn:E2; [now apply IH|].
    destruct (String.eqb seg "..") eqn:E3.
    + destruct stack as [|top below]; [now apply IH|].
      inversion Hstack; subst.
      destruct (String.eqb top ".."); apply IH; assumption.
    + apply IH. constructor; [|assumption]. now apply cleanSegment_intro.
Qed.

Lemma resolveLoop_absolute cwd :
  Path.isAbsolute cwd = true ->
  forall rargs resolvedPath,
    snd (Path.resolveLoop (rargs ++ [cwd]) resolvedPath) = true.
Proof.
  intros Hcwd. induction rargs as [|p rargs IH]; intros resolvedPath.
  - cbn [app Path.resolveLoop].
    destruct (String.eqb cwd "") eqn:E.
    + apply String.eqb_eq in E. subst cwd. discriminate.
    + now rewrite Hcwd.
  - cbn [app Path.resolveLoop].
    destruct (String.eqb p ""); [apply IH|].
    destruct (Path.isAbsolute p); [reflexivity|apply IH].
Qed.

(** In a process whose working directory is an absolute path,
    [path.resolve] returns a normalized absolute path. *)
Lemma resolve_normalized cwd args :
  Path.isAbsolute cwd = true ->
  exists segments,
    Forall (fun s => cleanSegment s = true) segments
    /\ Path.resolve cwd args = ofSegments segments.
Proof.
  intros Hcwd. unfold Path.resolve, Path.resolveSegments.
  pose proof (@resolveLoop_absolute cwd Hcwd (rev args) "") as Habs.
  destruct (Path.resolveLoop (rev args ++ [cwd]) "") as [resolvedPath resolvedAbsolute].
  cbn [snd] in Habs. subst resolvedAbsolute. cbn [negb].
  eexists. split; [|reflexivity].
  apply normalizeSegments_below_root; [|constructor].
  now apply splitSlashAux_no_slash.
Qed.

Lemma resolveAliasedPath_normal_form cwd fsPath documentPath associatedTsConfig :
  Path.isAbsolute cwd = true ->
  exists segments,
    Forall (fun s => cleanSegment s = true) segments
    /\ resolveAliasedPath cwd fsPath documentPath associatedTsConfig = ofSegments segments.
Proof.
  intros Hcwd.
  assert (H : exists args,
             resolveAliasedPath cwd fsPath documentPath associatedTsConfig
             = Path.resolve cwd args).
  { unfold resolveAliasedPath.
    destruct associatedTsConfig as [c|]; [|eexists; reflexivity].
    destruct (matchingShorthand fsPath (Some c)); eexists; reflexivity. }
  destruct H as [args ->]. now apply resolve_normalized.
Qed.
End ResolveFacts.

(** X3.  When the working directory of the server is an absolute path,
    [resolveAliasedPath] returns a normalized absolute path, whatever the
    import path, the importing file and the config are: a root slash and
    segments that are not empty, not [.] or [..], joined by single slashes.
    Resolving that path again, from any directory, gives it back. *)
Theorem resolveAliasedPath_normalized (cwd fsPath documentPath : string)
        (associatedTsConfig : option ITsConfig.t) :
  Path.isAbsolute cwd = true ->
  exists segments,
    Forall (fun s => cleanSegment s = true) segments
    /\ resolveAliasedPath cwd fsPath documentPath associatedTsConfig = ofSegments segments
    /\ forall other,
         Path.resolve other [resolveAliasedPath cwd fsPath documentPath associatedTsConfig]
         = resolveAliasedPath cwd fsPath documentPath associatedTsConfig.
Proof.
  intros Hcwd.
  destruct (@resolveAliasedPath_normal_form cwd fsPath documentPath associatedTsConfig Hcwd)
    as (segments & Hclean & ->).
  exists segments. repeat split; [assumption|].
  intros other. now apply resolve_ofSegments.
Qed.

Lemma resolveAliasedPath_normalized_witness :
  exists segments,
    Forall (fun s => cleanSegment s = true) segments
    /\ resolveAliasedPath "/" "@ui/../x//y" "/proj/app/a.scss" (Some uiConfig)
       = ofSegments segments
    /\ forall other,
         Path.resolve other
           [resolveAliasedPath "/" "@ui/../x//y" "/proj/app/a.scss" (Some uiConfig)]
         = resolveAliasedPath "/" "@ui/../x//y" "/proj/app/a.scss" (Some uiConfig).
Proof.
  apply (@resolveAliasedPath_normalized "/" "@ui/../x//y" "/proj/app/a.scss"
           (Some uiConfig))%string.
  reflexivity.
Defined.

(* ================================================================== *)
(** * The storage and the config events, key by key *)
(* ================================================================== *)

Section AssociationFacts.
Variable cwd : string.

(** The association of a key after one round of the loops over the keys. *)
Lemma get_reassociate ancestor target storage scssUri key :
  JsMap.get (StorageService._tsConfigsAssociations
               (reassociate cwd ancestor target storage scssUri)) key
  = if String.eqb key scssUri && isDescendant cwd key ancestor
    then associationOf target
    else JsMap.get (StorageService._tsConfigsAssociations storage) key.
Proof.
  unfold reassociate, associationOf.
  destruct (String.eqb key scssUri) eqn:E; cbn [andb].
  - apply String.eqb_eq in E. subst scssUri.
    destruct (isDescendant cwd key ancestor); [|reflexivity].
    destruct target as [u|]; [destruct (String.eqb u "")|]; cbn;
      auto using get_set_same, get_delete_same.
  - apply String.eqb_neq in E.
    destruct (isDescendant cwd scssUri ancestor); [|reflexivity].
    destruct target as [u|]; [destruct (String.eqb u "")|]; cbn;
      auto using get_set_other, get_delete_other.
Qed.

(** The association of a key after the whole loop. *)
Lemma get_fold_reassociate ancestor target scssUris :
  forall storage key,
    JsMap.get (StorageService._tsConfigsAssociations
                 (fold_left (reassociate cwd ancestor target) scssUris storage)) key
    = if existsb (String.eqb key) scssUris && isDescendant cwd key ancestor
      then associationOf target
      else JsMap.get (StorageService._tsConfigsAssociations storage) key.
Proof.
  induction scssUris as [|scssUri rest IH]; intros storage key; cbn [fold_left existsb].
  - reflexivity.
  - rewrite IH, get_reassociate.
    destruct (String.eqb key scssUri), (existsb (String.eqb key) rest),
      (isDescendant cwd key ancestor); reflexivity.
Qed.
End AssociationFacts.

(** X4.  [addTsConfigFile] on a config that can be read: the symbol tables
    are untouched, the config is stored under its URI and no other config
    changes, and a document is associated to the new config exactly when
    it is a key of the index that passes [isDescendant(key, dirname)];
    every other association is as before. *)
Theorem addTsConfigFile_effect (cwd : string) (uriLibrary : URI.t)
        (parseTsConfig : string -> option ITsConfig.t)
        (storage : StorageService.t) (tsConfigPath : string) (tsConfig : ITsConfig.t) :
  parseTsConfig tsConfigPath = Some tsConfig ->
  let tsConfigUri := fsPathToUri uriLibrary tsConfigPath in
  exists storage',
    addTsConfigFile cwd uriLibrary parseTsConfig storage tsConfigPath = Resolved storage'
    /\ StorageService._scssDocuments storage' = StorageService._scssDocuments storage
    /\ StorageService.getTsConfig storage' tsConfigUri = Some tsConfig
    /\ (forall other, other <> tsConfigUri ->
          StorageService.getTsConfig storage' other = StorageService.getTsConfig storage other)
    /\ forall scssUri,
         JsMap.get (StorageService._tsConfigsAssociations storage') scssUri
         = if existsb (String.eqb scssUri) (StorageService.keys storage)
              && isDescendant cwd scssUri (Path.dirname tsConfigPath)
           then associationOf (Some tsConfigUri)
           else JsMap.get (StorageService._tsConfigsAssociations storage) scssUri.
Proof.
  intros Hparse tsConfigUri. unfold addTsConfigFile. rewrite Hparse.
  eexists. split; [reflexivity|].
  destruct (fold_reassociate_frame cwd (Path.dirname tsConfigPath)
              (Some (fsPathToUri uriLibrary tsConfigPath))
              (StorageService.keys
                 (StorageService.setTsConfig storage
                    (fsPathToUri uriLibrary tsConfigPath) tsConfig))
              (StorageService.setTsConfig storage
                 (fsPathToUri uriLibrary tsConfigPath) tsConfig)) as [Hdocs Hconfigs].
  repeat split.
  - exact Hdocs.
  - unfold StorageService.getTsConfig. rewrite Hconfigs. apply get_set_same.
  - intros other Hother. unfold StorageService.getTsConfig. rewrite Hconfigs.
    now apply get_set_other.
  - intros scssUri. rewrite get_fold_reassociate. reflexivity.
Qed.

Lemma addTsConfigFile_effect_witness :
  exists storage',
    addTsConfigFile "/proj" PlainPaths.uriLibrary Scenario.libConfig Scenario.indexed
      "/proj/tsconfig.json"
    = Resolved storage'
    /\ StorageService._scssDocuments storage'
       = StorageService._scssDocuments Scenario.indexed
    /\ StorageService.getTsConfig storage'
         (fsPathToUri PlainPaths.uriLibrary "/proj/tsconfig.json")
       = Some (ITsConfig.mk "/proj/tsconfig.json" (Some [IPathShorthand.mk "@lib/" ["libs/"]]))
    /\ (forall other, other <> fsPathToUri PlainPaths.uriLibrary "/proj/tsconfig.json" ->
          StorageService.getTsConfig storage' other
          = StorageService.getTsConfig Scenario.indexed other)
    /\ forall scssUri,
         JsMap.get (StorageService._tsConfigsAssociations storage') scssUri
         = if existsb (String.eqb scssUri) (StorageService.keys Scenario.indexed)
              && isDescendant "/proj" scssUri (Path.dirname "/proj/tsconfig.json")
           then associationOf (Some (fsPathToUri PlainPaths.uriLibrary "/proj/tsconfig.json"))
           else JsMap.get (StorageService._tsConfigsAssociations Scenario.indexed) scssUri.
Proof.
  apply (@addTsConfigFile_effect "/proj" PlainPaths.uriLibrary Scenario.libConfig
           Scenario.indexed "/proj/tsconfig.json").
  reflexivity.
Defined.

(** X5.  [deleteTsConfigFile] never rejects, and when it resolves: the
    symbol tables are untouched, the config is gone from the registry and
    no other config changes, and the only associations that change are
    those of the keys of the index that pass
    [isDescendant(key, tsConfigPath)], the test against the path of the
    config file itself; they get the config found above, or none. *)
Theorem deleteTsConfigFile_effect (cwd : string) (uriLibrary : URI.t) (fs : FileSystem)
        (fuel : nat) (storage : StorageService.t) (tsConfigPath workspaceDir : string) :
  let tsConfigUri := fsPathToUri uriLibrary tsConfigPath in
  (forall failed,
     deleteTsConfigFile cwd uriLibrary fs fuel storage tsConfigPath workspaceDir
     <> Rejected failed)
  /\ forall storage',
       deleteTsConfigFile cwd uriLibrary fs fuel storage tsConfigPath workspaceDir
       = Resolved storage' ->
       StorageService._scssDocuments storage' = StorageService._scssDocuments storage
       /\ StorageService.getTsConfig storage' tsConfigUri = None
       /\ (forall other, other <> tsConfigUri ->
             StorageService.getTsConfig storage' other
             = StorageService.getTsConfig storage other)
       /\ exists newTsConfigPath,
            findFileInParents cwd fs fuel "tsconfig.json"
              (Path.dirname (Path.dirname tsConfigPath)) workspaceDir
            = Some newTsConfigPath
            /\ forall scssUri,
                 JsMap.get (StorageService._tsConfigsAssociations storage') scssUri
                 = if existsb (String.eqb scssUri) (StorageService.keys storage)
                      && isDescendant cwd scssUri tsConfigPath
                   then associationOf
                          (match newTsConfigPath with
                           | Some p => if String.eqb p "" then None
                                       else Some (fsPathToUri uriLibrary p)
                           | None => None
                           end)
                   else JsMap.get (StorageService._tsConfigsAssociations storage) scssUri.
Proof.
  intros tsConfigUri. unfold deleteTsConfigFile in *.
  destruct (findFileInParents cwd fs fuel "tsconfig.json"
              (Path.dirname (Path.dirname tsConfigPath)) workspaceDir)
    as [newTsConfigPath|]; [|split; [|intros storage' H]; discriminate].
  split; [discriminate|].
  intros storage' H. inversion H as [Hstorage]. clear H.
  match goal with
  | |- context [fold_left (reassociate cwd ?ancestor ?target) ?keys ?start] =>
      destruct (fold_reassociate_frame cwd ancestor target keys start) as [Hdocs Hconfigs]
  end.
  repeat split.
  - exact Hdocs.
  - unfold StorageService.getTsConfig. rewrite Hconfigs. apply get_delete_same.
  - intros other Hother. unfold StorageService.getTsConfig. rewrite Hconfigs.
    now apply get_delete_other.
  - exists newTsConfigPath. split; [reflexivity|].
    intros scssUri. rewrite get_fold_reassociate. reflexivity.
Qed.

(** X6.  A document associated to a stored config sees the aliases that
    [updateTsConfigFile] reads, with no new association made: they come
    under the file path the registry already held.  A document associated
    to another config sees what it saw before. *)
Theorem updateTsConfigFile_seen_through_association (uriLibrary : URI.t)
        (parseTsConfig : string -> option ITsConfig.t)
        (storage : StorageService.t) (tsConfigPath : string)
        (oldTsConfig newTsConfig : ITsConfig.t) :
  let tsConfigUri := fsPathToUri uriLibrary tsConfigPath in
  parseTsConfig tsConfigPath = Some newTsConfig ->
  StorageService.getTsConfig storage tsConfigUri = Some oldTsConfig ->
  exists storage',
    updateTsConfigFile uriLibrary parseTsConfig storage tsConfigPath = Resolved storage'
    /\ forall scssUri target,
         JsMap.get (StorageService._tsConfigsAssociations storage) scssUri = Some target ->
         (target = tsConfigUri -> target <> "" ->
          StorageService.getAssociatedTsConfig storage' scssUri
          = Some (ITsConfig.mk (ITsConfig.filepath oldTsConfig)
                               (ITsConfig.paths newTsConfig)))
         /\ (target <> tsConfigUri ->
             StorageService.getAssociatedTsConfig storage' scssUri
             = StorageService.getAssociatedTsConfig storage scssUri).
Proof.
  intros tsConfigUri Hparse Hold. unfold updateTsConfigFile.
  rewrite Hparse. fold tsConfigUri. rewrite Hold.
  eexists. split; [reflexivity|].
  intros scssUri target Hassoc.
  unfold StorageService.getAssociatedTsConfig, StorageService.setTsConfig.
  cbn [StorageService._tsConfigsAssociations StorageService._tsConfigs].
  rewrite Hassoc. split.
  - intros -> Hne. apply String.eqb_neq in Hne. rewrite Hne. apply get_set_same.
  - intros Hother. destruct (String.eqb target ""); [reflexivity|].
    now apply get_set_other.
Qed.

Lemma updateTsConfigFile_seen_through_association_witness :
  exists storage',
    updateTsConfigFile PlainPaths.uriLibrary Scenario.reread Scenario.twoConfigs
      "/proj/tsconfig.json"
    = Resolved storage'
    /\ forall scssUri target,
         JsMap.get (StorageService._tsConfigsAssociations Scenario.twoConfigs) scssUri
         = Some target ->
         (target = fsPathToUri PlainPaths.uriLibrary "/proj/tsconfig.json" ->
          target <> "" ->
          StorageService.getAssociatedTsConfig storage' scssUri
          = Some (ITsConfig.mk "/proj/tsconfig.json"
                    (Some [IPathShorthand.mk "@lib/" ["packages/"]])))
         /\ (target <> fsPathToUri PlainPaths.uriLibrary "/proj/tsconfig.json" ->
             StorageService.getAssociatedTsConfig storage' scssUri
             = StorageService.getAssociatedTsConfig Scenario.twoConfigs scssUri).
Proof.
  apply (@updateTsConfigFile_seen_through_association PlainPaths.uriLibrary
           Scenario.reread Scenario.twoConfigs "/proj/tsconfig.json"
           (ITsConfig.mk "/proj/tsconfig.json" (Some [IPathShorthand.mk "@lib/" ["libs/"]]))
           (ITsConfig.mk "/proj/tsconfig.json"
              (Some [IPathShorthand.mk "@lib/" ["packages/"]])));
    reflexivity.
Defined.

(** X7.  The association of a document with a config, as the storage
    service keeps it: a document associated to a URI under which a config
    is stored gets that config, whichever of the two was recorded first;
    the empty URI counts as no association; [desociate] removes it; other
    documents are not affected; writing or deleting symbol tables changes
    no association; and after [clear] no document has a config. *)
Theorem getAssociatedTsConfig_round_trip (storage : StorageService.t)
        (scssUri configUri : string) (config : ITsConfig.t) :
  (configUri <> "" ->
   StorageService.getAssociatedTsConfig
     (StorageService.associate (StorageService.setTsConfig storage configUri config)
        scssUri configUri) scssUri
   = Some config
   /\ StorageService.getAssociatedTsConfig
        (StorageService.setTsConfig (StorageService.associate storage scssUri configUri)
           configUri config) scssUri
      = Some config)
  /\ StorageService.getAssociatedTsConfig
       (StorageService.associate (StorageService.setTsConfig storage "" config)
          scssUri "") scssUri
     = None
  /\ StorageService.getAssociatedTsConfig (StorageService.desociate storage scssUri) scssUri
     = None
  /\ (forall other, other <> scssUri ->
        StorageService.getAssociatedTsConfig
          (StorageService.associate storage scssUri configUri) other
        = StorageService.getAssociatedTsConfig storage other
        /\ StorageService.getAssociatedTsConfig (StorageService.desociate storage scssUri)
             other
           = StorageService.getAssociatedTsConfig storage other)
  /\ (forall key table,
        StorageService.getAssociatedTsConfig (StorageService.set storage key table) scssUri
        = StorageService.getAssociatedTsConfig storage scssUri
        /\ StorageService.getAssociatedTsConfig (StorageService.delete storage key) scssUri
           = StorageService.getAssociatedTsConfig storage scssUri)
  /\ StorageService.getAssociatedTsConfig (StorageService.clear storage) scssUri = None.
Proof.
  unfold StorageService.getAssociatedTsConfig, StorageService.associate,
    StorageService.desociate, StorageService.setTsConfig, StorageService.set,
    StorageService.delete, StorageService.clear.
  cbn [StorageService._tsConfigsAssociations StorageService._tsConfigs].
  repeat split.
  - rewrite get_set_same. apply String.eqb_neq in H. rewrite H. apply get_set_same.
  - rewrite get_set_same. apply String.eqb_neq in H. rewrite H. apply get_set_same.
  - now rewrite get_set_same.
  - now rewrite get_delete_same.
  - now rewrite get_set_other.
  - now rewrite get_delete_other.
  - destruct (JsMap.get (StorageService._tsConfigsAssociations storage) scssUri) as [u|];
      [|reflexivity].
    now destruct (String.eqb u "").
Qed.

(** X8.  The symbol tables of the storage service: a table that was set
    is the one read back, a deleted key reads as [undefined], and neither
    changes what another key reads; setting a key that is present keeps
    the order of the keys, a new key goes to the end, so that re-indexing a
    file does not change its rank in the index; keys stay distinct; and
    [keys], [values] and [entries] list the same entries in the same
    order. *)
Theorem storage_set_get_delete (storage : StorageService.t) (key : string)
        (table : IDocumentSymbols.t) :
  StorageService.get (StorageService.set storage key table) key = Some table
  /\ StorageService.get (StorageService.delete storage key) key = None
  /\ (forall other, other <> key ->
        StorageService.get (StorageService.set storage key table) other
        = StorageService.get storage other
        /\ StorageService.get (StorageService.delete storage key) other
           = StorageService.get storage other)
  /\ StorageService.keys (StorageService.set storage key table)
     = (if JsMap.has (StorageService._scssDocuments storage) key
        then StorageService.keys storage
        else (StorageService.keys storage ++ [key])%list)
  /\ (NoDup (StorageService.keys storage) ->
      NoDup (StorageService.keys (StorageService.set storage key table))
      /\ NoDup (StorageService.keys (StorageService.delete storage key))
      /\ ~ In key (StorageService.keys (StorageService.delete storage key)))
  /\ StorageService.entries storage
     = combine (StorageService.keys storage) (StorageService.values storage)
  /\ length (StorageService.keys storage) = length (StorageService.values storage).
Proof.
  unfold StorageService.get, StorageService.set, StorageService.delete,
    StorageService.keys, StorageService.values, StorageService.entries.
  cbn [StorageService._scssDocuments].
  repeat split.
  - apply get_set_same.
  - apply get_delete_same.
  - now apply get_set_other.
  - now apply get_delete_other.
  - unfold JsMap.has.
    destruct (JsMap.get (StorageService._scssDocuments storage) key) as [old|] eqn:E.
    + eapply keys_set_present. eassumption.
    + now apply keys_set_absent.
  - now apply keys_set_NoDup.
  - now apply keys_delete_NoDup.
  - apply get_none_not_in_keys, get_delete_same.
  - unfold JsMap.keys, JsMap.values.
    induction (StorageService._scssDocuments storage) as [|[k v] m IH]; cbn;
      [reflexivity|]. now f_equal.
  - unfold JsMap.keys, JsMap.values. now rewrite !length_map.
Qed.

(** X9.  Of two configs added one after the other, the one added last
    takes every document that passes its test, whichever of the two
    directories is nearer to the document: [addTsConfigFile] overwrites
    the association that the earlier call made. *)
Theorem addTsConfigFile_last_added_wins (cwd : string) (uriLibrary : URI.t)
        (parseTsConfig : string -> option ITsConfig.t) (storage : StorageService.t)
        (first second : string) (firstConfig secondConfig : ITsConfig.t)
        (scssUri : string) :
  parseTsConfig first = Some firstConfig ->
  parseTsConfig second = Some secondConfig ->
  fsPathToUri uriLibrary second <> "" ->
  In scssUri (StorageService.keys storage) ->
  isDescendant cwd scssUri (Path.dirname second) = true ->
  exists afterFirst afterSecond,
    addTsConfigFile cwd uriLibrary parseTsConfig storage first = Resolved afterFirst
    /\ addTsConfigFile cwd uriLibrary parseTsConfig afterFirst second
       = Resolved afterSecond
    /\ StorageService.getAssociatedTsConfig afterSecond scssUri = Some secondConfig.
Proof.
  intros Hfirst Hsecond Huri Hkey Hbelow. unfold addTsConfigFile.
  rewrite Hfirst, Hsecond.
  set (started := StorageService.setTsConfig storage (fsPathToUri uriLibrary first)
                    firstConfig).
  set (afterFirst := fold_left
                       (reassociate cwd (Path.dirname first)
                          (Some (fsPathToUri uriLibrary first)))
                       (StorageService.keys started) started).
  set (restarted := StorageService.setTsConfig afterFirst (fsPathToUri uriLibrary second)
                      secondConfig).
  exists afterFirst,
    (fold_left (reassociate cwd (Path.dirname second)
                  (Some (fsPathToUri uriLibrary second)))
               (StorageService.keys restarted) restarted).
  split; [reflexivity|]. split; [reflexivity|].
  destruct (fold_reassociate_frame cwd (Path.dirname first)
              (Some (fsPathToUri uriLibrary first)) (StorageService.keys started) started)
    as [Hdocs _].
  fold afterFirst in Hdocs.
  destruct (fold_reassociate_frame cwd (Path.dirname second)
              (Some (fsPathToUri uriLibrary second)) (StorageService.keys restarted)
              restarted)
    as [_ Hconfigs].
  assert (Hkeys : StorageService.keys restarted = StorageService.keys storage).
  { unfold StorageService.keys, restarted.
    cbn [StorageService.setTsConfig StorageService._scssDocuments].
    rewrite Hdocs. reflexivity. }
  unfold StorageService.getAssociatedTsConfig.
  rewrite get_fold_reassociate, Hconfigs, Hkeys, Hbelow.
  assert (Hin : existsb (String.eqb scssUri) (StorageService.keys storage) = true).
  { apply existsb_exists. exists scssUri. split; [exact Hkey|apply String.eqb_refl]. }
  rewrite Hin. cbn [andb associationOf].
  apply String.eqb_neq in Huri. rewrite Huri. cbn beta iota. rewrite Huri.
  unfold restarted. cbn [StorageService.setTsConfig StorageService._tsConfigs].
  apply get_set_same.
Qed.

Lemma addTsConfigFile_last_added_wins_witness :
  exists afterFirst afterSecond,
    addTsConfigFile "/proj" PlainPaths.uriLibrary Scenario.libConfig Scenario.indexed
      "/proj/src/tsconfig.json"
    = Resolved afterFirst
    /\ addTsConfigFile "/proj" PlainPaths.uriLibrary Scenario.libConfig afterFirst
         "/proj/tsconfig.json"
       = Resolved afterSecond
    /\ StorageService.getAssociatedTsConfig afterSecond Scenario.aKey
       = Some (ITsConfig.mk "/proj/tsconfig.json" (Some [IPathShorthand.mk "@lib/" ["libs/"]])).
Proof.
  apply (@addTsConfigFile_last_added_wins "/proj" PlainPaths.uriLibrary Scenario.libConfig
           Scenario.indexed "/proj/src/tsconfig.json" "/proj/tsconfig.json"
           (ITsConfig.mk "/proj/src/tsconfig.json"
              (Some [IPathShorthand.mk "@lib/" ["libs/"]]))
           (ITsConfig.mk "/proj/tsconfig.json" (Some [IPathShorthand.mk "@lib/" ["libs/"]]))
           Scenario.aKey);
    try reflexivity.
  - discriminate.
  - now left.
Defined.

(* ================================================================== *)
(** * What a scan touches, stores and follows *)
(* ================================================================== *)

Section ScanEffects.
Variable uriLibrary : URI.t.
Variable ls : LanguageService.t.
Variable settings : ISettings.t.
Variable fs : FileSystem.

(** A scan writes symbol tables only. *)
Lemma scanLoop_keeps_configs fuel :
  forall iterator storage storage',
    storageOf (fst (scanLoop uriLibrary ls settings fs fuel iterator storage))
    = Some storage' ->
    StorageService._tsConfigs storage' = StorageService._tsConfigs storage
    /\ StorageService._tsConfigsAssociations storage'
       = StorageService._tsConfigsAssociations storage.
Proof.
  induction fuel as [|fuel IH]; intros [visited pending] storage storage' H;
    scan_round pending raw rest;
    try discriminate; try (inversion H; now subst).
  destruct (fileExists fs (Path.normalize raw)); cbn [negb] in *.
  - destruct (readFile fs (Path.normalize raw)) as [content|];
      [|inversion H; now subst].
    destruct (ISettings.scanImportedFiles settings); cbn [negb] in *;
      apply IH in H; exact H.
  - apply IH in H. exact H.
Qed.

(** The paths a scan took include those taken before it. *)
Lemma scanLoop_trace_extends fuel :
  forall iterator storage,
    incl (JsSet.visited iterator)
         (snd (scanLoop uriLibrary ls settings fs fuel iterator storage)).
Proof.
  induction fuel as [|fuel IH]; intros [visited pending] storage;
    scan_round pending raw rest; try apply incl_refl.
  assert (Hstep : forall l, incl (visited ++ [raw])%list l -> incl visited l)
    by (intros l Hl x Hx; apply Hl, in_or_app; now left).
  destruct (fileExists fs (Path.normalize raw)); cbn [negb].
  - destruct (readFile fs (Path.normalize raw)) as [content|];
      [|now apply Hstep, incl_refl].
    destruct (ISettings.scanImportedFiles settings); cbn [negb]; apply Hstep;
      match goal with
      | |- incl _ (snd (scanLoop _ _ _ _ _ ?it ?st)) =>
          pose proof (IH it st) as Hrec
      end;
      cbn [JsSet.visited] in Hrec; try rewrite visited_addAll in Hrec;
      exact Hrec.
  - apply Hstep. exact (IH (JsSet.mk (visited ++ [raw])%list rest) _).
Qed.

(** The entry of a key that is the URI of no path the scan took is as
    it was. *)
Lemma scanLoop_keeps_other_keys key fuel :
  forall iterator storage storage',
    storageOf (fst (scanLoop uriLibrary ls settings fs fuel iterator storage))
    = Some storage' ->
    (forall raw,
       In raw (snd (scanLoop uriLibrary ls settings fs fuel iterator storage)) ->
       URI.file_toString uriLibrary (Path.normalize raw) <> key) ->
    StorageService.get storage' key = StorageService.get storage key.
Proof.
  induction fuel as [|fuel IH]; intros [visited pending] storage storage' H Hkey;
    scan_round pending raw rest;
    try discriminate; try (inversion H; now subst).
  assert (Hraw : forall it st,
             JsSet.visited it = (visited ++ [raw])%list ->
             (forall p, In p (snd (scanLoop uriLibrary ls settings fs fuel it st)) ->
                        URI.file_toString uriLibrary (Path.normalize p) <> key) ->
             key <> URI.file_toString uriLibrary (Path.normalize raw)).
  { intros it st Hit Hall E. apply (Hall raw); [|now symmetry].
    apply scanLoop_trace_extends. rewrite Hit. apply in_or_app. right. now left. }
  destruct (fileExists fs (Path.normalize raw)); cbn [negb] in *.
  - destruct (readFile fs (Path.normalize raw)) as [content|];
      [|inversion H; now subst].
    destruct (ISettings.scanImportedFiles settings); cbn [negb] in *;
      rewrite (IH _ _ _ H Hkey);
      unfold StorageService.get, StorageService.set;
      cbn [StorageService._scssDocuments];
      apply get_set_other; eapply Hraw; try exact Hkey;
      cbn [JsSet.visited]; try rewrite visited_addAll; reflexivity.
  - rewrite (IH _ _ _ H Hkey).
    unfold StorageService.get, StorageService.delete.
    cbn [StorageService._scssDocuments].
    apply get_delete_other. eapply Hraw; [|exact Hkey]. reflexivity.
Qed.

(** A path that was taken from the set and whose file is there and can
    be read, under a key no other path has, has the table of its text when
    the scan is over. *)
Lemma scanLoop_stores (D content : string) fuel :
  fileExists fs (Path.normalize D) = true ->
  readFile fs (Path.normalize D) = Some content ->
  (forall q, URI.file_toString uriLibrary q
             = URI.file_toString uriLibrary (Path.normalize D) ->
             q = Path.normalize D) ->
  let key := URI.file_toString uriLibrary (Path.normalize D) in
  let table :=
    storageValueOf (parseDocument uriLibrary ls (TextDocument.create key content))
                   (Path.normalize D) in
  forall iterator storage storage',
    (In D (JsSet.visited iterator) -> StorageService.get storage key = Some table) ->
    storageOf (fst (scanLoop uriLibrary ls settings fs fuel iterator storage))
    = Some storage' ->
    In D (snd (scanLoop uriLibrary ls settings fs fuel iterator storage)) ->
    StorageService.get storage' key = Some table.
Proof.
  intros Hexists Hread Hkey key table.
  induction fuel as [|fuel IH]; intros [visited pending] storage storage' Hst H Hin;
    scan_round pending raw rest;
    try discriminate; try (inversion H; subst; now apply Hst).
  destruct (String.eqb (URI.file_toString uriLibrary (Path.normalize raw)) key) eqn:Esame.
  - apply String.eqb_eq in Esame. apply Hkey in Esame.
    rewrite Esame in *. rewrite Hexists, Hread in *. cbn [negb] in *.
    fold key in H, Hin. fold table in H, Hin.
    assert (Hst' : StorageService.get (StorageService.set storage key table) key
                   = Some table).
    { unfold StorageService.get, StorageService.set. cbn [StorageService._scssDocuments].
      apply get_set_same. }
    destruct (ISettings.scanImportedFiles settings); cbn [negb] in *;
      eapply IH; try exact H; try exact Hin; intros _; exact Hst'.
  - apply String.eqb_neq in Esame.
    assert (HnotD : raw <> D) by (intros ->; now apply Esame).
    assert (Hvisited : In D (visited ++ [raw])%list -> In D visited).
    { intros Hd. apply in_app_or in Hd as [Hd|[Hd|[]]]; [assumption|congruence]. }
    assert (Hother : key <> URI.file_toString uriLibrary (Path.normalize raw))
      by (intros E; now apply Esame).
    destruct (fileExists fs (Path.normalize raw)); cbn [negb] in *.
    + destruct (readFile fs (Path.normalize raw)) as [text|].
      * assert (Hst' : forall value,
                   In D (visited ++ [raw])%list ->
                   StorageService.get
                     (StorageService.set storage
                        (URI.file_toString uriLibrary (Path.normalize raw)) value)
                     key = Some table).
        { intros value Hd. unfold StorageService.get, StorageService.set.
          cbn [StorageService._scssDocuments].
          rewrite get_set_other by assumption. apply Hst. now apply Hvisited. }
        destruct (ISettings.scanImportedFiles settings); cbn [negb] in *;
          eapply IH; try exact H; try exact Hin; try rewrite visited_addAll; apply Hst'.
      * cbn in H, Hin. inversion H; subst. apply Hst. now apply Hvisited.
    + eapply IH; [|exact H|exact Hin].
      cbn [JsSet.visited]. intros Hd.
      unfold StorageService.get, StorageService.delete.
      cbn [StorageService._scssDocuments].
      rewrite get_delete_other by assumption. apply Hst. now apply Hvisited.
Qed.

(** A set made of distinct elements lists them in their order. *)
Lemma addAll_distinct xs :
  forall s,
    NoDup (JsSet.elements s ++ xs)%list ->
    JsSet.elements (JsSet.addAll s xs) = (JsSet.elements s ++ xs)%list.
Proof.
  induction xs as [|x xs IH]; intros s Hnd; cbn [JsSet.addAll fold_left].
  - now rewrite app_nil_r.
  - assert (Hx : JsSet.has s x = false).
    { destruct (JsSet.has s x) eqn:E; [|reflexivity].
      apply has_iff in E. apply NoDup_remove_2 in Hnd.
      exfalso. apply Hnd. apply in_or_app. now left. }
    fold (JsSet.addAll (JsSet.add s x) xs).
    assert (Eadd : JsSet.elements (JsSet.add s x) = (JsSet.elements s ++ [x])%list)
      by (now rewrite elements_add, Hx).
    rewrite IH; rewrite Eadd, <- app_assoc; [reflexivity|exact Hnd].
Qed.

Lemma ofList_distinct xs : NoDup xs -> JsSet.elements (JsSet.ofList xs) = xs.
Proof. intros Hnd. unfold JsSet.ofList. now rewrite addAll_distinct. Qed.

(** With the scanning of imports switched off, a scan that completes
    took the paths of the set and no other. *)
Lemma scanLoop_without_imports fuel :
  ISettings.scanImportedFiles settings = false ->
  forall iterator storage storage',
    fst (scanLoop uriLibrary ls settings fs fuel iterator storage) = Resolved storage' ->
    snd (scanLoop uriLibrary ls settings fs fuel iterator storage)
    = JsSet.elements iterator.
Proof.
  intros Hoff.
  induction fuel as [|fuel IH]; intros [visited pending] storage storage' H;
    scan_round pending raw rest; try discriminate;
    try (unfold JsSet.elements; cbn; now rewrite app_nil_r).
  rewrite Hoff in *. cbn [negb] in *.
  destruct (fileExists fs (Path.normalize raw)); cbn [negb] in *.
  - destruct (readFile fs (Path.normalize raw)) as [content|]; [|discriminate].
    rewrite (IH _ _ _ H). apply elements_step.
  - rewrite (IH _ _ _ H). apply elements_step.
Qed.

(** An import that a scan follows is the normalized path of a link
    target, holds none of the characters of a dynamic path, and does not
    end in [.css]. *)
Lemma staticImports_parseDocument document filepath :
  In filepath (staticImports (parseDocument uriLibrary ls document)) ->
  reDynamicPath_test filepath = false
  /\ JsString.endsWith filepath ".css" = false
  /\ exists target,
       In (DocumentLink.mk (Some target)) (LanguageService.findDocumentLinks2 ls document)
       /\ target <> ""
       /\ filepath = uriToFsPath uriLibrary target.
Proof.
  unfold staticImports, parseDocument, findDocumentSymbols.
  cbn [IDocumentSymbols.imports].
  intros H. apply in_map_iff in H as (import & <- & H).
  apply filter_In in H as [Himport Hflags].
  unfold convertLinksToImports in Himport.
  apply in_flat_map in Himport as (link & Hlink & Himport).
  unfold findDocumentLinks in Hlink.
  apply in_flat_map in Hlink as ([[target|]] & Hraw & Hlink); [|destruct Hlink].
  cbn [DocumentLink.target] in Hlink.
  destruct (String.eqb target "") eqn:E; [destruct Hlink|].
  destruct Hlink as [<-|[]]. cbn [DocumentLink.target] in Himport.
  destruct Himport as [<-|[]]. cbn [IImport.filepath IImport.dynamic IImport.css] in *.
  apply negb_true_iff, orb_false_iff in Hflags as [Hdynamic Hcss].
  repeat split; try assumption.
  exists target. split; [assumption|]. split; [|reflexivity].
  now apply String.eqb_neq.
Qed.

(** Every path a scan takes is one it was given or one it followed. *)
Lemma scanLoop_trace_origin (P : string -> Prop) fuel :
  (forall document filepath,
     In filepath (staticImports (parseDocument uriLibrary ls document)) -> P filepath) ->
  forall iterator storage,
    (forall p, In p (JsSet.elements iterator) -> P p) ->
    forall p, In p (snd (scanLoop uriLibrary ls settings fs fuel iterator storage)) -> P p.
Proof.
  intros Himports.
  induction fuel as [|fuel IH]; intros [visited pending] storage Hit;
    scan_round pending raw rest;
    try (intros p Hp; apply Hit; unfold JsSet.elements;
         cbn [JsSet.visited JsSet.pending]; apply in_or_app; now left).
  assert (Hstep : forall p, In p (JsSet.elements (JsSet.mk (visited ++ [raw])%list rest)) -> P p)
    by (intros p Hp; apply Hit; now rewrite <- elements_step).
  destruct (fileExists fs (Path.normalize raw)); cbn [negb].
  - destruct (readFile fs (Path.normalize raw)) as [content|].
    + destruct (ISettings.scanImportedFiles settings); cbn [negb]; apply IH;
        [|exact Hstep].
      intros p Hp.
      eapply (@addAll_incl _ _
                (JsSet.elements (JsSet.mk (visited ++ [raw])%list rest) ++ _)%list) in Hp.
      * apply in_app_or in Hp as [Hp|Hp]; [now apply Hstep|].
        eapply Himports. exact Hp.
      * apply incl_appl, incl_refl.
      * apply incl_appr, incl_refl.
    + cbn [snd]. intros p Hp. apply Hstep. unfold JsSet.elements. cbn.
      apply in_or_app. now left.
  - apply IH. exact Hstep.
Qed.
(** Every path a scan takes is one it was given or an import of a file
    it took and read. *)
Lemma scanLoop_trace_importers (P : list string -> string -> Prop) fuel :
  (forall trace trace' p, incl trace trace' -> P trace p -> P trace' p) ->
  (forall trace importer content p,
     In importer trace ->
     readFile fs (Path.normalize importer) = Some content ->
     In p (staticImports
             (parseDocument uriLibrary ls
                (TextDocument.create
                   (URI.file_toString uriLibrary (Path.normalize importer)) content))) ->
     P trace p) ->
  forall iterator storage,
    (forall p, In p (JsSet.elements iterator) -> P (JsSet.visited iterator) p) ->
    forall p,
      In p (snd (scanLoop uriLibrary ls settings fs fuel iterator storage)) ->
      P (snd (scanLoop uriLibrary ls settings fs fuel iterator storage)) p.
Proof.
  intros Hmono Himports.
  induction fuel as [|fuel IH]; intros [visited pending] storage Hit;
    scan_round pending raw rest;
    try (intros p Hp; apply Hit; unfold JsSet.elements;
         cbn [JsSet.visited JsSet.pending]; apply in_or_app; now left).
  assert (Hstep : forall p,
             In p (JsSet.elements (JsSet.mk (visited ++ [raw])%list rest)) ->
             P (visited ++ [raw])%list p).
  { intros p Hp. apply Hmono with (trace := visited); [apply incl_appl, incl_refl|].
    apply Hit. now rewrite <- elements_step. }
  destruct (fileExists fs (Path.normalize raw)); cbn [negb].
  - destruct (readFile fs (Path.normalize raw)) as [content|] eqn:Hread.
    + destruct (ISettings.scanImportedFiles settings); cbn [negb]; apply IH;
        [|exact Hstep].
      rewrite visited_addAll. cbn [JsSet.visited].
      intros p Hp.
      eapply (@addAll_incl _ _
                (JsSet.elements (JsSet.mk (visited ++ [raw])%list rest) ++ _)%list) in Hp.
      * apply in_app_or in Hp as [Hp|Hp]; [now apply Hstep|].
        eapply Himports; [|exact Hread|exact Hp].
        apply in_or_app. right. now left.
      * apply incl_appl, incl_refl.
      * apply incl_appr, incl_refl.
    + cbn [snd]. intros p Hp. apply Hstep. unfold JsSet.elements. cbn.
      apply in_or_app. now left.
  - apply IH. exact Hstep.
Qed.

(** A scan is rejected at a file that is there and cannot be read, the
    last path it took. *)
Lemma scanLoop_rejected fuel :
  forall iterator storage storage',
    fst (scanLoop uriLibrary ls settings fs fuel iterator storage) = Rejected storage' ->
    exists before filepath,
      snd (scanLoop uriLibrary ls settings fs fuel iterator storage)
      = (before ++ [filepath])%list
      /\ fileExists fs (Path.normalize filepath) = true
      /\ readFile fs (Path.normalize filepath) = None.
Proof.
  induction fuel as [|fuel IH]; intros [visited pending] storage storage' H;
    scan_round pending raw rest; try discriminate.
  destruct (fileExists fs (Path.normalize raw)) eqn:Hexists; cbn [negb] in *.
  - destruct (readFile fs (Path.normalize raw)) as [content|] eqn:Hread.
    + destruct (ISettings.scanImportedFiles settings); cbn [negb] in *;
        eapply IH; exact H.
    + exists visited, raw. cbn [snd]. now repeat split.
  - eapply IH. exact H.
Qed.
End ScanEffects.

(** X10.  A scan writes symbol tables only, and only under the URIs of the
    paths it took: when it ends, resolved or rejected, the config registry
    and the associations are as before, so no document gains or loses a
    config by being scanned, and the entry of every other key is as it
    was. *)
Theorem scanScssFiles_frame
        (uriLibrary : URI.t) (ls : LanguageService.t) (settings : ISettings.t)
        (fs : FileSystem) (fuel : nat) (storage : StorageService.t) (files : list string)
        (storage' : StorageService.t) :
  storageOf (scanScssFiles uriLibrary ls settings fs fuel storage files) = Some storage' ->
  StorageService._tsConfigs storage' = StorageService._tsConfigs storage
  /\ StorageService._tsConfigsAssociations storage'
     = StorageService._tsConfigsAssociations storage
  /\ (forall scssUri,
        StorageService.getAssociatedTsConfig storage' scssUri
        = StorageService.getAssociatedTsConfig storage scssUri)
  /\ forall key,
       (forall raw,
          In raw (scannedPaths uriLibrary ls settings fs fuel storage files) ->
          URI.file_toString uriLibrary (Path.normalize raw) <> key) ->
       StorageService.get storage' key = StorageService.get storage key.
Proof.
  unfold scanScssFiles, scannedPaths. intros H.
  destruct (scanLoop_keeps_configs _ _ _ _ _ _ _ H) as [Hconfigs Hassociations].
  repeat split; try assumption.
  - intros scssUri. unfold StorageService.getAssociatedTsConfig.
    now rewrite Hconfigs, Hassociations.
  - intros key Hkey. eapply scanLoop_keeps_other_keys; eassumption.
Qed.

Lemma scanScssFiles_frame_witness :
  StorageService._tsConfigs Scenario.twoConfigs
  = StorageService._tsConfigs Scenario.twoConfigs
  /\ StorageService._tsConfigsAssociations Scenario.twoConfigs
     = StorageService._tsConfigsAssociations Scenario.twoConfigs
  /\ (forall scssUri,
        StorageService.getAssociatedTsConfig Scenario.twoConfigs scssUri
        = StorageService.getAssociatedTsConfig Scenario.twoConfigs scssUri)
  /\ forall key,
       (forall raw,
          In raw (scannedPaths PlainPaths.uriLibrary Scenario.noSymbols Scenario.settings
                    Scenario.oneFile 8 Scenario.twoConfigs
                    ["/proj/src/a.scss"; "/proj/src/gone.scss"]) ->
          URI.file_toString PlainPaths.uriLibrary (Path.normalize raw) <> key) ->
       StorageService.get Scenario.twoConfigs key
       = StorageService.get Scenario.twoConfigs key.
Proof.
  apply (@scanScssFiles_frame PlainPaths.uriLibrary Scenario.noSymbols Scenario.settings
           Scenario.oneFile 8 Scenario.twoConfigs
           ["/proj/src/a.scss"; "/proj/src/gone.scss"] Scenario.twoConfigs).
  reflexivity.
Defined.

(** X11.  When a scan ends, resolved or rejected, every path it took
    whose file is there and can be read has an entry under its URI: the
    table parsed from the text of the file, with the normalized path as
    its file path.  As for a missing file, the URI is taken to be that of
    no other path. *)
Theorem scanScssFiles_stores_table
        (uriLibrary : URI.t) (ls : LanguageService.t) (settings : ISettings.t)
        (fs : FileSystem) (fuel : nat) (storage : StorageService.t) (files : list string)
        (D content : string) (storage' : StorageService.t) :
  let key := URI.file_toString uriLibrary (Path.normalize D) in
  storageOf (scanScssFiles uriLibrary ls settings fs fuel storage files) = Some storage' ->
  In D (scannedPaths uriLibrary ls settings fs fuel storage files) ->
  fileExists fs (Path.normalize D) = true ->
  readFile fs (Path.normalize D) = Some content ->
  (forall q, URI.file_toString uriLibrary q = key -> q = Path.normalize D) ->
  StorageService.get storage' key
  = Some (storageValueOf
            (parseDocument uriLibrary ls (TextDocument.create key content))
            (Path.normalize D))
  /\ exists table,
       StorageService.get storage' key = Some table
       /\ IDocumentSymbols.filepath table = Some (Path.normalize D)
       /\ IDocumentSymbols.document table = Some (uriToFsPath uriLibrary key)
       /\ In key (StorageService.keys storage').
Proof.
  intros key H Hin Hexists Hread Hkey.
  assert (Hget : StorageService.get storage' key
                 = Some (storageValueOf
                           (parseDocument uriLibrary ls (TextDocument.create key content))
                           (Path.normalize D))).
  { unfold scanScssFiles, scannedPaths in *.
    eapply scanLoop_stores; try eassumption.
    rewrite visited_ofList. intros []. }
  split; [exact Hget|].
  eexists. split; [exact Hget|]. repeat split.
  unfold StorageService.get in Hget. eapply get_some_in_keys. exact Hget.
Qed.

Lemma scanScssFiles_stores_table_witness :
  StorageService.get Scenario.twoConfigs Scenario.aKey
  = Some (storageValueOf
            (parseDocument PlainPaths.uriLibrary Scenario.noSymbols
               (TextDocument.create Scenario.aKey "a { color: red; }"))
            (Path.normalize "/proj/src/../src/a.scss"))
  /\ exists table,
       StorageService.get Scenario.twoConfigs Scenario.aKey = Some table
       /\ IDocumentSymbols.filepath table = Some (Path.normalize "/proj/src/../src/a.scss")
       /\ IDocumentSymbols.document table
          = Some (uriToFsPath PlainPaths.uriLibrary Scenario.aKey)
       /\ In Scenario.aKey (StorageService.keys Scenario.twoConfigs).
Proof.
  apply (@scanScssFiles_stores_table PlainPaths.uriLibrary Scenario.noSymbols
           Scenario.settings Scenario.oneFile 8 Scenario.twoConfigs
           ["/proj/src/../src/a.scss"; "/proj/src/gone.scss"]
           "/proj/src/../src/a.scss" "a { color: red; }" Scenario.twoConfigs).
  - reflexivity.
  - cbn. now left.
  - reflexivity.
  - reflexivity.
  - intros q Hq. unfold PlainPaths.uriLibrary, PlainPaths.file_toString in Hq.
    cbn [URI.file_toString] in Hq.
    change (Path.normalize "/proj/src/../src/a.scss") with "/proj/src/a.scss" in *.
    now inversion Hq.
Defined.

(** X12.  Which paths a scan takes: every one was among the files it
    was given, or is the path that [uriToFsPath] makes of a link target,
    not empty, of a file that the scan took and read; and it is that
    path, not the target as the stylesheet has it, that holds none of the
    characters [#], [{], [}] and [*] and does not end in [.css].  So an
    import is not followed when its converted path still shows that it is
    dynamic; a target whose interpolation the URI library drops with the
    fragment, as in [b.scss#{$x}], is followed like a static one. *)
Theorem scanScssFiles_follows_converted_targets :
  (forall (uriLibrary : URI.t) (ls : LanguageService.t) (settings : ISettings.t)
          (fs : FileSystem) (fuel : nat) (storage : StorageService.t)
          (files : list string) (filepath : string),
     In filepath (scannedPaths uriLibrary ls settings fs fuel storage files) ->
     In filepath files
     \/ exists importer content target,
          In importer (scannedPaths uriLibrary ls settings fs fuel storage files)
          /\ readFile fs (Path.normalize importer) = Some content
          /\ In (DocumentLink.mk (Some target))
                (LanguageService.findDocumentLinks2 ls
                   (TextDocument.create
                      (URI.file_toString uriLibrary (Path.normalize importer)) content))
          /\ target <> ""
          /\ filepath = uriToFsPath uriLibrary target
          /\ reDynamicPath_test filepath = false
          /\ JsString.endsWith filepath ".css" = false)
  /\ (reDynamicPath_test "file:///proj/b.scss#{$x}" = true
      /\ uriToFsPath Fragments.uriLibrary "file:///proj/b.scss#{$x}" = "/proj/b.scss"
      /\ scannedPaths Fragments.uriLibrary Fragments.languageService Scenario.settings
           Fragments.files 8 StorageService.create ["/proj/a.scss"]
         = ["/proj/a.scss"; "/proj/b.scss"]
      /\ exists storage,
           scanScssFiles Fragments.uriLibrary Fragments.languageService Scenario.settings
             Fragments.files 8 StorageService.create ["/proj/a.scss"]
           = Resolved storage
           /\ StorageService.keys storage
              = ["file:///proj/a.scss"; "file:///proj/b.scss"]).
Proof.
  split.
  - intros uriLibrary ls settings fs fuel storage files. unfold scannedPaths.
    apply (@scanLoop_trace_importers uriLibrary ls settings fs
             (fun trace p =>
                In p files
                \/ exists importer content target,
                     In importer trace
                     /\ readFile fs (Path.normalize importer) = Some content
                     /\ In (DocumentLink.mk (Some target))
                           (LanguageService.findDocumentLinks2 ls
                              (TextDocument.create
                                 (URI.file_toString uriLibrary (Path.normalize importer))
                                 content))
                     /\ target <> ""
                     /\ p = uriToFsPath uriLibrary target
                     /\ reDynamicPath_test p = false
                     /\ JsString.endsWith p ".css" = false)).
    + intros trace trace' p Hincl [Hp|(importer & content & target & Hin & Hrest)];
        [now left|right].
      exists importer, content, target. split; [now apply Hincl|exact Hrest].
    + intros trace importer content p Hin Hread Hp. right.
      apply staticImports_parseDocument in Hp
        as (Hdynamic & Hcss & target & Hlink & Hne & ->).
      exists importer, content, target. now repeat split.
    + intros p Hp. left. now apply ofList_incl.
  - split; [reflexivity|]. split; [reflexivity|]. split; [reflexivity|].
    eexists. split; reflexivity.
Qed.

(** X13.  With [scanImportedFiles] switched off, a scan that completes
    took exactly the files it was given, whatever they import: each once,
    and, when no file is given twice, in the order given. *)
Theorem scanScssFiles_without_imports
        (uriLibrary : URI.t) (ls : LanguageService.t) (settings : ISettings.t)
        (fs : FileSystem) (fuel : nat) (storage : StorageService.t) (files : list string)
        (storage' : StorageService.t) :
  ISettings.scanImportedFiles settings = false ->
  scanScssFiles uriLibrary ls settings fs fuel storage files = Resolved storage' ->
  let taken := scannedPaths uriLibrary ls settings fs fuel storage files in
  NoDup taken
  /\ (forall filepath, In filepath taken <-> In filepath files)
  /\ (NoDup files -> taken = files).
Proof.
  intros Hoff H taken. unfold scanScssFiles in H.
  assert (E : taken = JsSet.elements (JsSet.ofList files)).
  { unfold taken, scannedPaths. eapply scanLoop_without_imports; eassumption. }
  rewrite E. repeat split.
  - apply ofList_NoDup.
  - apply ofList_incl.
  - apply ofList_in.
  - apply ofList_distinct.
Qed.

Lemma scanScssFiles_without_imports_witness :
  let taken :=
    scannedPaths PlainPaths.uriLibrary Cycle.languageService
      (ISettings.mk false None true true true) Cycle.files 8 StorageService.create
      ["/proj/a.scss"; "/proj/a.scss"] in
  NoDup taken
  /\ (forall filepath,
        In filepath taken <-> In filepath ["/proj/a.scss"; "/proj/a.scss"])
  /\ (NoDup ["/proj/a.scss"; "/proj/a.scss"] -> taken = ["/proj/a.scss"; "/proj/a.scss"]).
Proof.
  apply (@scanScssFiles_without_imports PlainPaths.uriLibrary Cycle.languageService
           (ISettings.mk false None true true true) Cycle.files 8 StorageService.create
           ["/proj/a.scss"; "/proj/a.scss"]
           (StorageService.mk
              [("file:///proj/a.scss", Cycle.tableOf "/proj/a.scss" "/proj/b.scss")]
              [] []));
    reflexivity.
Defined.

(** X14.  A scan is rejected only at a file that is there and cannot be
    read: that file is the last path the scan took, so the files after it
    are left as they were.  On a file system where every file that is
    there can be read, no scan is rejected. *)
Theorem scanScssFiles_rejects_at_unreadable
        (uriLibrary : URI.t) (ls : LanguageService.t) (settings : ISettings.t)
        (fs : FileSystem) (fuel : nat) (storage : StorageService.t) (files : list string) :
  (forall storage',
     scanScssFiles uriLibrary ls settings fs fuel storage files = Rejected storage' ->
     exists before filepath,
       scannedPaths uriLibrary ls settings fs fuel storage files
       = (before ++ [filepath])%list
       /\ fileExists fs (Path.normalize filepath) = true
       /\ readFile fs (Path.normalize filepath) = None)
  /\ ((forall filepath, fileExists fs filepath = true -> readFile fs filepath <> None) ->
      forall storage',
        scanScssFiles uriLibrary ls settings fs fuel storage files <> Rejected storage').
Proof.
  unfold scanScssFiles, scannedPaths. split.
  - intros storage' H. eapply scanLoop_rejected. exact H.
  - intros Hreadable storage' H.
    apply scanLoop_rejected in H as (before & filepath & _ & Hexists & Hread).
    now apply (Hreadable _ Hexists).
Qed.

(* ================================================================== *)
(** * Queries: what is found and what is offered *)
(* ================================================================== *)

Section QueryFacts.
Variable uriLibrary : URI.t.
Variable ls : LanguageService.t.

(** Deleting a key that is absent changes nothing. *)
Lemma delete_absent (V : Type) (m : JsMap.t V) key :
  ~ In key (JsMap.keys m) -> JsMap.delete m key = m.
Proof.
  unfold JsMap.delete, JsMap.keys.
  induction m as [|[k v] m IH]; intros Hnot; cbn [filter fst map] in *; [reflexivity|].
  destruct (String.eqb k key) eqn:E.
  - apply String.eqb_eq in E. subst k. exfalso. apply Hnot. now left.
  - cbn [negb]. f_equal. apply IH. intros Hin. apply Hnot. now right.
Qed.

(** Writing a table that a filter rejects shows, under the filter, the
    other entries of the map. *)
Lemma filter_values_set (m : JsMap.t IDocumentSymbols.t) key table
      (keep : IDocumentSymbols.t -> bool) :
  NoDup (JsMap.keys m) ->
  keep table = false ->
  filter keep (JsMap.values (JsMap.set m key table))
  = filter keep (JsMap.values (JsMap.delete m key)).
Proof.
  intros Hnd Hkeep. unfold JsMap.values.
  induction m as [|[k v] m IH]; cbn [JsMap.set JsMap.delete filter map fst snd].
  - now rewrite Hkeep.
  - inversion Hnd as [|? ? Hk Hrest]; subst.
    destruct (String.eqb k key) eqn:E; cbn [negb map filter snd].
    + apply String.eqb_eq in E. subst k. rewrite Hkeep.
      fold (JsMap.delete m key). now rewrite delete_absent.
    + fold (JsMap.delete m key). now rewrite (IH Hrest).
Qed.

Lemma map_label_variables getVariableColor getDocumentPath ast tables filepath imports
      settings :
  map CompletionItem.label
      (createVariableCompletionItems uriLibrary getDocumentPath getVariableColor
         ast tables filepath imports settings)
  = variableNames tables.
Proof.
  unfold createVariableCompletionItems, variableNames.
  induction tables as [|table tables IH]; cbn [flat_map]; [reflexivity|].
  rewrite map_app, IH, map_map. reflexivity.
Qed.

Lemma map_label_methods (getDocumentPath : string -> option string -> string)
      kind entries tables filepath imports settings :
  map CompletionItem.label
      (createMethodCompletionItems getDocumentPath kind entries tables filepath imports
         settings)
  = methodNames entries tables.
Proof.
  unfold createMethodCompletionItems, methodNames.
  induction tables as [|table tables IH]; cbn [flat_map]; [reflexivity|].
  rewrite map_app, IH, map_map. reflexivity.
Qed.
End QueryFacts.

(** X15.  A definition is hidden by its coordinates: an entry of another
    document that has the name asked for and sits at the line and
    character of the reference is skipped, since positions are compared
    without regard to the document.  If every entry of that name in the
    related tables sits there, the answer is [null]. *)
Theorem goIdentifier_same_coordinates_hidden
        (uriLibrary : URI.t) (ls : LanguageService.t)
        (getDocumentPath : string -> option string -> string)
        (document : TextDocument.t) (storage : StorageService.t)
        (identifier : IIdentifier.t) :
  let fresh := parseDocument uriLibrary ls document in
  let current := uriToFsPath uriLibrary (TextDocument.uri document) in
  (forall table item,
     In table (StorageService.values
                 (StorageService.set storage (TextDocument.uri document) fresh)) ->
     isRelatedToDocument current table = true ->
     In item (entriesOfKind (IIdentifier.type identifier) table) ->
     SymbolInfo.name item = IIdentifier.name identifier ->
     SymbolInfo.position item = Some (IIdentifier.position identifier)) ->
  fst (goIdentifier uriLibrary getDocumentPath document fresh storage identifier) = Null.
Proof.
  intros fresh current Hsame. apply goIdentifier_no_candidate.
  intros table Hin Hrelated. unfold hasMatch.
  destruct (existsb (matchesIdentifier identifier)
              (entriesOfKind (IIdentifier.type identifier) table)) eqn:E; [|reflexivity].
  apply existsb_exists in E as (item & Hitem & Hmatch).
  unfold matchesIdentifier in Hmatch. apply andb_true_iff in Hmatch as [Hname Hposition].
  apply String.eqb_eq in Hname.
  rewrite (Hsame table item Hin Hrelated Hitem Hname) in Hposition.
  cbn [samePosition] in Hposition. now rewrite !Nat.eqb_refl in Hposition.
Qed.

Lemma goIdentifier_same_coordinates_hidden_witness :
  fst (goIdentifier PlainPaths.uriLibrary AcrossFiles.pathAsIs AcrossFiles.aDocument
         (parseDocument PlainPaths.uriLibrary Scenario.noSymbols AcrossFiles.aDocument)
         AcrossFiles.index (IIdentifier.mk variables (mkPosition 1 0) "$color"))
  = Null.
Proof.
  apply (@goIdentifier_same_coordinates_hidden PlainPaths.uriLibrary Scenario.noSymbols
           AcrossFiles.pathAsIs AcrossFiles.aDocument AcrossFiles.index
           (IIdentifier.mk variables (mkPosition 1 0) "$color")).
  intros table item Hin _ Hitem _. cbn in Hin.
  destruct Hin as [<-|[<-|[]]]; cbn in Hitem; [|destruct Hitem].
  destruct Hitem as [<-|[]]. reflexivity.
Defined.

(** X16.  [doCompletion] writes the table of the document, parsed
    afresh, to the index before anything else, also when its promise is
    then rejected.  The promise is rejected when the node at the cursor
    has no parent, since the context reads the type of the parent, and,
    outside comments and inside an [@use] or [@import], when listing the
    directory or a stat of one of its entries fails; in no other case.
    Inside a comment nothing is offered.  Otherwise the items offered are
    those for import paths, if asked for, and then the names declared in
    the other related tables of the index, table by table in index order:
    the variables, then the mixins, then the functions, each kind when it
    is both enabled and in context.  The table of the document itself is
    never among them.  The items are those that the body of the provider
    gives for the context and the import items so obtained. *)
Theorem doCompletion_offers_other_documents
        (cwd : string) (uriLibrary : URI.t) (ls : LanguageService.t)
        (getDocumentPath : string -> option string -> string)
        (getVariableColor : string -> option string)
        (readDir : string -> option (list string)) (statFile : string -> option bool)
        (document : TextDocument.t) (node : option HoverNode.t)
        (ast : option Stylesheet.t) (text : CursorText.t) (offset : nat)
        (suggestFunctionsInStringContextAfterSymbols : string)
        (settings : ISettings.t) (storage : StorageService.t) :
  NoDup (StorageService.keys storage) ->
  let current := uriToFsPath uriLibrary (TextDocument.uri document) in
  let others :=
    filter (isRelatedToDocument current)
           (StorageService.values (StorageService.delete storage (TextDocument.uri document)))
  in
  let context :=
    CompletionProvider.createCompletionContext node text
      suggestFunctionsInStringContextAfterSymbols in
  let uses :=
    createImportCompletionItems cwd readDir statFile (option_map HoverNode.node node)
      current document offset
      (StorageService.getAssociatedTsConfig storage (TextDocument.uri document)) in
  let asked := fun c : CompletionContext.t =>
    if CompletionContext.use c || CompletionContext.import c then uses else Some [] in
  let result :=
    CompletionProvider.doCompletion cwd uriLibrary ls getDocumentPath getVariableColor
      readDir statFile document node ast text offset
      suggestFunctionsInStringContextAfterSymbols settings storage in
  snd result
  = StorageService.set storage (TextDocument.uri document)
      (parseDocument uriLibrary ls document)
  /\ (context = None
      <-> exists hoverNode, node = Some hoverNode /\ HoverNode.parents hoverNode = [])
  /\ (fst result = None
      <-> context = None
          \/ exists c,
               context = Some c /\ CompletionContext.comment c = false /\ asked c = None)
  /\ forall c,
       context = Some c ->
       (CompletionContext.comment c = true -> fst result = Some [])
       /\ forall imported,
            asked c = Some imported ->
            fst result
            = Some (fst (doCompletion uriLibrary ls getDocumentPath getVariableColor
                           document ast c
                           (map CompletionProvider.itemOfImport imported)
                           settings storage))
            /\ (CompletionContext.comment c = false ->
                exists items,
                  fst result = Some items
                  /\ map CompletionItem.label items
                     = (map ImportItem.label imported
                        ++ (if ISettings.suggestVariables settings
                               && CompletionContext.variable c
                            then variableNames others else [])
                        ++ (if ISettings.suggestMixins settings
                               && CompletionContext.mixin c
                            then methodNames IDocumentSymbols.mixins others else [])
                        ++ (if ISettings.suggestFunctions settings
                               && CompletionContext.function c
                            then methodNames IDocumentSymbols.functions others
                            else []))%list).
Proof.
  intros Hnd current others context uses asked result.
  assert (Hothers : getSymbolsRelatedToDocument
                      (StorageService.set storage (TextDocument.uri document)
                         (parseDocument uriLibrary ls document)) current
                    = others).
  { unfold getSymbolsRelatedToDocument, getSymbolsCollection, others,
      StorageService.values, StorageService.set, StorageService.delete.
    cbn [StorageService._scssDocuments].
    apply filter_values_set; [exact Hnd|]. apply parseDocument_not_related. }
  assert (Hresult :
            result
            = match context with
              | None =>
                  (None, StorageService.set storage (TextDocument.uri document)
                           (parseDocument uriLibrary ls document))
              | Some c =>
                  if CompletionContext.comment c
                  then (Some [], StorageService.set storage (TextDocument.uri document)
                                   (parseDocument uriLibrary ls document))
                  else
                    match asked c with
                    | None =>
                        (None, StorageService.set storage (TextDocument.uri document)
                                 (parseDocument uriLibrary ls document))
                    | Some imported =>
                        (Some (fst (doCompletion uriLibrary ls getDocumentPath
                                      getVariableColor document ast c
                                      (map CompletionProvider.itemOfImport imported)
                                      settings storage)),
                         StorageService.set storage (TextDocument.uri document)
                           (parseDocument uriLibrary ls document))
                    end
              end).
  { unfold result, CompletionProvider.doCompletion. fold context. fold current.
    destruct context as [c|]; [|reflexivity].
    destruct (CompletionContext.comment c) eqn:Hcomment; [reflexivity|].
    unfold asked. fold uses.
    destruct (CompletionContext.use c || CompletionContext.import c) eqn:Huse.
    - destruct uses as [imported|]; [|reflexivity].
      unfold doCompletion. now rewrite Hcomment, Huse.
    - unfold doCompletion. now rewrite Hcomment, Huse. }
  split.
  { rewrite Hresult. destruct context as [c|]; [|reflexivity].
    destruct (CompletionContext.comment c); [reflexivity|].
    now destruct (asked c). }
  split.
  { unfold context, CompletionProvider.createCompletionContext,
      CompletionProvider.parentTypeIs.
    destruct node as [hoverNode|].
    - destruct (HoverNode.parents hoverNode) as [|parent above] eqn:Hparents.
      + split; [intros _; now exists hoverNode|reflexivity].
      + split; [discriminate|].
        intros (other & Hnode & Hnone). injection Hnode as <-. congruence.
    - split; [discriminate|]. intros (other & Hnode & _). discriminate. }
  split.
  { rewrite Hresult. destruct context as [c|].
    - destruct (CompletionContext.comment c) eqn:Hcomment; cbn [fst].
      + split; [discriminate|].
        intros [H|(c' & Hc & Hfalse & _)]; [discriminate|].
        injection Hc as <-. congruence.
      + destruct (asked c) as [imported|] eqn:Hasked; cbn [fst].
        * split; [discriminate|].
          intros [H|(c' & Hc & _ & Hnone)]; [discriminate|].
          injection Hc as <-. congruence.
        * split; [|reflexivity]. intros _. right. now exists c.
    - split; [now left|reflexivity]. }
  intros c Hc. rewrite Hresult, Hc. split.
  { now intros ->. }
  intros imported Hasked.
  assert (Hfst : fst (if CompletionContext.comment c
                      then (Some [], StorageService.set storage (TextDocument.uri document)
                                       (parseDocument uriLibrary ls document))
                      else
                        match asked c with
                        | None =>
                            (None, StorageService.set storage (TextDocument.uri document)
                                     (parseDocument uriLibrary ls document))
                        | Some imported =>
                            (Some (fst (doCompletion uriLibrary ls getDocumentPath
                                          getVariableColor document ast c
                                          (map CompletionProvider.itemOfImport imported)
                                          settings storage)),
                             StorageService.set storage (TextDocument.uri document)
                               (parseDocument uriLibrary ls document))
                        end)
                 = Some (fst (doCompletion uriLibrary ls getDocumentPath getVariableColor
                                document ast c
                                (map CompletionProvider.itemOfImport imported)
                                settings storage))).
  { rewrite Hasked. destruct (CompletionContext.comment c) eqn:Hcomment; [|reflexivity].
    unfold doCompletion. now rewrite Hcomment. }
  split; [exact Hfst|].
  intros Hcomment. eexists. split; [exact Hfst|].
  unfold doCompletion. fold current. rewrite Hothers, Hcomment. cbn [fst].
  assert (Himported : (if CompletionContext.use c || CompletionContext.import c
                       then map CompletionProvider.itemOfImport imported else [])
                      = map CompletionProvider.itemOfImport imported).
  { unfold asked in Hasked.
    destruct (CompletionContext.use c || CompletionContext.import c); [reflexivity|].
    now injection Hasked as <-. }
  rewrite Himported.
  unfold createMixinCompletionItems, createFunctionCompletionItems.
  rewrite !map_app, map_map. cbn [CompletionProvider.itemOfImport CompletionItem.label].
  destruct (ISettings.suggestVariables settings && CompletionContext.variable c),
    (ISettings.suggestMixins settings && CompletionContext.mixin c),
    (ISettings.suggestFunctions settings && CompletionContext.function c);
    cbn [map]; rewrite ?map_label_variables, ?map_label_methods; reflexivity.
Qed.

(** Three calls in [a.scss] beside [b.scss].  In a value, after a dollar
    sign, the variable of [b.scss] is offered.  At the root of the tree,
    and in an [@use] whose directory cannot be listed, the promise is
    rejected; the table of [a.scss] is written all the same. *)
Lemma doCompletion_offers_other_documents_witness :
  (exists items,
     CompletionProvider.doCompletion "/" PlainPaths.uriLibrary Scenario.noSymbols
       AcrossFiles.pathAsIs Neighbour.noColor AtCursor.noDirectory AtCursor.noStat
       Neighbour.aDocument AtCursor.inValue Neighbour.aTree AtCursor.text 11 ""
       Scenario.settings Neighbour.index
     = (Some items,
        StorageService.set Neighbour.index "file:///proj/a.scss"
          (parseDocument PlainPaths.uriLibrary Scenario.noSymbols Neighbour.aDocument))
     /\ map CompletionItem.label items = ["$v"%string])
  /\ CompletionProvider.doCompletion "/" PlainPaths.uriLibrary Scenario.noSymbols
       AcrossFiles.pathAsIs Neighbour.noColor AtCursor.noDirectory AtCursor.noStat
       Neighbour.aDocument AtCursor.atRoot Neighbour.aTree AtCursor.text 11 ""
       Scenario.settings Neighbour.index
     = (None,
        StorageService.set Neighbour.index "file:///proj/a.scss"
          (parseDocument PlainPaths.uriLibrary Scenario.noSymbols Neighbour.aDocument))
  /\ CompletionProvider.doCompletion "/" PlainPaths.uriLibrary Scenario.noSymbols
       AcrossFiles.pathAsIs Neighbour.noColor AtCursor.noDirectory AtCursor.noStat
       Neighbour.aDocument AtCursor.inUse Neighbour.aTree AtCursor.text 6 ""
       Scenario.settings Neighbour.index
     = (None,
        StorageService.set Neighbour.index "file:///proj/a.scss"
          (parseDocument PlainPaths.uriLibrary Scenario.noSymbols Neighbour.aDocument)).
Proof.
  assert (Hnd : NoDup (StorageService.keys Neighbour.index)).
  { cbn. repeat constructor. intros []. }
  split; [|split].
  - pose proof (@doCompletion_offers_other_documents "/" PlainPaths.uriLibrary
                  Scenario.noSymbols AcrossFiles.pathAsIs Neighbour.noColor
                  AtCursor.noDirectory AtCursor.noStat Neighbour.aDocument
                  AtCursor.inValue Neighbour.aTree AtCursor.text 11 ""
                  Scenario.settings Neighbour.index Hnd) as H.
    cbv beta zeta in H. destruct H as (Hstorage & _ & _ & Hitems).
    destruct (Hitems _ eq_refl) as [_ Hoffered].
    destruct (Hoffered [] eq_refl) as [_ Hlabels].
    destruct (Hlabels eq_refl) as (items & Hfst & Hmap).
    exists items. split; [|exact Hmap].
    rewrite (surjective_pairing (CompletionProvider.doCompletion _ _ _ _ _ _ _ _ _ _ _ _ _ _ _)).
    now rewrite Hfst, Hstorage.
  - pose proof (@doCompletion_offers_other_documents "/" PlainPaths.uriLibrary
                  Scenario.noSymbols AcrossFiles.pathAsIs Neighbour.noColor
                  AtCursor.noDirectory AtCursor.noStat Neighbour.aDocument
                  AtCursor.atRoot Neighbour.aTree AtCursor.text 11 ""
                  Scenario.settings Neighbour.index Hnd) as H.
    cbv beta zeta in H. destruct H as (Hstorage & Hcontext & Hrejected & _).
    rewrite (surjective_pairing (CompletionProvider.doCompletion _ _ _ _ _ _ _ _ _ _ _ _ _ _ _)).
    rewrite Hstorage.
    rewrite (proj2 Hrejected); [reflexivity|].
    left. apply Hcontext. eexists. split; reflexivity.
  - pose proof (@doCompletion_offers_other_documents "/" PlainPaths.uriLibrary
                  Scenario.noSymbols AcrossFiles.pathAsIs Neighbour.noColor
                  AtCursor.noDirectory AtCursor.noStat Neighbour.aDocument
                  AtCursor.inUse Neighbour.aTree AtCursor.text 6 ""
                  Scenario.settings Neighbour.index Hnd) as H.
    cbv beta zeta in H. destruct H as (Hstorage & _ & Hrejected & _).
    rewrite (surjective_pairing (CompletionProvider.doCompletion _ _ _ _ _ _ _ _ _ _ _ _ _ _ _)).
    rewrite Hstorage.
    rewrite (proj2 Hrejected); [reflexivity|].
    right. eexists. split; [reflexivity|]. split; reflexivity.
Defined.

(* ================================================================== *)
(** * Reading a config file *)
(* ================================================================== *)

Section ParseTsConfigFacts.
Variable fs : FileSystem.
Variable JSON_parse : string -> option Json.

(** The entries of a well-typed [paths] object give one shorthand each. *)
Lemma stripStars_strings (candidates : list string) :
  ParserService.stripStars (map JString candidates)
  = Some (map stripTrailingStar candidates).
Proof.
  induction candidates as [|c candidates IH]; cbn [map ParserService.stripStars];
    [reflexivity|]. now rewrite IH.
Qed.

Lemma shorthandsOfMembers_pathsObject (entries : list (string * list string)) :
  ParserService.shorthandsOfMembers (ParserService.objectEntries (pathsObject entries))
  = Some (map pathShorthandOfEntry entries).
Proof.
  unfold pathsObject. cbn [ParserService.objectEntries].
  induction entries as [|[alias candidates] entries IH];
    cbn [map ParserService.shorthandsOfMembers]; [reflexivity|].
  rewrite IH. unfold ParserService.shorthandOfMember. cbn [fst snd].
  now rewrite stripStars_strings.
Qed.

(** One entry that is not an array of strings makes the [map] throw. *)
Lemma shorthandsOfMembers_ill_typed members member :
  In member members ->
  ParserService.shorthandOfMember member = None ->
  ParserService.shorthandsOfMembers members = None.
Proof.
  intros Hin Hbad. induction members as [|m members IH]; [destruct Hin|].
  cbn [ParserService.shorthandsOfMembers].
  destruct Hin as [->|Hin].
  - now rewrite Hbad.
  - rewrite (IH Hin). now destruct (ParserService.shorthandOfMember m).
Qed.

(** Only an object has an [extends] that is followed. *)
Lemma extensionOf_object json target :
  ParserService.extensionOf json = Some (Some target) ->
  JsString.startsWith target "." = true
  /\ exists members, json = JObject members /\ JsMap.get members "extends" = Some (JString target).
Proof.
  unfold ParserService.extensionOf, ParserService.property.
  destruct json as [| | | | |members]; try discriminate.
  destruct (JsMap.get members "extends") as [[|b|n|s|items|inner]|] eqn:Hget;
    cbn [ParserService.truthyValue]; try discriminate;
    try (destruct b; discriminate);
    try (destruct (negb (Z.eqb n 0)); discriminate).
  destruct (negb (String.eqb s "") && JsString.startsWith s ".") eqn:E; [|discriminate].
  intros H. inversion H; subst. apply andb_true_iff in E as [_ E].
  split; [assumption|]. now exists members.
Qed.

(** What settles with some fuel settles alike with more. *)
Lemma parseTsConfig_fuel_monotone fuel :
  forall filepath more,
    ParserService.parseTsConfig fs JSON_parse fuel filepath <> Pending ->
    ParserService.parseTsConfig fs JSON_parse (fuel + more) filepath
    = ParserService.parseTsConfig fs JSON_parse fuel filepath.
Proof.
  induction fuel as [|fuel IH]; intros filepath more H; [now contradiction H|].
  cbn [Nat.add ParserService.parseTsConfig] in *.
  destruct (readFile fs filepath) as [contents|]; [|reflexivity].
  destruct (JSON_parse contents) as [json|]; [|reflexivity].
  destruct json; try reflexivity;
    (destruct (ParserService.shorthandsOfMembers _) as [own|]; [|reflexivity];
     destruct (ParserService.extensionOf _) as [[target|]|]; try reflexivity;
     rewrite IH; [reflexivity|];
     intros E; rewrite E in H; now apply H).
Qed.
End ParseTsConfigFacts.

(** X17.  [parseTsConfig] rejects exactly when the config file itself
    cannot be read.  Whatever else goes wrong, a text that is no JSON, a
    value of the wrong shape, an extended config that cannot be read, is
    caught and gives a config without aliases. *)
Theorem parseTsConfig_rejects_iff_unreadable (fs : FileSystem)
        (JSON_parse : string -> option Json) (fuel : nat) (filepath : string) :
  ParserService.parseTsConfig fs JSON_parse fuel filepath = Failed
  <-> fuel <> 0 /\ readFile fs filepath = None.
Proof.
  destruct fuel as [|fuel]; cbn [ParserService.parseTsConfig].
  - split; [discriminate|]. intros [H _]. now contradiction H.
  - destruct (readFile fs filepath) as [contents|].
    + split; [|intros [_ H]; discriminate].
      destruct (JSON_parse contents) as [json|]; [|discriminate].
      destruct json; try discriminate;
        (destruct (ParserService.shorthandsOfMembers _) as [own|]; [|discriminate];
         destruct (ParserService.extensionOf _) as [[target|]|]; try discriminate;
         destruct (ParserService.parseTsConfig fs JSON_parse fuel _); discriminate).
    + split; [|reflexivity]. intros _. split; [discriminate|reflexivity].
Qed.

(** X18.  A config whose [extends] names a relative path of a file that
    cannot be read loses its own aliases as well: the rejection of the
    inner call is caught, and the result is the config with [paths]
    undefined, whatever [compilerOptions.paths] lists. *)
Theorem parseTsConfig_unreadable_parent (fs : FileSystem)
        (JSON_parse : string -> option Json) (fuel : nat)
        (filepath contents target : string) (json : Json) :
  readFile fs filepath = Some contents ->
  JSON_parse contents = Some json ->
  ParserService.extensionOf json = Some (Some target) ->
  readFile fs (Path.join [Path.dirname filepath; target]) = None ->
  ParserService.parseTsConfig fs JSON_parse (S (S fuel)) filepath
  = Fulfilled (ITsConfig.mk filepath None)
  /\ forall cwd fsPath documentPath,
       resolveAliasedPath cwd fsPath documentPath (Some (ITsConfig.mk filepath None))
       = Path.resolve cwd [Path.dirname documentPath; fsPath].
Proof.
  intros Hread Hparse Hextends Hparent. split.
  - destruct (extensionOf_object _ Hextends) as (_ & members & -> & _).
    cbn [ParserService.parseTsConfig]. rewrite Hread, Hparse.
    destruct (ParserService.shorthandsOfMembers _) as [own|]; [|reflexivity].
    rewrite Hextends, Hparent. reflexivity.
  - intros cwd fsPath documentPath. reflexivity.
Qed.

Lemma parseTsConfig_unreadable_parent_witness :
  ParserService.parseTsConfig Inheritance.orphan Inheritance.JSON_parse 2
    "/proj/app/tsconfig.json"
  = Fulfilled (ITsConfig.mk "/proj/app/tsconfig.json" None)
  /\ forall cwd fsPath documentPath,
       resolveAliasedPath cwd fsPath documentPath
         (Some (ITsConfig.mk "/proj/app/tsconfig.json" None))
       = Path.resolve cwd [Path.dirname documentPath; fsPath].
Proof.
  apply (@parseTsConfig_unreadable_parent Inheritance.orphan Inheritance.JSON_parse 0
           "/proj/app/tsconfig.json" "child" "../tsconfig.json"
           (JObject [("extends", JString "../tsconfig.json");
                     ("compilerOptions",
                      JObject [("paths", pathsObject [("@ui/*", ["src/ui/*"])])])]));
    reflexivity.
Defined.

(** X19.  A config that extends another: the result carries the path of
    the extending file, and its aliases are the file's own, in the order
    of the file, followed by those of the extended config.  So an import
    that an own alias matches is resolved as if nothing were inherited, and
    an inherited alias, consulted only when no own alias matches, is
    resolved against the directory of the extending file. *)
Theorem parseTsConfig_own_aliases_first (fs : FileSystem)
        (JSON_parse : string -> option Json) (fuel : nat)
        (filepath contents target : string) (json : Json)
        (own inherited : list IPathShorthand.t) (extension : ITsConfig.t) :
  readFile fs filepath = Some contents ->
  JSON_parse contents = Some json ->
  ParserService.shorthandsOfMembers
    (ParserService.objectEntries (ParserService.configuredPaths json)) = Some own ->
  ParserService.extensionOf json = Some (Some target) ->
  ParserService.parseTsConfig fs JSON_parse fuel (Path.join [Path.dirname filepath; target])
  = Fulfilled extension ->
  ITsConfig.paths extension = Some inherited ->
  let merged := ITsConfig.mk filepath (Some (own ++ inherited)%list) in
  ParserService.parseTsConfig fs JSON_parse (S fuel) filepath = Fulfilled merged
  /\ forall cwd fsPath documentPath,
       (existsb (fun shorthand => JsString.startsWith fsPath (IPathShorthand.alias shorthand))
                own = true ->
        resolveAliasedPath cwd fsPath documentPath (Some merged)
        = resolveAliasedPath cwd fsPath documentPath
            (Some (ITsConfig.mk filepath (Some own))))
       /\ (existsb (fun shorthand =>
                      JsString.startsWith fsPath (IPathShorthand.alias shorthand))
                   own = false ->
           resolveAliasedPath cwd fsPath documentPath (Some merged)
           = resolveAliasedPath cwd fsPath documentPath
               (Some (ITsConfig.mk filepath (Some inherited)))).
Proof.
  intros Hread Hparse Hown Hextends Hparent Hinherited merged. split.
  - destruct (extensionOf_object _ Hextends) as (_ & members & -> & _).
    cbn [ParserService.parseTsConfig].
    rewrite Hread, Hparse, Hown, Hextends, Hparent, Hinherited. reflexivity.
  - intros cwd fsPath documentPath.
    unfold resolveAliasedPath, matchingShorthand, merged. cbn [ITsConfig.paths ITsConfig.filepath].
    set (matches := fun shorthand : IPathShorthand.t =>
                      JsString.startsWith fsPath (IPathShorthand.alias shorthand)).
    assert (Hfind : find matches (own ++ inherited)
                    = match find matches own with
                      | Some shorthand => Some shorthand
                      | None => find matches inherited
                      end).
    { clear. induction own as [|o own IH]; cbn [app find]; [reflexivity|].
      now destruct (matches o). }
    assert (Hany : existsb matches own
                   = match find matches own with Some _ => true | None => false end).
    { clear. induction own as [|o own IH]; cbn [existsb find]; [reflexivity|].
      now destruct (matches o). }
    rewrite Hfind, Hany.
    split; destruct (find matches own); try reflexivity; discriminate.
Qed.

Lemma parseTsConfig_own_aliases_first_witness :
  let merged :=
    ITsConfig.mk "/proj/app/tsconfig.json"
      (Some ([IPathShorthand.mk "@ui/" ["src/ui/"]] ++ [IPathShorthand.mk "@/" ["src/"]])%list)
  in
  ParserService.parseTsConfig Inheritance.files Inheritance.JSON_parse 2
    "/proj/app/tsconfig.json"
  = Fulfilled merged
  /\ forall cwd fsPath documentPath,
       (existsb (fun shorthand => JsString.startsWith fsPath (IPathShorthand.alias shorthand))
                [IPathShorthand.mk "@ui/" ["src/ui/"]] = true ->
        resolveAliasedPath cwd fsPath documentPath (Some merged)
        = resolveAliasedPath cwd fsPath documentPath
            (Some (ITsConfig.mk "/proj/app/tsconfig.json"
                     (Some [IPathShorthand.mk "@ui/" ["src/ui/"]]))))
       /\ (existsb (fun shorthand =>
                      JsString.startsWith fsPath (IPathShorthand.alias shorthand))
                   [IPathShorthand.mk "@ui/" ["src/ui/"]] = false ->
           resolveAliasedPath cwd fsPath documentPath (Some merged)
           = resolveAliasedPath cwd fsPath documentPath
               (Some (ITsConfig.mk "/proj/app/tsconfig.json"
                        (Some [IPathShorthand.mk "@/" ["src/"]])))).
Proof.
  apply (@parseTsConfig_own_aliases_first Inheritance.files Inheritance.JSON_parse 1
           "/proj/app/tsconfig.json" "child" "../tsconfig.json"
           (JObject [("extends", JString "../tsconfig.json");
                     ("compilerOptions",
                      JObject [("paths", pathsObject [("@ui/*", ["src/ui/*"])])])])
           [IPathShorthand.mk "@ui/" ["src/ui/"]] [IPathShorthand.mk "@/" ["src/"]]
           (ITsConfig.mk "/proj/tsconfig.json" (Some [IPathShorthand.mk "@/" ["src/"]])));
    reflexivity.
Defined.

(** X20.  A config whose [extends] leads back to the file itself is never
    read to the end: every call reads the file and calls itself again, so
    the promise stays pending however long one waits. *)
Theorem parseTsConfig_self_extension_pending (fs : FileSystem)
        (JSON_parse : string -> option Json)
        (filepath contents target : string) (json : Json) (own : list IPathShorthand.t) :
  readFile fs filepath = Some contents ->
  JSON_parse contents = Some json ->
  ParserService.shorthandsOfMembers
    (ParserService.objectEntries (ParserService.configuredPaths json)) = Some own ->
  ParserService.extensionOf json = Some (Some target) ->
  Path.join [Path.dirname filepath; target] = filepath ->
  forall fuel, ParserService.parseTsConfig fs JSON_parse fuel filepath = Pending.
Proof.
  intros Hread Hparse Hown Hextends Hself.
  destruct (extensionOf_object _ Hextends) as (_ & members & -> & _).
  induction fuel as [|fuel IH]; [reflexivity|].
  cbn [ParserService.parseTsConfig].
  rewrite Hread, Hparse, Hown, Hextends, Hself, IH. reflexivity.
Qed.

Lemma parseTsConfig_self_extension_pending_witness :
  ParserService.parseTsConfig Inheritance.selfExtending Inheritance.JSON_parse 1000
    "/proj/tsconfig.json"
  = Pending.
Proof.
  apply (@parseTsConfig_self_extension_pending Inheritance.selfExtending
           Inheritance.JSON_parse "/proj/tsconfig.json" "self" "./tsconfig.json"
           (JObject [("extends", JString "./tsconfig.json")]) []);
    reflexivity.
Defined.

(** X21.  A config that is read and extends nothing, by the shape of its
    [compilerOptions.paths]: an object whose every value is an array of
    strings gives one alias per key, in the order of the keys, with one
    trailing star removed from the key and from each candidate; an object
    with one value that is not an array of strings gives a config with no
    aliases at all. *)
Theorem parseTsConfig_paths_by_shape (fs : FileSystem)
        (JSON_parse : string -> option Json) (fuel : nat)
        (filepath contents : string) (json compilerOptions : Json) :
  readFile fs filepath = Some contents ->
  JSON_parse contents = Some json ->
  ParserService.property json "compilerOptions" = Some compilerOptions ->
  ParserService.extensionOf json = Some None ->
  (forall entries,
     ParserService.property compilerOptions "paths" = Some (pathsObject entries) ->
     ParserService.parseTsConfig fs JSON_parse (S fuel) filepath
     = Fulfilled (ITsConfig.mk filepath (Some (map pathShorthandOfEntry entries))))
  /\ (forall members member,
        ParserService.property compilerOptions "paths" = Some (JObject members) ->
        In member members ->
        ParserService.shorthandOfMember member = None ->
        ParserService.parseTsConfig fs JSON_parse (S fuel) filepath
        = Fulfilled (ITsConfig.mk filepath None)).
Proof.
  intros Hread Hparse Hoptions Hextends.
  assert (Hjson : exists members, json = JObject members).
  { unfold ParserService.property in Hoptions.
    destruct json; try discriminate. eauto. }
  destruct Hjson as [top ->].
  split.
  - intros entries Hpaths.
    cbn [ParserService.parseTsConfig]. rewrite Hread, Hparse.
    unfold ParserService.configuredPaths. rewrite Hoptions.
    assert (E : match compilerOptions with
                | JNull => None
                | _ => ParserService.property compilerOptions "paths"
                end = Some (pathsObject entries)).
    { destruct compilerOptions; exact Hpaths. }
    rewrite E. cbn [ParserService.truthyValue pathsObject].
    fold (pathsObject entries).
    rewrite shorthandsOfMembers_pathsObject, Hextends. reflexivity.
  - intros members member Hpaths Hin Hbad.
    cbn [ParserService.parseTsConfig]. rewrite Hread, Hparse.
    unfold ParserService.configuredPaths. rewrite Hoptions.
    assert (E : match compilerOptions with
                | JNull => None
                | _ => ParserService.property compilerOptions "paths"
                end = Some (JObject members)).
    { destruct compilerOptions; exact Hpaths. }
    rewrite E. cbn [ParserService.truthyValue ParserService.objectEntries].
    now rewrite (shorthandsOfMembers_ill_typed _ _ Hin Hbad).
Qed.

Lemma parseTsConfig_paths_by_shape_witness :
  (forall entries,
     ParserService.property
       (JObject [("paths", pathsObject [("@/*", ["src/*"])])]) "paths"
     = Some (pathsObject entries) ->
     ParserService.parseTsConfig Inheritance.files Inheritance.JSON_parse 1
       "/proj/tsconfig.json"
     = Fulfilled (ITsConfig.mk "/proj/tsconfig.json"
                    (Some (map pathShorthandOfEntry entries))))
  /\ (forall members member,
        ParserService.property
          (JObject [("paths", pathsObject [("@/*", ["src/*"])])]) "paths"
        = Some (JObject members) ->
        In member members ->
        ParserService.shorthandOfMember member = None ->
        ParserService.parseTsConfig Inheritance.files Inheritance.JSON_parse 1
          "/proj/tsconfig.json"
        = Fulfilled (ITsConfig.mk "/proj/tsconfig.json" None)).
Proof.
  apply (@parseTsConfig_paths_by_shape Inheritance.files Inheritance.JSON_parse 0
           "/proj/tsconfig.json" "parent"
           (JObject [("compilerOptions",
                      JObject [("paths", pathsObject [("@/*", ["src/*"])])])])
           (JObject [("paths", pathsObject [("@/*", ["src/*"])])]));
    reflexivity.
Defined.

(* ================================================================== *)
(** * Links and the completion of import paths *)
(* ================================================================== *)

Section LinkFacts.



End LinkFacts.


Section ImportDirectoryFacts.
Variable cwd : string.

Lemma drop_append_length a b : JsString.drop (String.length a) (a ++ b) = b.
Proof. induction a as [|c a IH]; [reflexivity|exact IH]. Qed.

Lemma length_append_one a c : String.length (a ++ String c "") = S (String.length a).
Proof. induction a as [|d a IH]; cbn; [reflexivity|]. now rewrite IH. Qed.

Lemma endsWith_slash_appended name : JsString.endsWith (name ++ "/") "/" = true.
Proof.
  unfold JsString.endsWith. rewrite length_append_one. cbn [String.length].
  replace (S (String.length name) - 1) with (String.length name) by lia.
  now rewrite drop_append_length.
Qed.

Lemma endsWith_slash_none name :
  JsString.includesChar "/" name = false -> JsString.endsWith name "/" = false.
Proof.
  unfold JsString.endsWith. cbn [String.length].
  induction name as [|c name IH]; intros H; [reflexivity|].
  cbn [JsString.includesChar] in H. apply orb_false_iff in H as [Hc Hname].
  destruct name as [|d name].
  - cbn. rewrite Ascii.eqb_sym, Hc. reflexivity.
  - specialize (IH Hname). cbn [String.length Nat.leb] in *.
    replace (S (S (String.length name)) - 1) with (S (S (String.length name) - 1)) by lia.
    cbn [JsString.drop]. exact IH.
Qed.

(** [path.resolve] of a normalized directory and what was typed. *)
Lemma resolve_ofSegments_empty base :
  Forall (fun s => cleanSegment s = true) base -> base <> [] ->
  Path.resolve cwd [ofSegments base; ""] = ofSegments base.
Proof.
  intros Hbase Hne. unfold Path.resolve, Path.resolveSegments.
  cbn [rev app Path.resolveLoop String.eqb].
  rewrite ofSegments_not_empty. cbn [Path.isAbsolute ofSegments String.append].
  rewrite Ascii.eqb_refl. cbn [negb].
  unfold JsString.splitSlash. cbn [JsString.splitSlashAux]. rewrite Ascii.eqb_refl.
  rewrite splitSlash_join_then by assumption.
  cbn [Path.normalizeSegments String.eqb JsString.splitSlashAux].
  rewrite normalizeSegments_clean by assumption.
  cbn [Path.normalizeSegments String.eqb]. now rewrite app_nil_r, rev_involutive.
Qed.

Lemma resolve_ofSegments_name base name (slash : bool) :
  Forall (fun s => cleanSegment s = true) base -> base <> [] ->
  cleanSegment name = true ->
  Path.resolve cwd [ofSegments base; if slash then name ++ "/" else name]
  = ofSegments (base ++ [name]).
Proof.
  intros Hbase Hne Hname.
  pose proof (cleanSegment_parts _ Hname) as (Hempty & _ & _ & Hslash).
  assert (Htyped : exists rest, (if slash then name ++ "/" else name) = name ++ rest
                                /\ (rest = "" \/ rest = "/")).
  { destruct slash; [exists "/"|exists ""]; split; auto. now rewrite append_empty_r. }
  destruct Htyped as (rest & -> & Hrest).
  assert (Hfirst : String.eqb (name ++ rest) "" = false
                   /\ Path.isAbsolute (name ++ rest) = false).
  { destruct name as [|c name]; [congruence|]. cbn [String.append String.eqb Path.isAbsolute].
    cbn [JsString.includesChar] in Hslash. apply orb_false_iff in Hslash as [Hc _].
    rewrite Ascii.eqb_sym in Hc. now rewrite Hc. }
  destruct Hfirst as [Hnot Hrelative].
  unfold Path.resolve, Path.resolveSegments.
  cbn [rev app Path.resolveLoop]. rewrite Hnot, Hrelative.
  rewrite ofSegments_not_empty. cbn [Path.isAbsolute ofSegments String.append].
  rewrite Ascii.eqb_refl. cbn [negb].
  unfold JsString.splitSlash. cbn [JsString.splitSlashAux]. rewrite Ascii.eqb_refl.
  rewrite splitSlash_join_then by assumption.
  rewrite !append_assoc.
  assert (Hsplit : exists tail,
             JsString.splitSlashAux "" (name ++ rest ++ String "/" "")
             = name :: tail
             /\ Forall (fun s => s = "") tail).
  { destruct Hrest as [->| ->].
    - cbn [String.append]. rewrite splitSlashAux_segment by assumption.
      exists [""]. split; [reflexivity|]. now constructor.
    - cbn [String.append]. rewrite splitSlashAux_segment by assumption.
      exists [""; ""]. split; [reflexivity|]. now repeat constructor. }
  destruct Hsplit as (tail & -> & Htail).
  cbn [Path.normalizeSegments String.eqb].
  rewrite normalizeSegments_clean by assumption.
  rewrite app_nil_r.
  assert (Hpush : forall stack,
             Path.normalizeSegments false stack (name :: tail) = rev (name :: stack)).
  { intros stack. cbn [Path.normalizeSegments].
    assert (E1 : String.eqb name "" = false) by now apply String.eqb_neq.
    assert (E2 : String.eqb name "." = false)
      by (apply String.eqb_neq; now apply cleanSegment_parts in Hname).
    assert (E3 : String.eqb name ".." = false)
      by (apply String.eqb_neq; now apply cleanSegment_parts in Hname).
    rewrite E1, E2, E3. clear - Htail.
    induction Htail as [|t tail -> _ IH]; [reflexivity|].
    cbn [Path.normalizeSegments String.eqb]. exact IH. }
  rewrite Hpush. cbn [rev]. now rewrite rev_involutive.
Qed.
End ImportDirectoryFacts.

(** X23.  The directory whose entries are offered inside an import path,
    for a document [dir/folder/file] without a config: when a name has
    been typed it is the directory of the document, and when the typed
    text ends in a slash it is the directory named; but when nothing has
    been typed yet it is [dir], the parent of the directory of the
    document. *)
Theorem fullInputPathDir_by_fragment (cwd : string) (dir : list string)
        (folder file name : string) :
  Forall (fun s => cleanSegment s = true) (dir ++ [folder; file; name]) ->
  let documentPath := ofSegments (dir ++ [folder; file]) in
  fullInputPathDir cwd "" documentPath None = ofSegments dir
  /\ fullInputPathDir cwd name documentPath None = ofSegments (dir ++ [folder])
  /\ fullInputPathDir cwd (name ++ "/") documentPath None
     = ofSegments (dir ++ [folder; name]).
Proof.
  intros Hclean documentPath.
  apply Forall_app in Hclean as [Hdir Hrest].
  inversion Hrest as [|? ? Hfolder Hrest']; subst.
  inversion Hrest' as [|? ? Hfile Hrest'']; subst.
  inversion Hrest'' as [|? ? Hname _]; subst.
  assert (Hbase : Forall (fun s => cleanSegment s = true) (dir ++ [folder]))
    by (apply Forall_app; split; [assumption|now constructor]).
  assert (Hne : (dir ++ [folder])%list <> []) by (now destruct dir).
  assert (Hdirname : Path.dirname documentPath = ofSegments (dir ++ [folder])).
  { unfold documentPath.
    change (dir ++ [folder; file])%list with (dir ++ [folder] ++ [file])%list.
    rewrite app_assoc. now apply dirname_ofSegments. }
  pose proof (cleanSegment_parts _ Hname) as (_ & _ & _ & Hslash).
  unfold fullInputPathDir. rewrite !resolveAliasedPath_no_config, Hdirname.
  rewrite endsWith_slash_appended, (endsWith_slash_none _ Hslash).
  change (JsString.endsWith "" "/") with false. cbn iota.
  rewrite (resolve_ofSegments_empty cwd Hbase Hne).
  rewrite (@resolve_ofSegments_name cwd (dir ++ [folder]) name false Hbase Hne Hname).
  rewrite (@resolve_ofSegments_name cwd (dir ++ [folder]) name true Hbase Hne Hname).
  rewrite !dirname_ofSegments by assumption.
  rewrite <- app_assoc. repeat split.
Qed.

Lemma fullInputPathDir_by_fragment_witness :
  let documentPath := ofSegments (["proj"] ++ ["src"; "a.scss"]) in
  fullInputPathDir "/" "" documentPath None = ofSegments ["proj"]
  /\ fullInputPathDir "/" "lib" documentPath None = ofSegments (["proj"] ++ ["src"])
  /\ fullInputPathDir "/" ("lib" ++ "/") documentPath None
     = ofSegments (["proj"] ++ ["src"; "lib"]).
Proof.
  apply (@fullInputPathDir_by_fragment "/" ["proj"] "src" "a.scss" "lib").
  repeat constructor.
Defined.

Section ImportItemFacts.
Variable cwd : string.
Variable readDir : string -> option (list string).
Variable statFile : string -> option bool.

Lemma statAll_origin directory files :
  forall stats,
    statAll statFile directory files = Some stats ->
    forall filepath isFile,
      In (filepath, isFile) stats ->
      In filepath files /\ statFile (Path.join [directory; filepath]) = Some isFile.
Proof.
  induction files as [|f files IH]; intros stats H filepath isFile Hin;
    cbn [statAll] in H.
  - inversion H; subst. destruct Hin.
  - destruct (statFile (Path.join [directory; f])) as [b|] eqn:Estat; [|discriminate].
    destruct (statAll statFile directory files) as [rest|]; [|discriminate].
    inversion H; subst. destruct Hin as [Hin|Hin].
    + inversion Hin; subst. split; [now left|assumption].
    + destruct (IH rest eq_refl filepath isFile Hin). split; [now right|assumption].
Qed.
End ImportItemFacts.

(** X24.  The items [createImportCompletionItems] offers.  Outside a
    string literal there are none, and the file system is not read.
    Inside one, every item stands for an entry of the directory listed
    that has a name, beginning with what was typed after the last slash:
    a file only if its name ends in [.scss], labelled without the
    extension and sorted under [1]; anything else as a folder, under its
    name and sorted under [0], so that folders come first. *)
Theorem createImportCompletionItems_items (cwd : string)
        (readDir : string -> option (list string)) (statFile : string -> option bool)
        (node : option INode.t) (documentPath : string) (document : TextDocument.t)
        (cursorOffset : nat) (associatedTsConfig : option ITsConfig.t) :
  (match node with
   | Some literal => INode.type literal <> NodeType.StringLiteral
   | None => True
   end ->
   createImportCompletionItems cwd readDir statFile node documentPath document
     cursorOffset associatedTsConfig
   = Some [])
  /\ forall literal items,
       node = Some literal ->
       INode.type literal = NodeType.StringLiteral ->
       createImportCompletionItems cwd readDir statFile node documentPath document
         cursorOffset associatedTsConfig
       = Some items ->
       let inputFragment := inputFragmentAt document literal cursorOffset in
       let directory := fullInputPathDir cwd inputFragment documentPath associatedTsConfig in
       exists files,
         readDir directory = Some files
         /\ forall item,
              In item items ->
              exists isFile,
                In (ImportItem.detail item) files
                /\ statFile (Path.join [directory; ImportItem.detail item]) = Some isFile
                /\ lastPart (ImportItem.detail item) <> ""
                /\ (lastPart inputFragment = ""
                    \/ JsString.startsWith (lastPart (ImportItem.detail item))
                         (lastPart inputFragment) = true)
                /\ (isFile = true ->
                    JsString.endsWith (ImportItem.detail item) ".scss" = true
                    /\ ImportItem.kind item = KindOfFile
                    /\ ImportItem.label item
                       = removeScssExtension (lastPart (ImportItem.detail item))
                    /\ ImportItem.sortText item = "1" ++ ImportItem.label item)
                /\ (isFile = false ->
                    ImportItem.kind item = KindOfFolder
                    /\ ImportItem.label item = lastPart (ImportItem.detail item)
                    /\ ImportItem.sortText item = "0" ++ ImportItem.label item).
Proof.
  split.
  - unfold createImportCompletionItems. destruct node as [literal|]; [|reflexivity].
    intros Htype. apply Nat.eqb_neq in Htype. now rewrite Htype.
  - intros literal items -> Htype H inputFragment directory.
    unfold createImportCompletionItems in H.
    apply Nat.eqb_eq in Htype. rewrite Htype in H. cbn [negb] in H.
    fold inputFragment in H. fold directory in H.
    destruct (readDir directory) as [files|]; [|discriminate].
    destruct (statAll statFile directory files) as [stats|] eqn:Estats; [|discriminate].
    inversion H; subst items. clear H.
    exists files. split; [reflexivity|].
    intros item Hitem. apply in_flat_map in Hitem as ([filepath isFile] & Hstat & Hitem).
    destruct (statAll_origin _ _ _ Estats _ _ Hstat) as [Hfile Hstated].
    unfold importItemOf in Hitem.
    destruct (isFile && negb (JsString.endsWith filepath ".scss")) eqn:Escss;
      [destruct Hitem|].
    destruct (String.eqb (lastPart filepath) "") eqn:Ename; [destruct Hitem|].
    destruct (negb (String.eqb (lastPart inputFragment) "")
              && negb (JsString.startsWith (lastPart filepath) (lastPart inputFragment)))
      eqn:Eprefix; [destruct Hitem|].
    cbn [orb] in Hitem. destruct Hitem as [<-|[]].
    cbn [ImportItem.detail ImportItem.kind ImportItem.label ImportItem.sortText].
    exists isFile. repeat (split; [assumption|]).
    split; [now apply String.eqb_neq|]. split.
    + apply andb_false_iff in Eprefix as [E|E]; apply negb_false_iff in E.
      * left. now apply String.eqb_eq.
      * now right.
    + split; intros ->; cbn [andb] in Escss.
      * apply negb_false_iff in Escss. now repeat split.
      * now repeat split.
Qed.

(* ================================================================== *)
(** * The workspace root as the server passes it *)
(* ================================================================== *)

Section UriLimitFacts.

Lemma splitSlash_joinSlash segments :
  segments <> [] ->
  Forall (fun s => JsString.includesChar "/" s = false) segments ->
  JsString.splitSlash (JsString.joinSlash segments) = segments.
Proof.
  unfold JsString.splitSlash.
  induction segments as [|a segments IH]; intros Hne Hfree; [congruence|].
  inversion Hfree as [|? ? Ha Hrest]; subst.
  destruct segments as [|b segments].
  - cbn [JsString.joinSlash String.concat]. now rewrite splitSlashAux_last.
  - rewrite joinSlash_cons by discriminate.
    rewrite splitSlashAux_segment by assumption.
    cbn [String.append]. f_equal. apply IH; [discriminate|assumption].
Qed.

Lemma joinSlash_app (a b : list string) :
  a <> [] -> b <> [] ->
  JsString.joinSlash (a ++ b) = JsString.joinSlash a ++ String "/" (JsString.joinSlash b).
Proof.
  intros Ha Hb. induction a as [|x a IH]; [congruence|].
  destruct a as [|y a].
  - cbn [app]. now rewrite joinSlash_cons.
  - change ((x :: y :: a) ++ b)%list with (x :: ((y :: a) ++ b))%list.
    rewrite joinSlash_cons by discriminate.
    rewrite IH by discriminate.
    rewrite (@joinSlash_cons x (y :: a)) by discriminate.
    now rewrite append_assoc.
Qed.

(** Below the root, empty segments vanish and clean ones are kept. *)
Lemma normalizeSegments_plain segments :
  Forall (fun s => s = "" \/ cleanSegment s = true) segments ->
  forall stack,
    Path.normalizeSegments false stack segments
    = (rev stack ++ filter (fun s => negb (String.eqb s "")) segments)%list.
Proof.
  induction 1 as [|s segments Hs _ IH]; intros stack; cbn [Path.normalizeSegments filter].
  - now rewrite app_nil_r.
  - destruct Hs as [->|Hs].
    + cbn [String.eqb negb]. apply IH.
    + apply cleanSegment_parts in Hs as (H1 & H2 & H3 & _).
      apply String.eqb_neq in H1, H2, H3. rewrite H1, H2, H3. cbn [negb].
      rewrite IH. cbn [rev]. now rewrite <- app_assoc.
Qed.

Lemma joinSlash_rootedSegments segments :
  JsString.joinSlash (rootedSegments segments) = ofSegments segments.
Proof.
  destruct segments as [|a segments]; [reflexivity|].
  cbn [rootedSegments]. now rewrite joinSlash_cons.
Qed.

Lemma rootedSegments_plain segments :
  Forall (fun s => cleanSegment s = true) segments ->
  Forall (fun s => s = "" \/ cleanSegment s = true) (rootedSegments segments)
  /\ Forall (fun s => JsString.includesChar "/" s = false) (rootedSegments segments)
  /\ filter (fun s => negb (String.eqb s "")) (rootedSegments segments) = segments
  /\ rootedSegments segments <> [].
Proof.
  intros Hclean.
  assert (Hkeep : filter (fun s => negb (String.eqb s "")) segments = segments).
  { induction Hclean as [|s segments Hs _ IH]; cbn [filter]; [reflexivity|].
    apply cleanSegment_parts in Hs as (H1 & _). apply String.eqb_neq in H1.
    rewrite H1. cbn [negb]. now rewrite IH. }
  destruct segments as [|a segments]; cbn [rootedSegments].
  - repeat split; try discriminate; repeat constructor; auto.
  - repeat split; try discriminate.
    + constructor; [now left|]. eapply Forall_impl; [|exact Hclean]. intros s Hs. now right.
    + constructor; [reflexivity|]. eapply Forall_impl; [|exact Hclean].
      intros s Hs. now apply cleanSegment_parts in Hs.
    + cbn [filter String.eqb negb]. exact Hkeep.
Qed.

(** A [file://] URI taken for a path is resolved below the working
    directory, [file:] being its first segment there. *)
Lemma resolve_file_uri cwdSegments segments :
  Forall (fun s => cleanSegment s = true) cwdSegments ->
  Forall (fun s => cleanSegment s = true) segments ->
  Path.resolve (ofSegments cwdSegments) ["file://" ++ ofSegments segments]
  = ofSegments (cwdSegments ++ "file:" :: segments).
Proof.
  intros Hcwd Hsegments.
  destruct (rootedSegments_plain Hcwd) as (Hc1 & Hc2 & Hc3 & Hc4).
  destruct (rootedSegments_plain Hsegments) as (Hs1 & Hs2 & Hs3 & Hs4).
  unfold Path.resolve, Path.resolveSegments.
  cbn [rev app Path.resolveLoop String.append String.eqb Path.isAbsolute Ascii.eqb
       Bool.eqb].
  rewrite ofSegments_not_empty.
  change (Path.isAbsolute (ofSegments cwdSegments)) with true. cbn iota. cbn [negb].
  match goal with
  | |- context [JsString.splitSlash ?resolvedPath] =>
      replace resolvedPath
        with (JsString.joinSlash
                (rootedSegments cwdSegments
                 ++ ("file:" :: "" :: rootedSegments segments) ++ [""]))
  end.
  2:{ rewrite joinSlash_app by (assumption || discriminate).
      rewrite joinSlash_app by discriminate.
      rewrite !joinSlash_cons by (assumption || discriminate).
      rewrite !joinSlash_rootedSegments. reflexivity. }
  rewrite splitSlash_joinSlash.
  - rewrite normalizeSegments_plain.
    + cbn [rev app]. rewrite !filter_app. cbn [filter String.eqb negb Ascii.eqb Bool.eqb].
      rewrite filter_app. cbn [filter String.eqb negb].
      rewrite Hc3, Hs3, app_nil_r. reflexivity.
    + apply Forall_app. split; [assumption|]. apply Forall_app. split.
      * constructor; [now right|]. constructor; [now left|assumption].
      * constructor; [now left|constructor].
  - now destruct (rootedSegments cwdSegments).
  - apply Forall_app. split; [assumption|]. apply Forall_app. split.
    + repeat (constructor; [reflexivity|]). assumption.
    + now repeat constructor.
Qed.

Lemma dropCommon_prefix_only from to down :
  Path.dropCommon from to = ([], down) -> exists rest, to = (from ++ rest)%list.
Proof.
  intros H. apply dropCommon_spec in H as (common & Hfrom & Hto).
  rewrite app_nil_r in Hfrom. subst common. now exists down.
Qed.

(** Nothing that has no [file:] segment lies below a [file://] URI. *)
Lemma isDescendant_of_file_uri cwdSegments dirSegments limitSegments :
  Forall (fun s => cleanSegment s = true) cwdSegments ->
  Forall (fun s => cleanSegment s = true) dirSegments ->
  Forall (fun s => cleanSegment s = true) limitSegments ->
  ~ In "file:" dirSegments ->
  isDescendant (ofSegments cwdSegments) (ofSegments dirSegments)
    ("file://" ++ ofSegments limitSegments)
  = false.
Proof.
  intros Hcwd Hdir Hlimit Hnot.
  assert (Hfrom : Forall (fun s => cleanSegment s = true)
                         (cwdSegments ++ "file:" :: limitSegments)).
  { apply Forall_app. split; [assumption|]. now constructor. }
  unfold isDescendant, Path.relative.
  rewrite resolve_file_uri, resolve_ofSegments by assumption.
  rewrite !resolveSegments_ofSegments by assumption.
  cbn [fst].
  destruct (String.eqb _ (ofSegments dirSegments)); [reflexivity|].
  destruct (String.eqb _ (ofSegments dirSegments)); [reflexivity|].
  destruct (Path.dropCommon (cwdSegments ++ "file:" :: limitSegments) dirSegments)
    as [[|u up] down] eqn:E.
  - exfalso. apply dropCommon_prefix_only in E as [rest ->].
    apply Hnot. apply in_or_app. left. apply in_or_app. right. now left.
  - cbn [map app]. rewrite joinSlash_dotdot_startsWith.
    now rewrite andb_false_r.
Qed.
End UriLimitFacts.

(** X25.  The server hands [deleteTsConfigFile] the workspace root as a
    [file://] URI.  With such a limit, and a config two levels below a
    directory with no segment [file:], [findFileInParents] gives up at
    once, whatever files exist: no config above is looked for, and the
    documents that pass the test of [deleteTsConfigFile] lose their
    association. *)
Theorem deleteTsConfigFile_uri_workspace (uriLibrary : URI.t) (fs : FileSystem)
        (fuel : nat) (storage : StorageService.t)
        (cwdSegments dirSegments rootSegments : list string) (folder name : string) :
  Forall (fun s => cleanSegment s = true) cwdSegments ->
  Forall (fun s => cleanSegment s = true) (dirSegments ++ [folder; name]) ->
  Forall (fun s => cleanSegment s = true) rootSegments ->
  ~ In "file:" dirSegments ->
  let cwd := ofSegments cwdSegments in
  let tsConfigPath := ofSegments (dirSegments ++ [folder; name]) in
  let workspaceRoot := "file://" ++ ofSegments rootSegments in
  findFileInParents cwd fs fuel "tsconfig.json"
    (Path.dirname (Path.dirname tsConfigPath)) workspaceRoot
  = Some None
  /\ exists storage',
       deleteTsConfigFile cwd uriLibrary fs fuel storage tsConfigPath workspaceRoot
       = Resolved storage'
       /\ forall scssUri,
            JsMap.get (StorageService._tsConfigsAssociations storage') scssUri
            = if existsb (String.eqb scssUri) (StorageService.keys storage)
                 && isDescendant cwd scssUri tsConfigPath
              then None
              else JsMap.get (StorageService._tsConfigsAssociations storage) scssUri.
Proof.
  intros Hcwd Hpath Hroot Hnot cwd tsConfigPath workspaceRoot.
  apply Forall_app in Hpath as [Hdir Hrest].
  inversion Hrest as [|? ? Hfolder Hrest']; subst.
  inversion Hrest' as [|? ? Hname _]; subst.
  assert (Hup : Path.dirname (Path.dirname tsConfigPath) = ofSegments dirSegments).
  { unfold tsConfigPath.
    change (dirSegments ++ [folder; name])%list
      with (dirSegments ++ [folder] ++ [name])%list.
    rewrite app_assoc, dirname_ofSegments; try assumption.
    - now apply dirname_ofSegments.
    - apply Forall_app. split; [assumption|now constructor]. }
  assert (Hfind : findFileInParents cwd fs fuel "tsconfig.json"
                    (Path.dirname (Path.dirname tsConfigPath)) workspaceRoot
                  = Some None).
  { unfold findFileInParents. rewrite Hup. unfold cwd, workspaceRoot.
    now rewrite isDescendant_of_file_uri. }
  split; [exact Hfind|].
  unfold deleteTsConfigFile. rewrite Hfind.
  eexists. split; [reflexivity|].
  intros scssUri. rewrite get_fold_reassociate. reflexivity.
Qed.

Lemma deleteTsConfigFile_uri_workspace_witness :
  let cwd := ofSegments ["proj"] in
  let tsConfigPath := ofSegments (["proj"] ++ ["app"; "tsconfig.json"]) in
  let workspaceRoot := "file://" ++ ofSegments ["proj"] in
  findFileInParents cwd [("/proj/tsconfig.json", Some "{}")] 8 "tsconfig.json"
    (Path.dirname (Path.dirname tsConfigPath)) workspaceRoot
  = Some None
  /\ exists storage',
       deleteTsConfigFile cwd PlainPaths.uriLibrary [("/proj/tsconfig.json", Some "{}")] 8
         Scenario.indexed tsConfigPath workspaceRoot
       = Resolved storage'
       /\ forall scssUri,
            JsMap.get (StorageService._tsConfigsAssociations storage') scssUri
            = if existsb (String.eqb scssUri) (StorageService.keys Scenario.indexed)
                 && isDescendant cwd scssUri tsConfigPath
              then None
              else JsMap.get (StorageService._tsConfigsAssociations Scenario.indexed)
                             scssUri.
Proof.
  apply (@deleteTsConfigFile_uri_workspace PlainPaths.uriLibrary
           [("/proj/tsconfig.json", Some "{}")] 8 Scenario.indexed
           ["proj"] ["proj"] ["proj"] "app" "tsconfig.json").
  - repeat constructor.
  - repeat constructor.
  - repeat constructor.
  - cbn. intros [H|[]]. discriminate.
Defined.

(* ================================================================== *)
(** * Where functions are suggested *)
(* ================================================================== *)

Section ContextFacts.

Lemma substring_one_not_empty s :
  forall n, n < String.length s -> String.substring n 1 s <> "".
Proof.
  induction s as [|c s IH]; intros n Hn; cbn [String.length] in Hn; [lia|].
  destruct n as [|n]; cbn [String.substring]; [discriminate|].
  apply IH. lia.
Qed.

Lemma substrLastButOne_not_empty s : s <> "" -> substrLastButOne s <> "".
Proof.
  intros Hs. unfold substrLastButOne. apply substring_one_not_empty.
  destruct s as [|c s]; [congruence|]. cbn [String.length]. lia.
Qed.

Lemma indexOfFound_in_empty searchString :
  searchString <> "" -> indexOfFound "" searchString = false.
Proof. destruct searchString; [congruence|reflexivity]. Qed.
End ContextFacts.

(** X26.  With the setting [suggestFunctionsInStringContextAfterSymbols]
    empty, as the server has it, functions are suggested in one place
    only: inside quotes, when the word at the cursor holds an
    interpolation.  In a property value outside quotes, where the setting
    is consulted, the character before the word is never found in it.
    Inside quotes variables are suggested under the same condition,
    whatever the setting. *)
Theorem checkFunctionContext_without_symbols (textBeforeWord word : string)
        (isInterpolation isPropertyValue isEmptyValue isQuotes : bool) :
  textBeforeWord <> "" ->
  checkFunctionContext textBeforeWord isInterpolation isPropertyValue isEmptyValue
    isQuotes ""
  = isQuotes && isInterpolation
  /\ (isQuotes = true ->
      forall symbols,
        checkVariableContext word isInterpolation isPropertyValue isEmptyValue isQuotes
        = checkFunctionContext textBeforeWord isInterpolation isPropertyValue isEmptyValue
            isQuotes symbols).
Proof.
  intros Htext. unfold checkFunctionContext, checkVariableContext. split.
  - rewrite (indexOfFound_in_empty (substrLastButOne_not_empty Htext)).
    destruct isPropertyValue, isEmptyValue, isQuotes; reflexivity.
  - intros -> symbols. now rewrite !andb_false_r.
Qed.

Lemma checkFunctionContext_without_symbols_witness :
  checkFunctionContext "  width: 1px " false true false false "" = false && false
  /\ (false = true ->
      forall symbols,
        checkVariableContext "da" false true false false
        = checkFunctionContext "  width: 1px " false true false false symbols).
Proof.
  apply (@checkFunctionContext_without_symbols "  width: 1px " "da" false true false false).
  discriminate.
Defined.

(* ================================================================== *)
(** * Paths and URIs *)
(* ================================================================== *)

Section UriFacts.

Lemma last_character s : s <> "" -> exists a c, s = a ++ String c "".
Proof.
  induction s as [|d s IH]; intros Hne; [congruence|].
  destruct s as [|e s].
  - now exists "", d.
  - destruct IH as (a & c & E); [discriminate|].
    exists (String d a), c. cbn [String.append]. now rewrite <- E.
Qed.

Lemma endsWith_last_character a c :
  JsString.endsWith (a ++ String c "") "/" = Ascii.eqb c "/".
Proof.
  unfold JsString.endsWith. rewrite length_append_one. cbn [String.length Nat.leb].
  replace (S (String.length a) - 1) with (String.length a) by lia.
  rewrite drop_append_length. cbn [String.eqb]. now destruct (Ascii.eqb c "/").
Qed.

(** A normalized absolute path other than the root does not end in a
    slash. *)
Lemma endsWith_slash_ofSegments segments :
  Forall (fun s => cleanSegment s = true) segments -> segments <> [] ->
  JsString.endsWith (ofSegments segments) "/" = false.
Proof.
  intros Hclean Hne.
  destruct (exists_last Hne) as (before & s & ->).
  apply Forall_app in Hclean as [_ Hs]. inversion Hs as [|? ? Hlast _]; subst.
  apply cleanSegment_parts in Hlast as (Hempty & _ & _ & Hslash).
  destruct (last_character Hempty) as (a & c & ->).
  rewrite includesChar_append in Hslash. apply orb_false_iff in Hslash as [_ Hc].
  cbn [JsString.includesChar] in Hc. apply orb_false_iff in Hc as [Hc _].
  rewrite Ascii.eqb_sym in Hc.
  assert (E : exists prefix, ofSegments (before ++ [a ++ String c ""])
                             = prefix ++ String c "").
  { unfold ofSegments. destruct before as [|b before].
    - exists ("/" ++ a). cbn [app JsString.joinSlash String.concat].
      now rewrite append_assoc.
    - rewrite joinSlash_snoc by discriminate.
      exists ("/" ++ JsString.joinSlash (b :: before) ++ String "/" a).
      rewrite !append_assoc. cbn [String.append]. reflexivity. }
  destruct E as [prefix ->]. now rewrite endsWith_last_character.
Qed.

(** [path.normalize] leaves a normalized absolute path as it is. *)
Lemma normalize_ofSegments segments :
  Forall (fun s => cleanSegment s = true) segments ->
  Path.normalize (ofSegments segments) = ofSegments segments.
Proof.
  intros Hclean. unfold Path.normalize, Path.normalizeString.
  rewrite ofSegments_not_empty.
  change (Path.isAbsolute (ofSegments segments)) with true. cbn [negb].
  destruct segments as [|s segments]; [reflexivity|].
  rewrite endsWith_slash_ofSegments by (assumption || discriminate).
  unfold JsString.splitSlash, ofSegments.
  cbn [String.append JsString.splitSlashAux]. rewrite Ascii.eqb_refl.
  fold (JsString.splitSlash (JsString.joinSlash (s :: segments))).
  rewrite splitSlash_join by (assumption || discriminate).
  cbn [Path.normalizeSegments String.eqb].
  pose proof (@normalizeSegments_clean false (s :: segments) [] [] Hclean) as Hkept.
  rewrite !app_nil_r in Hkept. cbn [Path.normalizeSegments] in Hkept.
  rewrite rev_involutive in Hkept. rewrite Hkept.
  destruct (String.eqb (JsString.joinSlash (s :: segments)) "") eqn:E; [|reflexivity].
  apply String.eqb_eq in E. inversion Hclean as [|? ? Hs _]; subst.
  apply cleanSegment_parts in Hs as (Hempty & _). now apply joinSlash_not_empty in E.
Qed.
End UriFacts.

(** X27.  On a normalized absolute path [path.normalize] and
    [uriToFsPath] are the identity, so converting a path twice, as the
    server does with the paths of config files, is harmless, and
    [fsPathToUri] is the URI of the path as it stands.  With a URI library
    that writes [file://] URIs and reads back the path it wrote, the path
    of the URI of such a path is the path itself. *)
Theorem uriToFsPath_round_trip (uriLibrary : URI.t) (segments : list string) :
  Forall (fun s => cleanSegment s = true) segments ->
  let filepath := ofSegments segments in
  Path.normalize filepath = filepath
  /\ uriToFsPath uriLibrary filepath = filepath
  /\ uriToFsPath uriLibrary (uriToFsPath uriLibrary filepath)
     = uriToFsPath uriLibrary filepath
  /\ fsPathToUri uriLibrary filepath = URI.file_toString uriLibrary filepath
  /\ (JsString.startsWith (URI.file_toString uriLibrary filepath) "file://" = true ->
      URI.parse_fsPath uriLibrary (URI.file_toString uriLibrary filepath) = filepath ->
      uriToFsPath uriLibrary (fsPathToUri uriLibrary filepath) = filepath).
Proof.
  intros Hclean filepath.
  pose proof (normalize_ofSegments Hclean) as Hnormal. fold filepath in Hnormal.
  assert (Hpath : uriToFsPath uriLibrary filepath = filepath).
  { unfold uriToFsPath.
    change (JsString.startsWith filepath "file://") with false. exact Hnormal. }
  repeat split.
  - exact Hnormal.
  - exact Hpath.
  - now rewrite !Hpath.
  - unfold fsPathToUri. now rewrite Hnormal.
  - intros Hscheme Hread. unfold fsPathToUri, uriToFsPath.
    now rewrite Hnormal, Hscheme, Hread.
Qed.

Lemma uriToFsPath_round_trip_witness :
  let filepath := ofSegments ["proj"; "src"; "a.scss"] in
  Path.normalize filepath = filepath
  /\ uriToFsPath PlainPaths.uriLibrary filepath = filepath
  /\ uriToFsPath PlainPaths.uriLibrary (uriToFsPath PlainPaths.uriLibrary filepath)
     = uriToFsPath PlainPaths.uriLibrary filepath
  /\ fsPathToUri PlainPaths.uriLibrary filepath
     = URI.file_toString PlainPaths.uriLibrary filepath
  /\ (JsString.startsWith (URI.file_toString PlainPaths.uriLibrary filepath) "file://"
      = true ->
      URI.parse_fsPath PlainPaths.uriLibrary
        (URI.file_toString PlainPaths.uriLibrary filepath) = filepath ->
      uriToFsPath PlainPaths.uriLibrary (fsPathToUri PlainPaths.uriLibrary filepath)
      = filepath).
Proof.
  apply (@uriToFsPath_round_trip PlainPaths.uriLibrary ["proj"; "src"; "a.scss"]).
  repeat constructor.
Defined.

(* ================================================================== *)
(** * The provider as a whole and the label *)
(* ================================================================== *)

(** X28.  The label at the level of the provider.  For a document
    without an [@import] statement at its top, and a cursor where neither
    mixins nor functions are in context, the whole of [doCompletion], its
    items, its rejection and the index it leaves, is what it is with the
    label switched off: no variable item bears the label, whatever the
    node at the cursor, the file system and the index are. *)
Theorem doCompletion_unlabelled_variables
        (cwd : string) (uriLibrary : URI.t) (ls : LanguageService.t)
        (getDocumentPath : string -> option string -> string)
        (getVariableColor : string -> option string)
        (readDir : string -> option (list string)) (statFile : string -> option bool)
        (document : TextDocument.t) (node : option HoverNode.t)
        (ast : option Stylesheet.t) (text : CursorText.t) (offset : nat)
        (suggestFunctionsInStringContextAfterSymbols : string)
        (settings : ISettings.t) (storage : StorageService.t) :
  hasStatement NodeType.Import ast = false ->
  (forall c,
     CompletionProvider.createCompletionContext node text
       suggestFunctionsInStringContextAfterSymbols = Some c ->
     CompletionContext.mixin c = false /\ CompletionContext.function c = false) ->
  CompletionProvider.doCompletion cwd uriLibrary ls getDocumentPath getVariableColor
    readDir statFile document node ast text offset
    suggestFunctionsInStringContextAfterSymbols settings storage
  = CompletionProvider.doCompletion cwd uriLibrary ls getDocumentPath getVariableColor
      readDir statFile document node ast text offset
      suggestFunctionsInStringContextAfterSymbols (withoutLabel settings) storage.
Proof.
  intros Hast Hcontext. unfold CompletionProvider.doCompletion.
  destruct (CompletionProvider.createCompletionContext node text
              suggestFunctionsInStringContextAfterSymbols) as [c|]; [|reflexivity].
  destruct (Hcontext c eq_refl) as [Hmixin Hfunction].
  destruct (CompletionContext.comment c); [reflexivity|].
  destruct (if CompletionContext.use c || CompletionContext.import c
            then createImportCompletionItems cwd readDir statFile
                   (option_map HoverNode.node node)
                   (uriToFsPath uriLibrary (TextDocument.uri document)) document offset
                   (StorageService.getAssociatedTsConfig storage (TextDocument.uri document))
            else Some []) as [uses|]; [|reflexivity].
  rewrite Hmixin, Hfunction, !andb_false_r.
  cbn [ISettings.suggestVariables withoutLabel].
  now rewrite <- (@createVariableCompletionItems_unlabelled uriLibrary getDocumentPath
                    getVariableColor ast _ _ _ settings Hast).
Qed.

Lemma doCompletion_unlabelled_variables_witness :
  CompletionProvider.doCompletion "/" PlainPaths.uriLibrary Scenario.noSymbols
    AcrossFiles.pathAsIs Neighbour.noColor AtCursor.noDirectory AtCursor.noStat
    Neighbour.aDocument AtCursor.inValue Neighbour.aTree AtCursor.text 11 ""
    Scenario.settings Neighbour.index
  = (Some [CompletionItem.mk "$v" KindOfVariable "/proj/b"],
     StorageService.set Neighbour.index "file:///proj/a.scss"
       (parseDocument PlainPaths.uriLibrary Scenario.noSymbols Neighbour.aDocument)).
Proof.
  rewrite (@doCompletion_unlabelled_variables "/" PlainPaths.uriLibrary Scenario.noSymbols
             AcrossFiles.pathAsIs Neighbour.noColor AtCursor.noDirectory AtCursor.noStat
             Neighbour.aDocument AtCursor.inValue Neighbour.aTree AtCursor.text 11 ""
             Scenario.settings Neighbour.index).
  - reflexivity.
  - reflexivity.
  - intros c Hc. injection Hc as <-. split; reflexivity.
Defined.
